(** * Market Forge / Printful integration: a shallow embedding

    The development follows the repository file by file:

    - [Js]         the fragment of JavaScript values the code computes with
                   (JSON data plus [undefined]), truthiness, property reads,
                   string conversion;
    - [Net]        [fetch]: requests, responses, and the monad that threads
                   the trace of issued requests through the asynchronous code;
    - [Original]   lib/printful, first version (src/unnamed/part_000);
    - [Fixed]      lib/printful, "FIXED VERSION" (src/unnamed/part_001);
    - [Route]      the /api/printful route (src/unnamed/part_004);
    - [Browser]    components/PrintfulBrowser.tsx;
    - [NodePath]   the POSIX flavour of Node's [path] module;
    - [Download]   app/api/marketplace/download/[slug]/route.ts;
    - [Samples]    concrete engines, providers, rows and states;
    - [Spec]       the vocabulary the statements are written in;
    - [BrowserSteps]  the event handlers of PrintfulBrowser.tsx and the
                   steps they allow;
    - [Checkout]   the checkout route (src/unnamed/part_002);
    - [CreateProduct]  the product creation route;
    - [Health]     the health check (src/unnamed/part_003);
    - [MoreSamples], [Cover]  further samples and vocabulary.

    Definitions come first, the statements about them afterwards.

    Conventions.  An [async] function is a computation in the monad [Net.M]:
    it may throw, and it extends the trace of requests handed to [fetch].
    The body given to [JSON.stringify] is kept as the value it was built
    from.  Logging calls are left out. *)

From Stdlib Require Import PrimFloat FloatOps SpecFloat.
From Stdlib Require Import Bool String Ascii List ZArith Lia DecimalString.
Import ListNotations.
Open Scope string_scope.
Set Warnings "-register-all".

(* ================================================================== *)
(** * JavaScript values *)
(* ================================================================== *)

Module Js.

(** What [JSON.parse] can produce, plus [undefined] (the value of a missing
    property).  Numbers are IEEE binary64, as in the language. *)
Inductive value : Type :=
| VUndefined
| VNull
| VBool (b : bool)
| VNum (n : float)
| VStr (s : string)
| VArr (items : list value)
| VObj (fields : list (string * value)).

(** The three kinds of exception the code can meet; [message] is what
    [(error as Error).message] reads. *)
Inductive js_error : Type :=
| Error (msg : string)
| TypeError (msg : string)
| SyntaxError (msg : string).

Definition message (e : js_error) : string :=
  match e with Error m | TypeError m | SyntaxError m => m end.

(** A computation either returns or throws. *)
Inductive result (A : Type) : Type :=
| Ok (a : A)
| Err (e : js_error).
Arguments Ok {A} a.
Arguments Err {A} e.

Definition rbind {A B} (r : result A) (k : A -> result B) : result B :=
  match r with Ok a => k a | Err e => Err e end.

Fixpoint rmap {A B} (f : A -> result B) (l : list A) : result (list B) :=
  match l with
  | [] => Ok []
  | x :: rest =>
      rbind (f x) (fun y => rbind (rmap f rest) (fun ys => Ok (y :: ys)))
  end.

(** Built-ins of the engine whose text is not fixed by the repository: the
    rendering of numbers that are not integers of magnitude below 2^53, the
    parsers from strings to numbers, form encoding, and the wording of
    engine-raised TypeErrors (reading a property of [null] or [undefined],
    destructuring one, calling what is no function). *)
Class Builtins : Type := {
  exotic_number_to_string : float -> string;
  string_to_number : string -> float;
  parseInt : string -> float;
  encodeURIComponent : string -> string;
  form_urlencode : string -> string;
  cannot_read_text : value -> string -> string;
  cannot_destructure_text : value -> string -> string;
  not_a_function_text : string -> string;
}.

Definition decimal (z : Z) : string := NilZero.string_of_int (Z.to_int z).

Definition Z_to_float (z : Z) : float :=
  SF2Prim (binary_normalize prec emax z 0 false).

Definition nat_to_float (n : nat) : float := Z_to_float (Z.of_nat n).

(** [Some z] when the double is the integer [z]. *)
Definition integral (f : float) : option Z :=
  match Prim2SF f with
  | S754_zero _ => Some 0%Z
  | S754_finite s m e =>
      let mag :=
        if (0 <=? e)%Z then Some (Z.pos m * 2 ^ e)%Z
        else if (Z.pos m mod 2 ^ (- e) =? 0)%Z
             then Some (Z.pos m / 2 ^ (- e))%Z else None in
      option_map (fun z => if s then (- z)%Z else z) mag
  | _ => None
  end.

(** JavaScript truthiness: [!!v]. *)
Definition num_truthy (n : float) : bool :=
  negb (PrimFloat.is_zero n || PrimFloat.is_nan n).

Definition str_truthy (s : string) : bool := negb (s =? "").

Definition truthy (v : value) : bool :=
  match v with
  | VUndefined | VNull => false
  | VBool b => b
  | VNum n => num_truthy n
  | VStr s => str_truthy s
  | VArr _ | VObj _ => true
  end.

Definition nullish (v : value) : bool :=
  match v with VUndefined | VNull => true | _ => false end.

(** [a || b] *)
Definition or_else (a b : value) : value := if truthy a then a else b.

Fixpoint lookup (k : string) (fs : list (string * value)) : option value :=
  match fs with
  | [] => None
  | (k', v) :: rest => if k' =? k then Some v else lookup k rest
  end.

(** A string is kept as the bytes of its UTF-8 encoding (generalized to
    lone surrogates, which take three bytes), while the language counts and
    indexes it by UTF-16 code unit.  A byte below 128 is one unit; the lead
    byte of a two- or three-byte sequence stands for one unit, that of a
    four-byte sequence for the two units of a surrogate pair, and a
    continuation byte for none. *)
Definition utf16_units (c : ascii) : nat :=
  let n := nat_of_ascii c in
  if Nat.ltb n 128 then 1
  else if Nat.ltb n 192 then 0
  else if Nat.ltb n 240 then 1
  else 2.

(** [s.length] *)
Fixpoint utf16_length (s : string) : nat :=
  match s with
  | EmptyString => 0
  | String c rest => utf16_units c + utf16_length rest
  end.

(** The bytes of the sequence that a lead byte starts. *)
Definition utf8_width (c : ascii) : nat :=
  let n := nat_of_ascii c in
  if Nat.ltb n 192 then 1
  else if Nat.ltb n 224 then 2
  else if Nat.ltb n 240 then 3
  else 4.

(** The high surrogate of the code point that the four bytes encode, as its
    own three bytes: with [cp] the code point, the unit is
    [0xD800 + ((cp - 0x10000) >> 10)]. *)
Definition high_surrogate (b0 b1 b2 : ascii) : string :=
  let top :=
    (N.land (N_of_ascii b0) 7 * 256
     + N.land (N_of_ascii b1) 63 * 4
     + N.land (N_of_ascii b2) 63 / 16)%N in
  let unit := (55296 + (top - 64))%N in
  String (ascii_of_N 237)
    (String (ascii_of_N (128 + N.land (unit / 64) 63))
       (String (ascii_of_N (128 + N.land unit 63)) EmptyString)).

(** [s[0]]: the first code unit, as a string. *)
Definition first_unit (s : string) : option string :=
  match s with
  | EmptyString => None
  | String b0 rest =>
      if Nat.ltb (utf8_width b0) 4 then Some (substring 0 (utf8_width b0) s)
      else match rest with
           | String b1 (String b2 _) => Some (high_surrogate b0 b1 b2)
           | _ => Some (String b0 EmptyString)
           end
  end.

(** Own properties, and [length] of arrays and strings.  None of the names
    the code reads is inherited from a prototype. *)
Definition prop (v : value) (p : string) : value :=
  match v with
  | VObj fs => match lookup p fs with Some x => x | None => VUndefined end
  | VArr l => if p =? "length" then VNum (nat_to_float (List.length l)) else VUndefined
  | VStr s => if p =? "length" then VNum (nat_to_float (utf16_length s)) else VUndefined
  | _ => VUndefined
  end.

(** [v === n] for a number literal [n]. *)
Definition strict_eq_num (v : value) (n : float) : bool :=
  match v with VNum m => PrimFloat.eqb m n | _ => false end.

Section WithBuiltins.
Context {B : Builtins}.

(** Number::toString.  An integer of magnitude below 2^53 prints as its
    decimal digits: every integer in that range is a double, so no shorter
    digit string reads back as the same number.  From 2^53 on the engine
    prints the shortest digits that read back, padded with zeros, which is
    left to [exotic_number_to_string] like the fractions. *)
Definition number_to_string (n : float) : string :=
  if PrimFloat.is_nan n then "NaN"
  else if PrimFloat.eqb n PrimFloat.infinity then "Infinity"
  else if PrimFloat.eqb n PrimFloat.neg_infinity then "-Infinity"
  else match integral n with
       | Some z => if (Z.abs z <? 2 ^ 53)%Z then decimal z
                   else exotic_number_to_string n
       | None => exotic_number_to_string n
       end.

(** ToString, as template literals and [new Error(x)] apply it. *)
Fixpoint to_string (v : value) : string :=
  match v with
  | VUndefined => "undefined"
  | VNull => "null"
  | VBool true => "true"
  | VBool false => "false"
  | VNum n => number_to_string n
  | VStr s => s
  | VArr l =>
      (fix join (l : list value) : string :=
         match l with
         | [] => ""
         | x :: rest =>
             let here := if nullish x then "" else to_string x in
             match rest with
             | [] => here
             | _ :: _ => here ++ "," ++ join rest
             end
         end) l
  | VObj _ => "[object Object]"
  end.

(** ToNumber, as [*] applies it to its operands. *)
Definition to_number (v : value) : float :=
  match v with
  | VUndefined => PrimFloat.nan
  | VNull => PrimFloat.zero
  | VBool true => PrimFloat.one
  | VBool false => PrimFloat.zero
  | VNum n => n
  | VStr s => string_to_number s
  | VArr _ | VObj _ => string_to_number (to_string v)
  end.

(** [v.p]: reading a property of [null] or [undefined] throws. *)
Definition get (v : value) (p : string) : result value :=
  if nullish v then Err (TypeError (cannot_read_text v p)) else Ok (prop v p).

(** [v?.p] *)
Definition get_opt (v : value) (p : string) : value :=
  if nullish v then VUndefined else prop v p.

(** [const { p } = v]: destructuring [null] or [undefined] throws, with a
    wording of its own. *)
Definition destructure (v : value) (p : string) : result value :=
  if nullish v then Err (TypeError (cannot_destructure_text v p)) else Ok (prop v p).

(** [v[0]] *)
Definition index0 (v : value) : result value :=
  match v with
  | VUndefined | VNull => Err (TypeError (cannot_read_text v "0"))
  | VArr l => Ok (nth 0 l VUndefined)
  | VStr s => Ok (match first_unit s with
                  | None => VUndefined
                  | Some u => VStr u
                  end)
  | VObj fs => Ok (prop v "0")
  | _ => Ok VUndefined
  end.

(** The receiver of [v.map(f)]: only an array has the method. *)
Definition map_receiver (v : value) : result (list value) :=
  match v with
  | VArr l => Ok l
  | VUndefined | VNull => Err (TypeError (cannot_read_text v "map"))
  | _ => Err (TypeError (not_a_function_text "map"))
  end.

(** The receiver of [v.slice(0, n).map(f)]: a string can be sliced, but the
    slice has no [map]. *)
Definition slice_receiver (v : value) : result (list value) :=
  match v with
  | VArr l => Ok l
  | VUndefined | VNull => Err (TypeError (cannot_read_text v "slice"))
  | VStr _ => Err (TypeError (not_a_function_text "map"))
  | _ => Err (TypeError (not_a_function_text "slice"))
  end.

End WithBuiltins.

End Js.

(* ================================================================== *)
(** * fetch *)
(* ================================================================== *)

Module Net.
Import Js.

(** The second argument of [fetch] together with the URL.  [req_body] is the
    value handed to [JSON.stringify]. *)
Record request : Type := mkRequest {
  req_url : string;
  req_method : option string;
  req_headers : list (string * string);
  req_body : option value;
}.

(** [response.json()] either rejects or yields the parsed body. *)
Inductive body_outcome : Type :=
| BadJson (msg : string)
| Json (data : value).

Record response : Type := mkResponse {
  status : Z;
  body : body_outcome;
}.

Definition ok (r : response) : bool :=
  ((200 <=? status r) && (status r <=? 299))%Z.

Inductive fetch_outcome : Type :=
| FetchFailed (msg : string)
| Responded (r : response).

(** The outside world: what [fetch] answers to a request, given the requests
    issued before it. *)
Definition provider : Type := list request -> request -> fetch_outcome.

(** Asynchronous code as a state-and-exception monad over the trace of
    requests issued so far. *)
Definition M (A : Type) : Type := list request -> result A * list request.

Definition ret {A} (a : A) : M A := fun tr => (Ok a, tr).
Definition throw {A} (e : js_error) : M A := fun tr => (Err e, tr).
Definition bind {A B} (m : M A) (k : A -> M B) : M B :=
  fun tr => match m tr with
            | (Ok a, tr') => k a tr'
            | (Err e, tr') => (Err e, tr')
            end.
Definition lift {A} (r : result A) : M A := fun tr => (r, tr).

(** [p.catch(() => fallback)] *)
Definition catch {A} (m : M A) (fallback : A) : M A :=
  fun tr => match m tr with
            | (Ok a, tr') => (Ok a, tr')
            | (Err _, tr') => (Ok fallback, tr')
            end.

(** [try { m } catch (error) { return handler(error) }] *)
Definition try_catch {A} (m : M A) (handler : js_error -> A) : M A :=
  fun tr => match m tr with
            | (Ok a, tr') => (Ok a, tr')
            | (Err e, tr') => (Ok (handler e), tr')
            end.

Definition fetch (P : provider) (rq : request) : M response :=
  fun tr => (match P tr rq with
             | FetchFailed m => Err (TypeError m)
             | Responded r => Ok r
             end, (tr ++ [rq])%list).

(** [Promise.all(ids.map(f))] for an [f] that starts its request before its
    first [await]: the requests leave in list order, and the results come
    back in list order. *)
Fixpoint all {A B} (f : A -> M B) (l : list A) : M (list B) :=
  match l with
  | [] => ret []
  | x :: rest =>
      fun tr =>
        let (r, tr1) := f x tr in
        let (rs, tr2) := all f rest tr1 in
        (match r, rs with
         | Ok y, Ok ys => Ok (y :: ys)
         | Err e, _ => Err e
         | Ok _, Err e => Err e
         end, tr2)
  end.

(** [{...a, ...b}] on string-valued objects. *)
Fixpoint assign (a : list (string * string)) (kv : string * string)
  : list (string * string) :=
  match a with
  | [] => [kv]
  | (k, v) :: rest =>
      if k =? fst kv then (k, snd kv) :: rest else (k, v) :: assign rest kv
  end.

Definition spread (a b : list (string * string)) : list (string * string) :=
  fold_left assign b a.

Fixpoint header (k : string) (hs : list (string * string)) : option string :=
  match hs with
  | [] => None
  | (k', v) :: rest => if k' =? k then Some v else header k rest
  end.

(** [RequestInit], as far as the client fills it in. *)
Record RequestInit : Type := mkInit {
  init_method : option string;
  init_body : option value;
  init_headers : option (list (string * string));
}.

Definition no_options : RequestInit := mkInit None None None.
Definition post (b : value) : RequestInit := mkInit (Some "POST") (Some b) None.

(** [process.env] *)
Record env : Type := mkEnv {
  env_PRINTFUL_API_KEY : option string;
  env_PRINTFUL_STORE_ID : option string;
}.

End Net.

Declare Scope js_scope.
Delimit Scope js_scope with js.
Notation "x <- m ;; k" := (Net.bind m (fun x => k))
  (at level 61, m at next level, right associativity) : js_scope.
Notation "'let!' x := r 'in' k" := (Net.bind (Net.lift r) (fun x => k))
  (at level 61, x name, r at next level, right associativity) : js_scope.

(* ================================================================== *)
(** * lib/printful, first version (src/unnamed/part_000) *)
(* ================================================================== *)

Module Original.
Import Js Net.
Local Open Scope js_scope.

Definition PRINTFUL_API_URL : string := "https://api.printful.com".

(** Keys of [POPULAR_PRODUCTS], in declaration order. *)
Inductive product_key : Type :=
| tShirt | hoodie | mug | poster | phoneCase | toteBag | sticker | canvas.

Definition POPULAR_PRODUCTS (k : product_key) : float :=
  match k with
  | tShirt => 71
  | hoodie => 380
  | mug => 19
  | poster => 1
  | phoneCase => 195
  | toteBag => 84
  | sticker => 358
  | canvas => 2
  end%float.

(** The optional argument of [listOrders]. *)
Record ListOrdersParams : Type := mkListOrders {
  lo_status : option string;
  lo_offset : option float;
  lo_limit : option float;
}.

(** The argument of [quickCreateProduct]. *)
Record QuickParams : Type := mkQuick {
  qp_name : string;
  qp_designUrl : string;
  qp_productType : product_key;
  qp_retailMarkup : option float;
}.

(** [[{ type: 'default', url: designUrl }]] *)
Definition default_file (designUrl : string) : value :=
  VObj [("type", VStr "default"); ("url", VStr designUrl)].

Section Client.
Context {B : Builtins}.
Variable E : env.
Variable P : provider.

Definition getHeaders : result (list (string * string)) :=
  match env_PRINTFUL_API_KEY E with
  | Some key =>
      if str_truthy key
      then Ok [("Authorization", "Bearer " ++ key);
               ("Content-Type", "application/json")]
      else Err (Error "PRINTFUL_API_KEY not configured")
  | None => Err (Error "PRINTFUL_API_KEY not configured")
  end.

(** What [printfulRequest] does with the response once [fetch] resolved. *)
Definition read_envelope (r : response) : result value :=
  if negb (ok r) then
    let error := match body r with BadJson _ => VObj [] | Json d => d end in
    rbind (get error "result") (fun res =>
      Err (Error (to_string
        (or_else res (VStr ("Printful API error: " ++ decimal (status r)))))))
  else
    match body r with
    | BadJson m => Err (SyntaxError m)
    | Json data => get data "result"
    end.

Definition printfulRequest (endpoint : string) (options : RequestInit) : M value :=
  let! hs := getHeaders in
  response <- fetch P (mkRequest (PRINTFUL_API_URL ++ endpoint)
                         (init_method options)
                         (spread hs (match init_headers options with
                                     | Some h => h
                                     | None => []
                                     end))
                         (init_body options)) ;;
  lift (read_envelope response).

Definition getCatalog : M value := printfulRequest "/products" no_options.

Definition getProduct (productId : float) : M value :=
  printfulRequest ("/products/" ++ number_to_string productId) no_options.

Definition createSyncProduct (name thumbnail : string) (variants : value) : M value :=
  printfulRequest "/sync/products"
    (post (VObj [("sync_product", VObj [("name", VStr name);
                                        ("thumbnail", VStr thumbnail)]);
                 ("sync_variants", variants)])).

Definition createMockup (productId : float) (variantIds files : value) : M value :=
  printfulRequest ("/mockup-generator/create-task/" ++ number_to_string productId)
    (post (VObj [("variant_ids", variantIds); ("files", files)])).

Definition getMockupResult (taskKey : string) : M value :=
  printfulRequest ("/mockup-generator/task?task_key=" ++ taskKey) no_options.

Definition getShippingRates (params : value) : M value :=
  printfulRequest "/shipping/rates" (post params).

Definition createOrder (params : value) : M value :=
  printfulRequest "/orders" (post params).

Definition getOrder (orderId : string) : M value :=
  printfulRequest ("/orders/" ++ orderId) no_options.

(** [URLSearchParams]: the pairs set, then [toString()]. *)
Definition query_pairs (params : option ListOrdersParams) : list (string * string) :=
  match params with
  | None => []
  | Some p =>
      (match lo_status p with
       | Some s => if str_truthy s then [("status", s)] else []
       | None => []
       end ++
       match lo_offset p with
       | Some n => if num_truthy n then [("offset", number_to_string n)] else []
       | None => []
       end ++
       match lo_limit p with
       | Some n => if num_truthy n then [("limit", number_to_string n)] else []
       | None => []
       end)%list
  end.

Fixpoint query_string (q : list (string * string)) : string :=
  match q with
  | [] => ""
  | (k, v) :: rest =>
      let here := form_urlencode k ++ "=" ++ form_urlencode v in
      match rest with
      | [] => here
      | _ :: _ => here ++ "&" ++ query_string rest
      end
  end.

Definition listOrders (params : option ListOrdersParams) : M value :=
  let queryString := query_string (query_pairs params) in
  printfulRequest
    ("/orders" ++ (if str_truthy queryString then "?" ++ queryString else ""))
    no_options.

Definition cancelOrder (orderId : string) : M value :=
  _ <- printfulRequest ("/orders/" ++ orderId) (mkInit (Some "DELETE") None None) ;;
  ret VUndefined.

Definition getStoreInfo : M value := printfulRequest "/stores" no_options.

Definition estimateCosts (params : value) : M value :=
  printfulRequest "/orders/estimate-costs" (post params).

(** [params.retailMarkup || 2] *)
Definition markup_of (retailMarkup : option float) : float :=
  match retailMarkup with
  | Some m => if num_truthy m then m else 2%float
  | None => 2%float
  end.

(** The callback of the first [baseVariants.map]. *)
Definition sync_variant (designUrl : string) (markup : float) (v : value)
  : result value :=
  rbind (get v "id") (fun id =>
  rbind (get v "price") (fun price =>
  Ok (VObj [("variant_id", id);
            ("retail_price", VNum (to_number price * markup)%float);
            ("files", VArr [default_file designUrl])]))).

Definition quickCreateProduct (params : QuickParams) : M value :=
  let productId := POPULAR_PRODUCTS (qp_productType params) in
  let markup := markup_of (qp_retailMarkup params) in
  product <- getProduct productId ;;
  let! variants := get product "variants" in
  let! sliced := slice_receiver variants in
  let baseVariants := firstn 5 sliced in
  let! syncVariants := rmap (sync_variant (qp_designUrl params) markup) baseVariants in
  syncProduct <- createSyncProduct (qp_name params) (qp_designUrl params)
                   (VArr syncVariants) ;;
  let! variantIds := rmap (fun v => get v "id") baseVariants in
  mockupTask <- createMockup productId (VArr variantIds)
                  (VArr [default_file (qp_designUrl params)]) ;;
  let! id := get syncProduct "id" in
  let! mockups := get mockupTask "mockups" in
  let! ms := map_receiver mockups in
  let! urls := rmap (fun m => get m "mockup_url") ms in
  ret (VObj [("productId", id); ("mockupUrls", VArr urls)]).

(** The exported operations, as a caller can invoke them. *)
Inductive operation : Type :=
| GetCatalog
| GetProduct (productId : float)
| CreateSyncProduct (name thumbnail : string) (variants : value)
| CreateMockup (productId : float) (variantIds files : value)
| GetMockupResult (taskKey : string)
| GetShippingRates (params : value)
| CreateOrder (params : value)
| GetOrder (orderId : string)
| ListOrders (params : option ListOrdersParams)
| CancelOrder (orderId : string)
| GetStoreInfo
| EstimateCosts (params : value)
| QuickCreateProduct (params : QuickParams).

Definition run (op : operation) : M value :=
  match op with
  | GetCatalog => getCatalog
  | GetProduct i => getProduct i
  | CreateSyncProduct n t v => createSyncProduct n t v
  | CreateMockup i v f => createMockup i v f
  | GetMockupResult k => getMockupResult k
  | GetShippingRates p => getShippingRates p
  | CreateOrder p => createOrder p
  | GetOrder i => getOrder i
  | ListOrders p => listOrders p
  | CancelOrder i => cancelOrder i
  | GetStoreInfo => getStoreInfo
  | EstimateCosts p => estimateCosts p
  | QuickCreateProduct p => quickCreateProduct p
  end.

End Client.

End Original.

(* ================================================================== *)
(** * lib/printful, fixed version (src/unnamed/part_001) *)
(* ================================================================== *)

Module Fixed.
Import Js Net.
Local Open Scope js_scope.

Definition PRINTFUL_API_URL : string := "https://api.printful.com".

(** [POPULAR_PRODUCTS], an object literal: keys in declaration order. *)
Definition POPULAR_PRODUCTS : list (string * float) :=
  [("tShirt", 71); ("hoodie", 380); ("mug", 19); ("poster", 1);
   ("phoneCase", 195); ("toteBag", 84); ("sticker", 358); ("canvas", 2)]%float.

(** [Object.values] *)
Definition Object_values {A} (o : list (string * A)) : list A := map snd o.

Definition is_null (v : value) : bool :=
  match v with VNull => true | _ => false end.

Section Client.
Context {B : Builtins}.
Variable E : env.
Variable P : provider.

(** [process.env.PRINTFUL_STORE_ID || '16513682'] *)
Definition PRINTFUL_STORE_ID : string :=
  match env_PRINTFUL_STORE_ID E with
  | Some s => if str_truthy s then s else "16513682"
  | None => "16513682"
  end.

Definition getHeaders : result (list (string * string)) :=
  match env_PRINTFUL_API_KEY E with
  | Some key =>
      if str_truthy key
      then Ok [("Authorization", "Bearer " ++ key);
               ("Content-Type", "application/json");
               ("X-PF-Store-Id", PRINTFUL_STORE_ID)]
      else Err (Error "PRINTFUL_API_KEY not configured")
  | None => Err (Error "PRINTFUL_API_KEY not configured")
  end.

(** What [printfulRequest] does with the response once [fetch] resolved.
    After [data.code] was read, [data] is known not to be [null], so the
    later reads of [data] cannot throw and are written with [prop]. *)
Definition read_envelope (r : response) : result value :=
  match body r with
  | BadJson m => Err (SyntaxError m)
  | Json data =>
      rbind (get data "code") (fun code =>
        if negb (strict_eq_num code 200%float) then
          Err (Error (to_string
            (or_else (get_opt (prop data "error") "message")
               (or_else (prop data "result")
                  (VStr ("Printful API error: " ++ to_string code))))))
        else Ok (prop data "result"))
  end.

Definition printfulRequest (endpoint : string) (options : RequestInit) : M value :=
  let! hs := getHeaders in
  response <- fetch P (mkRequest (PRINTFUL_API_URL ++ endpoint)
                         (init_method options)
                         (spread hs (match init_headers options with
                                     | Some h => h
                                     | None => []
                                     end))
                         (init_body options)) ;;
  lift (read_envelope response).

(** [getCatalog(limit = 20)] *)
Definition getCatalog (limit : option float) : M value :=
  let limit := match limit with Some n => n | None => 20%float end in
  printfulRequest ("/products?limit=" ++ number_to_string limit) no_options.

Definition getProduct (productId : float) : M value :=
  printfulRequest ("/products/" ++ number_to_string productId) no_options.

Definition getVariant (variantId : float) : M value :=
  printfulRequest ("/products/variant/" ++ number_to_string variantId) no_options.

Definition getShippingRates (params : value) : M value :=
  printfulRequest "/shipping/rates" (post params).

Definition estimateCosts (params : value) : M value :=
  printfulRequest "/orders/estimate-costs" (post params).

(** The route passes [productId] straight from the request body, so it is
    any value here; the template literal converts it. *)
Definition createMockupTask (productId variantIds files : value) : M value :=
  printfulRequest ("/mockup-generator/create-task/" ++ to_string productId)
    (post (VObj [("variant_ids", variantIds); ("files", files)])).

Definition getMockupResult (taskKey : string) : M value :=
  printfulRequest ("/mockup-generator/task?task_key=" ++ taskKey) no_options.

Definition getStoreInfo : M value :=
  stores <- printfulRequest "/stores" no_options ;;
  lift (index0 stores).

Definition createDraftOrder (recipient items : value) : M value :=
  printfulRequest "/orders"
    (post (VObj [("recipient", recipient); ("items", items);
                 ("confirm", VBool false)])).

Definition getPopularProducts : M value :=
  let productIds := Object_values POPULAR_PRODUCTS in
  products <- all (fun id => catch (getProduct id) VNull) (firstn 5 productIds) ;;
  ret (VArr (filter (fun p => negb (is_null p)) products)).

(** The callback of [detail.variants.slice(0, 5).map]. *)
Definition pricing_variant (v : value) : result value :=
  rbind (get v "name") (fun name =>
  rbind (get v "price") (fun price =>
  Ok (VObj [("name", name); ("price", price)]))).

Definition getProductPricing (productId : float) : M value :=
  detail <- getProduct productId ;;
  let! all_variants := get detail "variants" in
  let! sliced := slice_receiver all_variants in
  let! variants := rmap pricing_variant (firstn 5 sliced) in
  let! product := get detail "product" in
  let! title := get product "title" in
  let! first := index0 all_variants in
  ret (VObj [("product", title);
             ("basePrice", or_else (get_opt first "price") (VStr "N/A"));
             ("variants", VArr variants)]).

(** The exported operations, as a caller can invoke them. *)
Inductive operation : Type :=
| GetCatalog (limit : option float)
| GetProduct (productId : float)
| GetVariant (variantId : float)
| GetShippingRates (params : value)
| EstimateCosts (params : value)
| CreateMockupTask (productId variantIds files : value)
| GetMockupResult (taskKey : string)
| GetStoreInfo
| CreateDraftOrder (recipient items : value)
| GetPopularProducts
| GetProductPricing (productId : float).

Definition run (op : operation) : M value :=
  match op with
  | GetCatalog l => getCatalog l
  | GetProduct i => getProduct i
  | GetVariant i => getVariant i
  | GetShippingRates p => getShippingRates p
  | EstimateCosts p => estimateCosts p
  | CreateMockupTask i v f => createMockupTask i v f
  | GetMockupResult k => getMockupResult k
  | GetStoreInfo => getStoreInfo
  | CreateDraftOrder r i => createDraftOrder r i
  | GetPopularProducts => getPopularProducts
  | GetProductPricing i => getProductPricing i
  end.

End Client.

End Fixed.

(* ================================================================== *)
(** * The /api/printful route (src/unnamed/part_004) *)
(* ================================================================== *)

Module Route.
Import Js Net.
Local Open Scope js_scope.

(** What [NextResponse.json(body, { status })] is given. *)
Record json_response : Type := mkJson {
  res_status : Z;
  res_body : value;
}.

Definition errorResponse (msg : string) (status : Z) : json_response :=
  mkJson status (VObj [("success", VBool false); ("error", VStr msg)]).

(** [NextResponse.json(body)]: the status defaults to 200. *)
Definition json (fields : list (string * value)) : json_response :=
  mkJson 200 (VObj fields).

(** [searchParams.get(name)]: the first value under the name, or [null]. *)
Fixpoint searchParams_get (q : list (string * string)) (name : string)
  : option string :=
  match q with
  | [] => None
  | (k, v) :: rest => if k =? name then Some v else searchParams_get rest name
  end.

(** [x || fallback] on a [string | null]. *)
Definition str_or (x : option string) (fallback : string) : string :=
  match x with
  | Some s => if str_truthy s then s else fallback
  | None => fallback
  end.

(** [!x] on a [string | null]. *)
Definition missing (x : option string) : bool :=
  match x with
  | Some s => negb (str_truthy s)
  | None => true
  end.

(** [if (!x) return errorResponse(msg, 400)], then the rest with [x]. *)
Definition required {A} (x : option string) (otherwise : A) (k : string -> A) : A :=
  match x with
  | Some s => if str_truthy s then k s else otherwise
  | None => otherwise
  end.

Definition strs (l : list string) : value := VArr (map VStr l).

Definition info : json_response :=
  json [("success", VBool true);
        ("api", VStr "Printful POD Integration");
        ("version", VStr "2.0");
        ("actions",
          VObj [("GET", strs ["info"; "catalog"; "product"; "popular";
                              "pricing"; "store"; "mockup-status"]);
                ("POST", strs ["shipping"; "estimate"; "mockup"])]);
        ("popularProducts",
          VObj (map (fun kv => (fst kv, VNum (snd kv))) Fixed.POPULAR_PRODUCTS));
        ("documentation", VStr "https://developers.printful.com/docs/")].

Section Handlers.
Context {B : Builtins}.
Variable E : env.
Variable P : provider.

Definition on_error (e : js_error) : json_response :=
  errorResponse (message e) 500.

Definition GET (searchParams : list (string * string)) : M json_response :=
  let action := str_or (searchParams_get searchParams "action") "info" in
  try_catch
    (if action =? "catalog" then
       let limit := parseInt (str_or (searchParams_get searchParams "limit") "20") in
       catalog <- Fixed.getCatalog E P (Some limit) ;;
       let! count := get catalog "length" in
       ret (json [("success", VBool true); ("products", catalog); ("count", count)])
     else if action =? "product" then
       required (searchParams_get searchParams "id")
         (ret (errorResponse "Product ID required" 400))
         (fun productId =>
            product <- Fixed.getProduct E P (parseInt productId) ;;
            ret (json [("success", VBool true); ("product", product)]))
     else if action =? "popular" then
       products <- Fixed.getPopularProducts E P ;;
       let! count := get products "length" in
       ret (json [("success", VBool true); ("products", products); ("count", count)])
     else if action =? "pricing" then
       required (searchParams_get searchParams "id")
         (ret (errorResponse "Product ID required" 400))
         (fun productId =>
            pricing <- Fixed.getProductPricing E P (parseInt productId) ;;
            ret (json [("success", VBool true); ("pricing", pricing)]))
     else if action =? "store" then
       store <- Fixed.getStoreInfo E P ;;
       ret (json [("success", VBool true); ("store", store)])
     else if action =? "mockup-status" then
       required (searchParams_get searchParams "task_key")
         (ret (errorResponse "Task key required" 400))
         (fun taskKey =>
            result <- Fixed.getMockupResult E P taskKey ;;
            ret (json [("success", VBool true); ("result", result)]))
     else ret info)
    on_error.

(** [await req.json()] *)
Definition req_json (b : body_outcome) : result value :=
  match b with
  | BadJson m => Err (SyntaxError m)
  | Json data => Ok data
  end.

Definition POST (searchParams : list (string * string)) (req_body : body_outcome)
  : M json_response :=
  required (searchParams_get searchParams "action")
    (ret (errorResponse "Action parameter required. Use: shipping, estimate, mockup" 400))
    (fun action =>
    try_catch
      (let! body := req_json req_body in
       if action =? "shipping" then
         let! recipient := destructure body "recipient" in
         let! items := destructure body "items" in
         if negb (truthy recipient) || negb (truthy items) then
           ret (errorResponse "recipient and items are required" 400)
         else
           rates <- Fixed.getShippingRates E P
                      (VObj [("recipient", recipient); ("items", items)]) ;;
           let! count := get rates "length" in
           ret (json [("success", VBool true); ("rates", rates); ("count", count)])
       else if action =? "estimate" then
         let! recipient := destructure body "recipient" in
         let! items := destructure body "items" in
         if negb (truthy recipient) || negb (truthy items) then
           ret (errorResponse "recipient and items are required" 400)
         else
           estimate <- Fixed.estimateCosts E P
                         (VObj [("recipient", recipient); ("items", items)]) ;;
           ret (json [("success", VBool true); ("estimate", estimate)])
       else if action =? "mockup" then
         let! productId := destructure body "productId" in
         let! variantIds := destructure body "variantIds" in
         let! files := destructure body "files" in
         if negb (truthy productId) || negb (truthy variantIds) || negb (truthy files) then
           ret (errorResponse "productId, variantIds, and files are required" 400)
         else
           task <- Fixed.createMockupTask E P productId variantIds files ;;
           ret (json [("success", VBool true); ("task", task)])
       else
         ret (errorResponse
                ("Unknown action: " ++ action ++ ". Use: shipping, estimate, mockup")
                400))
      on_error).

End Handlers.

End Route.

(* ================================================================== *)
(** * components/PrintfulBrowser.tsx *)
(* ================================================================== *)

Module Browser.
Import Js.

Inductive view_name : Type := catalog | product | estimate.

(** The seven [useState] cells. *)
Record state : Type := mkState {
  products : list value;
  selectedProduct : value;
  selectedVariant : value;
  shippingRates : value;
  loading : bool;
  error : option string;
  view : view_name;
}.

Definition initial : state :=
  mkState [] VNull VNull (VArr []) true None catalog.

(** Which JSX tree the component returns, with the state it shows.  The
    contents of the trees are not modelled further. *)
Inductive display : Type :=
| LoadingSpinner
| ErrorBox (msg : string)
| CatalogView (products : list value)
| ProductView (detail variant : value)
| EstimateView (detail variant rates : value)
| Nothing.

Definition error_truthy (e : option string) : bool :=
  match e with
  | Some s => str_truthy s
  | None => false
  end.

Definition view_eqb (a b : view_name) : bool :=
  match a, b with
  | catalog, catalog | product, product | estimate, estimate => true
  | _, _ => false
  end.

Definition render (s : state) : display :=
  if loading s then LoadingSpinner
  else if error_truthy (error s) then
    ErrorBox (match error s with Some m => m | None => "" end)
  else if view_eqb (view s) catalog then CatalogView (products s)
  else if view_eqb (view s) product && truthy (selectedProduct s) then
    ProductView (selectedProduct s) (selectedVariant s)
  else if view_eqb (view s) estimate && truthy (selectedProduct s)
          && truthy (selectedVariant s) then
    EstimateView (selectedProduct s) (selectedVariant s) (shippingRates s)
  else Nothing.

Definition goBack (s : state) : state :=
  match view s with
  | estimate =>
      mkState (products s) (selectedProduct s) (selectedVariant s) (VArr [])
        (loading s) (error s) product
  | product =>
      mkState (products s) VNull VNull (shippingRates s)
        (loading s) (error s) catalog
  | catalog => s
  end.

(** Whether a rendered tree is the given one of the three views. *)
Definition shows (v : view_name) (d : display) : bool :=
  match v, d with
  | catalog, CatalogView _ => true
  | product, ProductView _ _ => true
  | estimate, EstimateView _ _ _ => true
  | _, _ => false
  end.

End Browser.

(* ================================================================== *)
(** * Node's [path] module, POSIX flavour *)
(* ================================================================== *)

Module NodePath.

Definition slash : ascii := "/"%char.

(** The segments between the separators: ["a//b"] has segments
    ["a"], [""], ["b"]. *)
Fixpoint split_slash (s : string) : list string :=
  match s with
  | EmptyString => [""]
  | String c rest =>
      if Ascii.eqb c slash then "" :: split_slash rest
      else match split_slash rest with
           | h :: t => String c h :: t
           | [] => [String c ""]
           end
  end.

Fixpoint join_slash (l : list string) : string :=
  match l with
  | [] => ""
  | x :: rest =>
      match rest with
      | [] => x
      | _ :: _ => x ++ "/" ++ join_slash rest
      end
  end.

(** [normalizeString]: the segments kept so far are held last-first.  Empty
    segments and ["."] are dropped; [".."] removes the last kept segment
    unless there is none or it is [".."] itself, in which case it is kept
    when the path is relative and dropped when it is absolute. *)
Fixpoint normalizeString (allowAboveRoot : bool) (kept segs : list string)
  : list string :=
  match segs with
  | [] => kept
  | seg :: rest =>
      if (seg =? "") || (seg =? ".") then normalizeString allowAboveRoot kept rest
      else if seg =? ".." then
        match kept with
        | top :: below =>
            if top =? ".."
            then normalizeString allowAboveRoot
                   (if allowAboveRoot then ".." :: kept else kept) rest
            else normalizeString allowAboveRoot below rest
        | [] =>
            normalizeString allowAboveRoot
              (if allowAboveRoot then [".."] else []) rest
        end
      else normalizeString allowAboveRoot (seg :: kept) rest
  end.

Definition isAbsolute (path : string) : bool :=
  match path with
  | String c _ => Ascii.eqb c slash
  | EmptyString => false
  end.

Fixpoint ends_with_slash (path : string) : bool :=
  match path with
  | EmptyString => false
  | String c EmptyString => Ascii.eqb c slash
  | String _ rest => ends_with_slash rest
  end.

Definition normalize (path : string) : string :=
  if path =? "" then "."
  else
    let absolute := isAbsolute path in
    let trailingSeparator := ends_with_slash path in
    let p := join_slash (rev (normalizeString (negb absolute) [] (split_slash path))) in
    if p =? "" then
      if absolute then "/" else if trailingSeparator then "./" else "."
    else
      (if absolute then "/" else "") ++ p ++ (if trailingSeparator then "/" else "").

Definition join (parts : list string) : string :=
  match filter (fun a => negb (a =? "")) parts with
  | [] => "."
  | nonempty => normalize (join_slash nonempty)
  end.

(** [String.prototype.includes] *)
Fixpoint includes (s sub : string) : bool :=
  String.prefix sub s ||
  match s with
  | EmptyString => false
  | String _ rest => includes rest sub
  end.

End NodePath.

(* ================================================================== *)
(** * app/api/marketplace/download/[slug]/route.ts *)
(* ================================================================== *)

Module Download.
Import Js.

(** What the handler answers with: a text body or the file's bytes.  The
    headers of the file response are not modelled. *)
Inductive payload : Type :=
| Text (s : string)
| FileData (bytes : list Byte.byte).

Record http_response : Type := mkResponse {
  status : Z;
  payload_of : payload;
}.

(** Calls into [fs/promises], in the order made. *)
Inductive fs_call : Type :=
| Stat (path : string)
| ReadFile (path : string).

(** Everything outside the handler: the session, the database row, the
    access rule, the working directory and the file system. *)
Record world : Type := mkWorld {
  getUser : result (option string);
  createServerClient : result unit;
  select_product : string -> result value;
  userHasProductAccess : option string -> value -> result bool;
  cwd : string;
  fs_stat : string -> result Z;
  fs_readFile : string -> result (list Byte.byte);
}.

Definition MAX_FILE_SIZE : Z := 50 * 1024 * 1024.

(** [notFound()] of next/navigation signals by throwing. *)
Definition notFound {A} : result A := Err (Error "NEXT_HTTP_ERROR_FALLBACK;404").

(** [typeof v === 'object'] *)
Definition typeof_object (v : value) : bool :=
  match v with
  | VNull | VArr _ | VObj _ => true
  | _ => false
  end.

(** ['file_path' in v] for a value whose [typeof] is ['object']. *)
Definition has_key (k : string) (v : value) : bool :=
  match v with
  | VObj fs => match lookup k fs with Some _ => true | None => false end
  | _ => false
  end.

Section Handler.
Variable W : world.

Definition fileAbsPath_of (normalizedPath : string) : string :=
  NodePath.join [cwd W; "storage"; normalizedPath].

(** The inner [try] block and its [catch]. *)
Definition serve (normalizedPath : string) : http_response * list fs_call :=
  let fileAbsPath := fileAbsPath_of normalizedPath in
  match fs_stat W fileAbsPath with
  | Err _ => (mkResponse 404 (Text "File not found"), [Stat fileAbsPath])
  | Ok size =>
      if (size >? MAX_FILE_SIZE)%Z then
        (mkResponse 413 (Text "File too large"), [Stat fileAbsPath])
      else
        match fs_readFile W fileAbsPath with
        | Err _ =>
            (mkResponse 404 (Text "File not found"),
             [Stat fileAbsPath; ReadFile fileAbsPath])
        | Ok fileData =>
            (mkResponse 200 (FileData fileData),
             [Stat fileAbsPath; ReadFile fileAbsPath])
        end
  end.

(** The outer [try] block. *)
Definition attempt (slug : string) : result (http_response * list fs_call) :=
  rbind (getUser W) (fun user =>
  rbind (createServerClient W) (fun _ =>
  rbind (select_product W slug) (fun data =>
  if negb (truthy data) || negb (typeof_object data)
     || negb (has_key "file_path" data)
  then notFound
  else
    let file_path := prop data "file_path" in
    if negb (truthy file_path) then notFound
    else
      rbind (userHasProductAccess W user (prop data "id")) (fun hasAccess =>
      if negb hasAccess then Ok (mkResponse 403 (Text "Forbidden"), [])
      else
        match file_path with
        | VStr file_path =>
            let normalizedPath := NodePath.normalize file_path in
            if NodePath.includes normalizedPath ".."
               || NodePath.isAbsolute normalizedPath
            then Ok (mkResponse 400 (Text "Invalid file path"), [])
            else Ok (serve normalizedPath)
        | _ =>
            Err (TypeError "The path argument must be of type string")
        end)))).

Definition GET (slug : string) : http_response * list fs_call :=
  match attempt slug with
  | Ok r => r
  | Err _ => (mkResponse 500 (Text "Internal server error"), [])
  end.

End Handler.

End Download.

(* ================================================================== *)
(** * Sample inputs *)
(* ================================================================== *)

Module Samples.
Import Js Net.

(** An engine whose unspecified texts are fixed arbitrarily; integers still
    print in decimal through [number_to_string]. *)
Definition engine : Builtins := {|
  exotic_number_to_string := fun _ => "?";
  string_to_number := fun _ => PrimFloat.nan;
  parseInt := fun _ => PrimFloat.nan;
  encodeURIComponent := fun s => s;
  form_urlencode := fun s => s;
  cannot_read_text := fun _ p => "Cannot read properties of null (reading '" ++ p ++ "')";
  cannot_destructure_text := fun _ p => "Cannot destructure property '" ++ p ++ "' of 'body'";
  not_a_function_text := fun p => p ++ " is not a function";
|}.

(** HTTP 200 around an envelope that reports code 400. *)
Definition status_200_code_400 : response :=
  mkResponse 200
    (Json (VObj [("code", VNum 400%float);
                 ("result", VStr "Bad Request");
                 ("error", VObj [("reason", VStr "BadRequest");
                                 ("message", VStr "Missing required parameter")])])).

(** HTTP 200 around a successful envelope. *)
Definition success_envelope (result : value) : response :=
  mkResponse 200 (Json (VObj [("code", VNum 200%float); ("result", result)])).

(** HTTP 404 around the matching envelope, without [error.message]. *)
Definition not_found_envelope : response :=
  mkResponse 404 (Json (VObj [("code", VNum 404%float); ("result", VStr "Not Found")])).

Definition env_with_key : env := mkEnv (Some "secret") None.
Definition env_without_key : env := mkEnv None None.

(** A provider that is down, and one that answers every request with the
    same response. *)
Definition unreachable : provider := fun _ _ => FetchFailed "fetch failed".
Definition always (r : response) : provider := fun _ _ => Responded r.

(** A provider that answers by URL: a T-shirt with one variant priced 10, a
    created sync product, and a mockup answer that already has a mockup. *)
Definition shop : provider := fun _ rq =>
  if req_url rq =? "https://api.printful.com/products/71" then
    Responded (success_envelope
      (VObj [("variants",
              VArr [VObj [("id", VNum 4011%float); ("price", VNum 10%float)]])]))
  else if req_url rq =? "https://api.printful.com/sync/products" then
    Responded (success_envelope (VObj [("id", VNum 1001%float)]))
  else if req_url rq =? "https://api.printful.com/mockup-generator/create-task/71" then
    Responded (success_envelope
      (VObj [("mockups", VArr [VObj [("mockup_url", VStr "https://img/1.png")]])]))
  else Responded not_found_envelope.

(** The same shop with a mockup generator that answers as the provider
    documents it: a task key and a status, the mockups to be fetched later. *)
Definition shop_async : provider := fun tr rq =>
  if req_url rq =? "https://api.printful.com/mockup-generator/create-task/71" then
    Responded (success_envelope
      (VObj [("task_key", VStr "gt-1"); ("status", VStr "pending")]))
  else shop tr rq.

Definition tee (retailMarkup : option float) : Original.QuickParams :=
  Original.mkQuick "Tee" "https://d/x.png" Original.tShirt retailMarkup.

(** A provider that has every product but number 380. *)
Definition all_but_380 : provider := fun _ rq =>
  if req_url rq =? "https://api.printful.com/products/380"
  then Responded not_found_envelope
  else Responded (success_envelope (VObj [("product", VStr (req_url rq))])).

(** A product row, and worlds around it: a signed-in user with or without
    access, and a storage directory holding one small and one large file. *)
Definition row (file_path : string) : value :=
  VObj [("id", VStr "p1"); ("title", VStr "Guide"); ("file_path", VStr file_path)].

Definition disk (path : string) : result Z :=
  if path =? "/app/storage/guide.pdf" then Ok 1024%Z
  else if path =? "/app/storage/video.zip" then Ok 52428801%Z
  else Err (Error "ENOENT").

Definition library (hasAccess : bool) (file_path : string) : Download.world :=
  Download.mkWorld (Ok (Some "u1")) (Ok tt) (fun _ => Ok (row file_path))
    (fun _ _ => Ok hasAccess) "/app" disk
    (fun path => if path =? "/app/storage/guide.pdf"
                 then Ok [Byte.x25; Byte.x50; Byte.x44; Byte.x46]
                 else Err (Error "EISDIR")).

(** A component state showing a selected product. *)
Definition product_open : Browser.state :=
  Browser.mkState [] (VObj [("product", VObj []); ("variants", VArr [])]) VNull
    (VArr []) false None Browser.product.

End Samples.

(* ================================================================== *)
(** * Vocabulary of the statements *)
(* ================================================================== *)

Module Spec.
Import Js Net.

(** The key is set to a non-empty string. *)
Definition configured (E : env) (key : string) : Prop :=
  env_PRINTFUL_API_KEY E = Some key /\ str_truthy key = true.

Definition key_missing (E : env) : bool :=
  match env_PRINTFUL_API_KEY E with
  | Some key => negb (str_truthy key)
  | None => true
  end.

Definition original_headers (key : string) : list (string * string) :=
  [("Authorization", "Bearer " ++ key); ("Content-Type", "application/json")].

Definition fixed_headers (E : env) (key : string) : list (string * string) :=
  [("Authorization", "Bearer " ++ key); ("Content-Type", "application/json");
   ("X-PF-Store-Id", Fixed.PRINTFUL_STORE_ID E)].

Definition not_configured : js_error := Error "PRINTFUL_API_KEY not configured".

(** Running [m] only adds requests to the trace, and each added request
    satisfies [G]. *)
Definition sends {A} (G : request -> Prop) (m : M A) : Prop :=
  forall tr, exists new, snd (m tr) = (tr ++ new)%list /\ Forall G new.

(** ["/" ++ n1 ++ "/" ++ n2 ++ ...]: the way down from a directory through
    the given names. *)
Fixpoint descend (names : list string) : string :=
  match names with
  | [] => ""
  | n :: rest => "/" ++ n ++ descend rest
  end.

Fixpoint has_slash (s : string) : bool :=
  match s with
  | EmptyString => false
  | String c rest => Ascii.eqb c NodePath.slash || has_slash rest
  end.

(** A name that stays inside the directory it is looked up in. *)
Definition proper_name (n : string) : Prop :=
  n <> "" /\ n <> "." /\ n <> ".." /\ has_slash n = false.

(** The segments [normalizeString] keeps when there is no [".."]. *)
Definition kept_segment (seg : string) : bool :=
  negb ((seg =? "") || (seg =? ".")).

(** [path.join(process.cwd(), 'storage')] *)
Definition storage_dir (W : Download.world) : string :=
  NodePath.join [Download.cwd W; "storage"].

(** Reading the storage directory itself as a file fails. *)
Definition storage_is_directory (W : Download.world) : Prop :=
  forall trailing bytes,
    trailing = "" \/ trailing = "/" ->
    Download.fs_readFile W (storage_dir W ++ trailing) <> Ok bytes.

Section WithBuiltins.
Context {B : Builtins}.

(** What each client makes of the provider's answer to a request issued
    after the requests [tr]. *)
Definition answer_original (P : provider) (tr : list request) (rq : request)
  : result value :=
  match P tr rq with
  | FetchFailed m => Err (TypeError m)
  | Responded r => Original.read_envelope r
  end.

Definition answer_fixed (P : provider) (tr : list request) (rq : request)
  : result value :=
  match P tr rq with
  | FetchFailed m => Err (TypeError m)
  | Responded r => Fixed.read_envelope r
  end.

(** A [GET] (no method, no body) of the fixed client. *)
Definition fixed_get (E : env) (key endpoint : string) : request :=
  mkRequest (Fixed.PRINTFUL_API_URL ++ endpoint) None (fixed_headers E key) None.

Definition fixed_post (E : env) (key endpoint : string) (b : value) : request :=
  mkRequest (Fixed.PRINTFUL_API_URL ++ endpoint) (Some "POST")
    (fixed_headers E key) (Some b).

Definition original_get (key endpoint : string) : request :=
  mkRequest (Original.PRINTFUL_API_URL ++ endpoint) None (original_headers key) None.

Definition original_post (key endpoint : string) (b : value) : request :=
  mkRequest (Original.PRINTFUL_API_URL ++ endpoint) (Some "POST")
    (original_headers key) (Some b).

(** The provider answers the request with an HTTP status in 200..299 and a
    JSON body other than [null] whose [result] is [v]: the answers on which
    a call of the original client succeeds, with [v] as its value. *)
Definition accepted (P : provider) (tr : list request) (rq : request) (v : value)
  : Prop :=
  exists r data,
    P tr rq = Responded r /\ ok r = true /\ body r = Json data
    /\ nullish data = false /\ prop data "result" = v.

(** The same for the fixed client: a JSON body whose [code] is the number
    200, whatever the HTTP status. *)
Definition accepted_fixed (P : provider) (tr : list request) (rq : request)
  (v : value) : Prop :=
  exists r data,
    P tr rq = Responded r /\ body r = Json data
    /\ strict_eq_num (prop data "code") 200%float = true
    /\ prop data "result" = v.

(** The three requests of [quickCreateProduct], for the variants it goes on
    with. *)
Definition quick_markup (params : Original.QuickParams) : float :=
  match Original.qp_retailMarkup params with
  | Some m => if PrimFloat.is_zero m || PrimFloat.is_nan m then 2%float else m
  | None => 2%float
  end.

Definition quick_file (params : Original.QuickParams) : value :=
  VObj [("type", VStr "default"); ("url", VStr (Original.qp_designUrl params))].

Definition quick_product_request (key : string) (params : Original.QuickParams)
  : request :=
  original_get key
    ("/products/"
       ++ number_to_string (Original.POPULAR_PRODUCTS (Original.qp_productType params))).

Definition quick_sync_request (key : string) (params : Original.QuickParams)
  (base : list value) : request :=
  original_post key "/sync/products"
    (VObj [("sync_product",
            VObj [("name", VStr (Original.qp_name params));
                  ("thumbnail", VStr (Original.qp_designUrl params))]);
           ("sync_variants",
            VArr (map (fun v =>
                    VObj [("variant_id", prop v "id");
                          ("retail_price",
                           VNum (to_number (prop v "price") * quick_markup params)%float);
                          ("files", VArr [quick_file params])]) base))]).

Definition quick_mockup_request (key : string) (params : Original.QuickParams)
  (base : list value) : request :=
  original_post key
    ("/mockup-generator/create-task/"
       ++ number_to_string (Original.POPULAR_PRODUCTS (Original.qp_productType params)))
    (VObj [("variant_ids", VArr (map (fun v => prop v "id") base));
           ("files", VArr [quick_file params])]).

(** The URLs [quickCreateProduct] calls, in order, for a product id. *)
Definition chain_urls (productId : float) : list string :=
  [Original.PRINTFUL_API_URL ++ "/products/" ++ number_to_string productId;
   Original.PRINTFUL_API_URL ++ "/sync/products";
   Original.PRINTFUL_API_URL ++ "/mockup-generator/create-task/"
     ++ number_to_string productId].

(** The request [getProduct] of the fixed client sends. *)
Definition product_request (E : env) (key : string) (id : float) : request :=
  fixed_get E key ("/products/" ++ number_to_string id).

(** The product details a run of requests fetched: the answers that are a
    result other than [null], in request order. *)
Fixpoint fetched_details (P : provider) (tr : list request) (rqs : list request)
  : list value :=
  match rqs with
  | [] => []
  | rq :: rest =>
      (match answer_fixed P tr rq with
       | Ok v => if Fixed.is_null v then [] else [v]
       | Err _ => []
       end ++ fetched_details P (tr ++ [rq]) rest)%list
  end.

(** The client operation a GET of the route is dispatched to, and the key
    its result is wrapped under; [None] when the route answers without
    calling the client. *)
Definition GET_call (q : list (string * string)) : option (Fixed.operation * string) :=
  let action := Route.str_or (Route.searchParams_get q "action") "info" in
  if action =? "catalog" then
    Some (Fixed.GetCatalog
            (Some (parseInt (Route.str_or (Route.searchParams_get q "limit") "20"))),
          "products")
  else if action =? "product" then
    Route.required (Route.searchParams_get q "id") None
      (fun id => Some (Fixed.GetProduct (parseInt id), "product"))
  else if action =? "popular" then Some (Fixed.GetPopularProducts, "products")
  else if action =? "pricing" then
    Route.required (Route.searchParams_get q "id") None
      (fun id => Some (Fixed.GetProductPricing (parseInt id), "pricing"))
  else if action =? "store" then Some (Fixed.GetStoreInfo, "store")
  else if action =? "mockup-status" then
    Route.required (Route.searchParams_get q "task_key") None
      (fun taskKey => Some (Fixed.GetMockupResult taskKey, "result"))
  else None.

(** The same for a POST whose body parsed to [b]. *)
Definition POST_call (q : list (string * string)) (b : value)
  : option (Fixed.operation * string) :=
  Route.required (Route.searchParams_get q "action") None (fun action =>
    let recipient := prop b "recipient" in
    let items := prop b "items" in
    let productId := prop b "productId" in
    let variantIds := prop b "variantIds" in
    let files := prop b "files" in
    let params := VObj [("recipient", recipient); ("items", items)] in
    if action =? "shipping" then
      if truthy recipient && truthy items
      then Some (Fixed.GetShippingRates params, "rates") else None
    else if action =? "estimate" then
      if truthy recipient && truthy items
      then Some (Fixed.EstimateCosts params, "estimate") else None
    else if action =? "mockup" then
      if truthy productId && truthy variantIds && truthy files
      then Some (Fixed.CreateMockupTask productId variantIds files, "task") else None
    else None).

(** The responses that also report [count], read from the result's
    [length]. *)
Definition reads_length (key : string) : bool :=
  (key =? "products") || (key =? "rates").

End WithBuiltins.

End Spec.

(* ================================================================== *)
(** * The event handlers of PrintfulBrowser.tsx *)
(* ================================================================== *)

Module BrowserSteps.
Import Js Net Browser.
Local Open Scope js_scope.

(** [{ address1: '123 Test St', ... }] *)
Definition test_recipient : value :=
  VObj [("address1", VStr "123 Test St"); ("city", VStr "Fort Myers");
        ("state_code", VStr "FL"); ("country_code", VStr "US");
        ("zip", VStr "33901")].

(** The state after a handler's [finally]: [loading] is off, [error] is what
    the handler last set. *)
Definition settled (products : list value) (selectedProduct selectedVariant
  shippingRates : value) (error : option string) (view : view_name) : state :=
  mkState products selectedProduct selectedVariant shippingRates false error view.

Definition failed (s : state) (e : js_error) : state :=
  settled (products s) (selectedProduct s) (selectedVariant s) (shippingRates s)
    (Some (message e)) (view s).

Section Handlers.
Context {B : Builtins}.
(** The application's own API, as the browser reaches it. *)
Variable API : provider.

(** [const res = await fetch(...); const data = await res.json()] *)
Definition fetch_json (rq : request) : M value :=
  res <- fetch API rq ;;
  lift (match body res with
        | BadJson m => Err (SyntaxError m)
        | Json data => Ok data
        end).

(** [throw new Error(data.error || fallback)] *)
Definition refuse {A} (data : value) (fallback : string) : M A :=
  let! error := get data "error" in
  throw (Error (to_string (or_else error (VStr fallback)))).

(** The [try] block of [loadCatalog]: the products it sets. *)
Definition loadCatalog_try : M (list value) :=
  data <- fetch_json (mkRequest "/api/printful?action=popular" None [] None) ;;
  let! success := get data "success" in
  if truthy success then
    let! products := get data "products" in
    let! ps := map_receiver products in
    lift (rmap (fun p => get p "product") ps)
  else refuse data "Failed to load catalog".

Definition loadCatalog (s : state) (tr : list request) : state * list request :=
  match loadCatalog_try tr with
  | (Ok ps, tr') =>
      (settled ps (selectedProduct s) (selectedVariant s) (shippingRates s)
         None (view s), tr')
  | (Err e, tr') => (failed s e, tr')
  end.

(** The [try] block of [loadProduct]: the product it selects. *)
Definition loadProduct_try (productId : value) : M value :=
  data <- fetch_json
            (mkRequest ("/api/printful?action=product&id=" ++ to_string productId)
               None [] None) ;;
  let! success := get data "success" in
  if truthy success then lift (get data "product")
  else refuse data "Failed to load product".

Definition loadProduct (s : state) (productId : value) (tr : list request)
  : state * list request :=
  match loadProduct_try productId tr with
  | (Ok selected, tr') =>
      (settled (products s) selected VNull (shippingRates s) None product, tr')
  | (Err e, tr') => (failed s e, tr')
  end.

Definition shipping_request (variant : value) : request :=
  mkRequest "/api/printful?action=shipping" (Some "POST")
    [("Content-Type", "application/json")]
    (Some (VObj [("recipient", test_recipient);
                 ("items", VArr [VObj [("variant_id", prop variant "id");
                                       ("quantity", VNum 1%float)]])])).

(** The [try] block of [calculateShipping]: the rates it sets. *)
Definition calculateShipping_try (variant : value) : M value :=
  data <- fetch_json (shipping_request variant) ;;
  let! success := get data "success" in
  if truthy success then lift (get data "rates")
  else refuse data "Failed to calculate shipping".

Definition calculateShipping (s : state) (tr : list request)
  : state * list request :=
  if negb (truthy (selectedVariant s)) then (s, tr)
  else
    match calculateShipping_try (selectedVariant s) tr with
    | (Ok rates, tr') =>
        (settled (products s) (selectedProduct s) (selectedVariant s) rates
           None estimate, tr')
    | (Err e, tr') => (failed s e, tr')
    end.

(** [variants.find(v => v.id === n)] *)
Fixpoint find_variant (n : float) (variants : list value) : result value :=
  match variants with
  | [] => Ok VUndefined
  | v :: rest =>
      rbind (get v "id") (fun id =>
        if strict_eq_num id n then Ok v else find_variant n rest)
  end.

(** The [onChange] of the variant selector, with [variants] taken from
    [selectedProduct] as the render did.  Only an array has a [find]; an
    exception in the handler leaves the state as it was. *)
Definition selectVariant (s : state) (choice : string) : state :=
  match prop (selectedProduct s) "variants" with
  | VArr variants =>
      match find_variant (parseInt choice) variants with
      | Ok variant =>
          mkState (products s) (selectedProduct s) (or_else variant VNull)
            (shippingRates s) (loading s) (error s) (view s)
      | Err _ => s
      end
  | _ => s
  end.

(** What the user, or the mount effect, can make happen in a state: the
    handlers wired to the tree that [render] returns there, each run to its
    end.  While a handler waits for its answer [loading] is on and the tree
    has no control. *)
Inductive step : state -> state -> Prop :=
| step_mount tr :
    step initial (fst (loadCatalog initial tr))
| step_refresh s tr ps :
    render s = CatalogView ps -> step s (fst (loadCatalog s tr))
| step_open s tr ps p :
    render s = CatalogView ps -> In p ps ->
    step s (fst (loadProduct s (prop p "id") tr))
| step_back_to_catalog s d v :
    render s = ProductView d v -> step s (goBack s)
| step_choose s d v choice :
    render s = ProductView d v -> step s (selectVariant s choice)
| step_calculate s d v tr :
    render s = ProductView d v -> step s (fst (calculateShipping s tr))
| step_back_to_product s d v r :
    render s = EstimateView d v r -> step s (goBack s)
| step_retry s m tr :
    render s = ErrorBox m -> step s (fst (loadCatalog s tr)).

Inductive reachable : state -> Prop :=
| reachable_initial : reachable initial
| reachable_step s s' : reachable s -> step s s' -> reachable s'.

End Handlers.

End BrowserSteps.

(* ================================================================== *)
(** * The checkout route (src/unnamed/part_002) *)
(* ================================================================== *)

Module Checkout.
Import Js Net.
Local Open Scope js_scope.

Record session : Type := mkSession {
  user : value;
  access_token : string;
}.

(** [getSession()] and the environment. *)
Record world : Type := mkWorld {
  getSession : result (option session);
  NEXT_PUBLIC_SUPABASE_URL : option string;
}.

Definition error_json (msg : string) (status : Z) : Route.json_response :=
  Route.mkJson status (VObj [("error", VStr msg)]).

(** A [string | null] that passes [!x] as false. *)
Definition present (x : option string) : option string :=
  match x with
  | Some s => if str_truthy s then Some s else None
  | None => None
  end.

(** The statuses of a response that cannot have a body. *)
Definition null_body_status (status : Z) : bool :=
  ((status =? 101) || (status =? 103) || (status =? 204) || (status =? 205)
   || (status =? 304))%Z.

(** [NextResponse.json(body, { status })] builds a response with a body: it
    throws a RangeError for a status outside 200..599 and a TypeError for a
    null body status.  Only that it throws matters here, the handler's
    [catch] drops the error. *)
Definition respond (status : Z) (body : value) : result Route.json_response :=
  if negb ((200 <=? status) && (status <=? 599))%Z then
    Err (Error "status out of range")
  else if null_body_status status then
    Err (TypeError "null body status")
  else Ok (Route.mkJson status body).

Definition read_json (r : response) : result value :=
  match body r with
  | BadJson m => Err (SyntaxError m)
  | Json data => Ok data
  end.

Section Handler.
Context {B : Builtins}.
Variable W : world.
(** The Supabase edge functions. *)
Variable F : provider.

(** [`${supabaseUrl}`] *)
Definition supabaseUrl : string :=
  match NEXT_PUBLIC_SUPABASE_URL W with
  | Some u => u
  | None => "undefined"
  end.

Definition function_request (sess : session) (provider productId type : string)
  : request :=
  let functionName :=
    if provider =? "stripe" then "stripe-checkout" else "paypal-checkout" in
  mkRequest
    (supabaseUrl ++ "/functions/v1/" ++ functionName
       ++ "?productId=" ++ productId ++ "&type=" ++ type)
    (Some "POST")
    [("Authorization", "Bearer " ++ access_token sess);
     ("Content-Type", "application/json")]
    None.

(** The [try] block. *)
Definition attempt (searchParams : list (string * string)) : M Route.json_response :=
  let! session := getSession W in
  match session with
  | None => ret (error_json "Unauthorized" 401)
  | Some sess =>
      if negb (truthy (user sess)) then ret (error_json "Unauthorized" 401)
      else
        match present (Route.searchParams_get searchParams "provider"),
              present (Route.searchParams_get searchParams "productId"),
              present (Route.searchParams_get searchParams "type") with
        | Some provider, Some productId, Some type =>
            if negb ((provider =? "stripe") || (provider =? "paypal")) then
              ret (error_json "Invalid provider" 400)
            else
              response <- fetch F (function_request sess provider productId type) ;;
              if negb (ok response) then
                let! error := read_json response in
                let! e := get error "error" in
                lift (respond (status response)
                        (VObj [("error", or_else e (VStr "Checkout failed"))]))
              else
                let! data := read_json response in
                ret (Route.mkJson 200 data)
        | _, _, _ => ret (error_json "Missing parameters" 400)
        end
  end.

Definition POST (searchParams : list (string * string)) : M Route.json_response :=
  try_catch (attempt searchParams)
    (fun _ => error_json "Internal server error" 500).

End Handler.

End Checkout.

(* ================================================================== *)
(** * The product creation route
      (second handler listed in app/api/marketplace/download/[slug]/route.ts) *)
(* ================================================================== *)

Module CreateProduct.
Import Js.

(** Writes to the database, in the order made. *)
Inductive db_call : Type :=
| InsertProduct (row : value)
| InsertSeries (row : value).

(** The database client, the submitted form (its text fields) and the two
    inserts.  [insert_product] answers with the [data] and [error] of
    [.insert(...).select().single()]. *)
Record world : Type := mkWorld {
  createServerClient : result unit;
  formData : result (list (string * string));
  insert_product : value -> result (value * value);
  insert_series : value -> result unit;
}.

(** [formData.get(name)] *)
Fixpoint form_get (form : list (string * string)) (name : string) : option string :=
  match form with
  | [] => None
  | (k, v) :: rest => if k =? name then Some v else form_get rest name
  end.

(** [formData.get(name) as string]: the text, or [null]. *)
Definition field (form : list (string * string)) (name : string) : value :=
  match form_get form name with
  | Some s => VStr s
  | None => VNull
  end.

(** [formData.get(name) === 'true'] *)
Definition flag (form : list (string * string)) (name : string) : bool :=
  match form_get form name with
  | Some s => s =? "true"
  | None => false
  end.

Definition internal_error : Route.json_response :=
  Route.mkJson 500 (VObj [("error", VStr "Internal server error")]).

Section Handler.
(** [parseInt(text, 10)] *)
Variable parseInt10 : string -> float.
Variable W : world.

Definition product_row (form : list (string * string)) : value :=
  VObj [("title", field form "title");
        ("slug", field form "slug");
        ("type", field form "type");
        ("description", field form "description");
        ("snippet", field form "snippet");
        ("price_cents",
         VNum (parseInt10 (match form_get form "price_cents" with
                           | Some s => s
                           | None => "null"
                           end)));
        ("is_series", VBool (flag form "is_series"));
        ("is_published", VBool (flag form "is_published"))].

Definition series_row (product : value) : value :=
  VObj [("product_id", prop product "id");
        ("interval", VStr "month");
        ("price_cents", VNum 900%float)].

Definition POST : Route.json_response * list db_call :=
  match createServerClient W with
  | Err _ => (internal_error, [])
  | Ok _ =>
      match formData W with
      | Err _ => (internal_error, [])
      | Ok form =>
          let row := product_row form in
          match insert_product W row with
          | Err _ => (internal_error, [InsertProduct row])
          | Ok (product, error) =>
              if truthy error then
                (Route.mkJson 400 (VObj [("error", prop error "message")]),
                 [InsertProduct row])
              else if flag form "is_series" then
                if nullish product then (internal_error, [InsertProduct row])
                else
                  match insert_series W (series_row product) with
                  | Err _ =>
                      (internal_error,
                       [InsertProduct row; InsertSeries (series_row product)])
                  | Ok _ =>
                      (Route.json [("success", VBool true); ("product", product)],
                       [InsertProduct row; InsertSeries (series_row product)])
                  end
              else
                (Route.json [("success", VBool true); ("product", product)],
                 [InsertProduct row])
          end
      end
  end.

End Handler.

End CreateProduct.

(* ================================================================== *)
(** * The health check (src/unnamed/part_003) *)
(* ================================================================== *)

Module Health.
Import Js.

(** The database client, the error of the probing query ([null] when there
    is none), and the clock and process readings of one run. *)
Record world : Type := mkWorld {
  createServerClient : result unit;
  probe : result value;
  startTime : float;
  endTime : float;
  timestamp : string;
  uptime : float;
  npm_package_version : option string;
}.

Record response : Type := mkResponse {
  status : Z;
  body : value;
  cache_control : string;
}.

(** [v !== s] for a string literal [s]. *)
Definition differs_from (v : value) (s : string) : bool :=
  match v with
  | VStr t => negb (t =? s)
  | _ => true
  end.

Section Handler.
Context {B : Builtins}.
Variable W : world.

Definition dbStatus (dbError : value) : string :=
  if truthy dbError && differs_from (prop dbError "code") "PGRST116"
  then "unhealthy" else "healthy".

Definition report (dbError : value) : value :=
  VObj [("status", VStr (if dbStatus dbError =? "healthy" then "ok" else "degraded"));
        ("timestamp", VStr (timestamp W));
        ("services",
         VObj [("database",
                VObj [("status", VStr (dbStatus dbError));
                      ("responseTime",
                       VStr (number_to_string (endTime W - startTime W)%float
                               ++ "ms"))]);
               ("api", VObj [("status", VStr "healthy")])]);
        ("version",
         VStr (match npm_package_version W with
               | Some v => if str_truthy v then v else "1.0.0"
               | None => "1.0.0"
               end));
        ("uptime", VNum (uptime W))].

Definition failure : response :=
  mkResponse 503
    (VObj [("status", VStr "unhealthy");
           ("timestamp", VStr (timestamp W));
           ("error", VStr "Health check failed")])
    "no-store, must-revalidate".

Definition GET : response :=
  match createServerClient W with
  | Err _ => failure
  | Ok _ =>
      match probe W with
      | Err _ => failure
      | Ok dbError =>
          let health := report dbError in
          mkResponse
            (if match prop health "status" with
                | VStr st => st =? "ok"
                | _ => false
                end then 200 else 503)
            health "no-store, must-revalidate"
      end
  end.

End Handler.

End Health.

(* ================================================================== *)
(** * Further sample inputs *)
(* ================================================================== *)

Module MoreSamples.
Import Js Net.

(** A product detail with a title and one priced variant. *)
Definition mug_detail : value :=
  VObj [("product", VObj [("id", VNum 19%float); ("title", VStr "Mug")]);
        ("variants",
         VArr [VObj [("id", VNum 1320%float); ("name", VStr "White 11oz");
                     ("price", VStr "7.95")]])].

Definition pending_orders : Original.ListOrdersParams :=
  Original.mkListOrders (Some "pending") (Some 20%float) (Some 10%float).

Definition first_pending_orders : Original.ListOrdersParams :=
  Original.mkListOrders (Some "pending") (Some 0%float) None.

(** An engine like [Samples.engine] that also reads the variant id 1320. *)
Definition reader : Builtins := {|
  exotic_number_to_string := fun _ => "?";
  string_to_number := fun _ => PrimFloat.nan;
  parseInt := fun s => if s =? "1320" then 1320%float else PrimFloat.nan;
  encodeURIComponent := fun s => s;
  form_urlencode := fun s => s;
  cannot_read_text := fun _ p => "Cannot read properties of null (reading '" ++ p ++ "')";
  cannot_destructure_text := fun _ p => "Cannot destructure property '" ++ p ++ "' of 'body'";
  not_a_function_text := fun p => p ++ " is not a function";
|}.

Definition tee_entry : value :=
  VObj [("product", VObj [("id", VNum 71%float); ("title", VStr "Tee")]);
        ("variants", VArr [])].

Definition refusal : response :=
  mkResponse 400
    (Json (VObj [("success", VBool false); ("error", VStr "Unknown action")])).

(** The application's API as the component sees it: two popular products,
    the detail of the mug, a success without a detail for the tee, and one
    shipping rate. *)
Definition storefront : provider := fun _ rq =>
  if req_url rq =? "/api/printful?action=popular" then
    Responded (mkResponse 200
      (Json (VObj [("success", VBool true);
                   ("products", VArr [mug_detail; tee_entry]);
                   ("count", VNum 2%float)])))
  else if req_url rq =? "/api/printful?action=product&id=19" then
    Responded (mkResponse 200
      (Json (VObj [("success", VBool true); ("product", mug_detail)])))
  else if req_url rq =? "/api/printful?action=product&id=71" then
    Responded (mkResponse 200 (Json (VObj [("success", VBool true)])))
  else if req_url rq =? "/api/printful?action=shipping" then
    Responded (mkResponse 200
      (Json (VObj [("success", VBool true);
                   ("rates", VArr [VObj [("id", VStr "STANDARD");
                                         ("rate", VStr "4.99")]])])))
  else Responded refusal.

(** A visit: the catalog loads, the mug is opened, its variant chosen and
    the shipping estimated; or the tee is opened. *)
Definition catalog_loaded : Browser.state :=
  fst (BrowserSteps.loadCatalog (B := reader) storefront Browser.initial []).
Definition mug_open : Browser.state :=
  fst (BrowserSteps.loadProduct (B := reader) storefront catalog_loaded
         (VNum 19%float) []).
Definition mug_chosen : Browser.state :=
  BrowserSteps.selectVariant (B := reader) mug_open "1320".
Definition mug_estimate : Browser.state :=
  fst (BrowserSteps.calculateShipping (B := reader) storefront mug_chosen []).
Definition tee_open : Browser.state :=
  fst (BrowserSteps.loadProduct (B := reader) storefront catalog_loaded
         (VNum 71%float) []).

(** A signed-in shopper, and a checkout of an e-book by card. *)
Definition shopper : Checkout.world :=
  Checkout.mkWorld
    (Ok (Some (Checkout.mkSession (VObj [("id", VStr "u1")]) "token-1")))
    (Some "https://project.supabase.co").

Definition shopper_session : Checkout.session :=
  Checkout.mkSession (VObj [("id", VStr "u1")]) "token-1".

Definition by_card : list (string * string) :=
  [("provider", "stripe"); ("productId", "p1"); ("type", "ebook")].

Definition by_cheque : list (string * string) :=
  [("provider", "cheque"); ("productId", "p1"); ("type", "ebook")].

Definition declined : response :=
  mkResponse 402 (Json (VObj [("error", VStr "Card declined")])).

(** A submitted newsletter form, and a database that returns the inserted
    row with the given error and answers the series insert as given. *)
Definition newsletter_form : list (string * string) :=
  [("title", "Letters"); ("slug", "letters"); ("type", "newsletter");
   ("description", "Monthly letters"); ("snippet", "Letters, monthly");
   ("price_cents", "500"); ("is_series", "true"); ("is_published", "false")].

Definition studio (error : value) (series : result unit) : CreateProduct.world :=
  CreateProduct.mkWorld (Ok tt) (Ok newsletter_form)
    (fun _ => Ok (VObj [("id", VStr "p9")], error))
    (fun _ => series).

Definition decimal (s : string) : float :=
  if s =? "500" then 500%float else PrimFloat.nan.

Definition duplicate_slug : value :=
  VObj [("message", VStr "duplicate key value violates unique constraint");
        ("code", VStr "23505")].

End MoreSamples.

(* ================================================================== *)
(** * Vocabulary of the further statements *)
(* ================================================================== *)

Module Cover.
Import Js Net.

(** The request goes to the provider's host. *)
Definition to_provider (rq : request) : bool :=
  String.prefix "https://api.printful.com/" (req_url rq).

(** No method and no body, or POST with a body, or DELETE without one. *)
Definition method_matches_body (rq : request) : bool :=
  match req_method rq, req_body rq with
  | None, None => true
  | Some m, Some _ => m =? "POST"
  | Some m, None => m =? "DELETE"
  | None, Some _ => false
  end.

Definition get_or_post (rq : request) : bool :=
  match req_method rq with
  | None => true
  | Some m => m =? "POST"
  end.

(** The operations that are a single call of the request wrapper. *)
Definition single_call_original (op : Original.operation) : bool :=
  match op with
  | Original.QuickCreateProduct _ => false
  | _ => true
  end.

Definition single_call_fixed (op : Fixed.operation) : bool :=
  match op with
  | Fixed.GetPopularProducts => false
  | _ => true
  end.

(** A route answer is well formed: its status is 200, 400 or 500, and its
    body says [success: true] exactly when the status is 200. *)
Definition well_formed_answer (resp : Route.json_response) : Prop :=
  In (Route.res_status resp) [200; 400; 500]%Z
  /\ prop (Route.res_body resp) "success"
     = VBool (Route.res_status resp =? 200)%Z.

(** Every value [m] returns satisfies [Q]. *)
(** What the handlers of the component keep true of its state. *)
Definition consistent (s : Browser.state) : Prop :=
  (Browser.view s = Browser.catalog ->
   Browser.selectedProduct s = VNull /\ Browser.selectedVariant s = VNull)
  /\ (Browser.view s = Browser.estimate ->
      truthy (Browser.selectedProduct s) = true
      /\ truthy (Browser.selectedVariant s) = true)
  /\ (Browser.view s <> Browser.estimate -> Browser.shippingRates s = VArr []).

(** The session is there and has a user. *)
Definition signed_in (W : Checkout.world) (sess : Checkout.session) : Prop :=
  Checkout.getSession W = Ok (Some sess) /\ truthy (Checkout.user sess) = true.

(** A query parameter is given, with this value, and is not empty. *)
Definition given (q : list (string * string)) (name value : string) : Prop :=
  Route.searchParams_get q name = Some value /\ value <> "".

(** A query parameter is missing or empty. *)
Definition not_given (q : list (string * string)) (name : string) : Prop :=
  Route.searchParams_get q name = None \/ Route.searchParams_get q name = Some "".

(** The three parameters of a checkout are given, with these values. *)
Definition checkout_params (q : list (string * string))
  (provider productId type : string) : Prop :=
  given q "provider" provider /\ given q "productId" productId
  /\ given q "type" type.

Definition returns {A} (Q : A -> Prop) (m : M A) : Prop :=
  forall tr a tr', m tr = (Ok a, tr') -> Q a.

End Cover.

(* ================================================================== *)
(** * Statements *)
(* ================================================================== *)

Example normalize_samples :
  NodePath.normalize "a/../../b" = "../b" /\
  NodePath.normalize "/a/./b//c/" = "/a/b/c/" /\
  NodePath.normalize "a..b/c" = "a..b/c" /\
  NodePath.normalize "/../x" = "/x" /\
  NodePath.normalize "./" = "./" /\
  NodePath.normalize "a/.." = "." /\
  NodePath.join ["/app"; "storage"; "x/y.pdf"] = "/app/storage/x/y.pdf" /\
  NodePath.join ["/app"; "storage"; "."] = "/app/storage".
Proof. repeat split; reflexivity. Qed.

(** ** The component's views *)

Section BrowserFacts.
Import Js Browser.

Lemma render_loading (s : state) :
  loading s = true -> render s = LoadingSpinner.
Proof. unfold render; intros ->; reflexivity. Qed.

Lemma render_error (s : state) (m : string) :
  loading s = false -> error s = Some m -> m <> "" -> render s = ErrorBox m.
Proof.
  unfold render; intros -> -> Hm; cbn.
  unfold str_truthy. destruct (String.eqb_spec m ""); [contradiction | reflexivity].
Qed.

Lemma shows_unique (d : display) (v1 v2 : view_name) :
  shows v1 d = true -> shows v2 d = true -> v1 = v2.
Proof. destruct d, v1, v2; cbn; congruence. Qed.

Lemma render_product_only (s : state) :
  shows product (render s) = true ->
  view s = product /\ truthy (selectedProduct s) = true.
Proof.
  unfold render.
  destruct (loading s); [discriminate|].
  destruct (error_truthy (error s)); [discriminate|].
  destruct (view s), (truthy (selectedProduct s)), (truthy (selectedVariant s));
    cbn; try discriminate; auto.
Qed.

Lemma render_estimate_only (s : state) :
  shows estimate (render s) = true ->
  view s = estimate /\ truthy (selectedProduct s) = true
  /\ truthy (selectedVariant s) = true.
Proof.
  unfold render.
  destruct (loading s); [discriminate|].
  destruct (error_truthy (error s)); [discriminate|].
  destruct (view s), (truthy (selectedProduct s)), (truthy (selectedVariant s));
    cbn; try discriminate; auto.
Qed.

(** C7.  In every state the component returns a single tree, so at most one
    of the catalog, product and estimate views is shown; while [loading] is
    set, or else an error message is set, none of the three is shown; the
    product view is shown only with a selected product, the estimate view
    only with a selected product and a selected variant. *)
Theorem views_mutually_exclusive (s : state) :
  (forall v1 v2, shows v1 (render s) = true -> shows v2 (render s) = true -> v1 = v2)
  /\ (loading s = true ->
      render s = LoadingSpinner /\ forall v, shows v (render s) = false)
  /\ (forall m, loading s = false -> error s = Some m -> m <> "" ->
      render s = ErrorBox m /\ forall v, shows v (render s) = false)
  /\ (shows product (render s) = true -> truthy (selectedProduct s) = true)
  /\ (shows estimate (render s) = true ->
      truthy (selectedProduct s) = true /\ truthy (selectedVariant s) = true).
Proof.
  split; [intros v1 v2; apply shows_unique|].
  split.
  { intros H. rewrite (render_loading s H). split; [reflexivity|]. now destruct v. }
  split.
  { intros m Hl He Hm. rewrite (render_error s m Hl He Hm).
    split; [reflexivity|]. now destruct v. }
  split.
  - intros H. apply (render_product_only s H).
  - intros H. apply (render_estimate_only s H).
Qed.

(** [goBack] steps from the estimate to the product view and from the
    product view to the catalog. *)
Lemma goBack_one_view_up (s : state) :
  (shows estimate (render s) = true -> shows product (render (goBack s)) = true)
  /\ (shows product (render s) = true -> shows catalog (render (goBack s)) = true).
Proof.
  split; intros H.
  - destruct (render_estimate_only s H) as [Hv [Hp _]].
    revert H. unfold render, goBack. rewrite Hv. cbn.
    destruct (loading s); [discriminate|].
    destruct (error_truthy (error s)); [discriminate|].
    now rewrite Hp.
  - destruct (render_product_only s H) as [Hv _].
    revert H. unfold render, goBack. rewrite Hv. cbn.
    destruct (loading s); [discriminate|].
    destruct (error_truthy (error s)); [discriminate|].
    reflexivity.
Qed.

End BrowserFacts.

(** ** The request wrapper of both clients *)

Section WrapperFacts.
Import Js Net Spec.
Context {B : Builtins}.
Variable E : env.
Variable P : provider.

Lemma key_missing_not_configured :
  key_missing E = true -> forall key, ~ configured E key.
Proof.
  unfold key_missing, configured. intros H key [Hk Ht].
  rewrite Hk, Ht in H. discriminate.
Qed.

Lemma key_missing_or_configured :
  key_missing E = true \/ exists key, configured E key.
Proof.
  unfold key_missing, configured.
  destruct (env_PRINTFUL_API_KEY E) as [k|]; [|now left].
  destruct (str_truthy k) eqn:Ht; [right; now exists k | now left].
Qed.

Lemma original_getHeaders_ok (key : string) :
  configured E key -> Original.getHeaders E = Ok (original_headers key).
Proof. intros [Hk Ht]. unfold Original.getHeaders. now rewrite Hk, Ht. Qed.

Lemma fixed_getHeaders_ok (key : string) :
  configured E key -> Fixed.getHeaders E = Ok (fixed_headers E key).
Proof. intros [Hk Ht]. unfold Fixed.getHeaders. now rewrite Hk, Ht. Qed.

Lemma original_getHeaders_missing :
  key_missing E = true -> Original.getHeaders E = Err not_configured.
Proof.
  unfold key_missing, Original.getHeaders.
  destruct (env_PRINTFUL_API_KEY E) as [k|]; [|reflexivity].
  destruct (str_truthy k); [discriminate | reflexivity].
Qed.

Lemma fixed_getHeaders_missing :
  key_missing E = true -> Fixed.getHeaders E = Err not_configured.
Proof.
  unfold key_missing, Fixed.getHeaders.
  destruct (env_PRINTFUL_API_KEY E) as [k|]; [|reflexivity].
  destruct (str_truthy k); [discriminate | reflexivity].
Qed.

(** With the key set, [printfulRequest] issues exactly one request and
    returns what the client makes of the answer to it. *)
Lemma original_request_run (key endpoint : string) (o : RequestInit) tr :
  configured E key -> init_headers o = None ->
  Original.printfulRequest E P endpoint o tr =
  (let rq := mkRequest (Original.PRINTFUL_API_URL ++ endpoint) (init_method o)
               (original_headers key) (init_body o) in
   (answer_original P tr rq, (tr ++ [rq])%list)).
Proof.
  intros Hc Hh. unfold Original.printfulRequest, bind, lift, fetch.
  rewrite (original_getHeaders_ok key Hc), Hh. cbn.
  unfold answer_original.
  destruct (P tr _) as [m|r]; reflexivity.
Qed.

Lemma fixed_request_run (key endpoint : string) (o : RequestInit) tr :
  configured E key -> init_headers o = None ->
  Fixed.printfulRequest E P endpoint o tr =
  (let rq := mkRequest (Fixed.PRINTFUL_API_URL ++ endpoint) (init_method o)
               (fixed_headers E key) (init_body o) in
   (answer_fixed P tr rq, (tr ++ [rq])%list)).
Proof.
  intros Hc Hh. unfold Fixed.printfulRequest, bind, lift, fetch.
  rewrite (fixed_getHeaders_ok key Hc), Hh. cbn.
  unfold answer_fixed.
  destruct (P tr _) as [m|r]; reflexivity.
Qed.

(** Without the key, it throws before anything is sent. *)
Lemma original_request_missing (endpoint : string) (o : RequestInit) tr :
  key_missing E = true ->
  Original.printfulRequest E P endpoint o tr = (Err not_configured, tr).
Proof.
  intros H. unfold Original.printfulRequest, bind, lift.
  now rewrite (original_getHeaders_missing H).
Qed.

Lemma fixed_request_missing (endpoint : string) (o : RequestInit) tr :
  key_missing E = true ->
  Fixed.printfulRequest E P endpoint o tr = (Err not_configured, tr).
Proof.
  intros H. unfold Fixed.printfulRequest, bind, lift.
  now rewrite (fixed_getHeaders_missing H).
Qed.

(** An envelope whose [code] is 200 is unwrapped to its [result]. *)
Lemma code_200_not_nullish (data : value) :
  strict_eq_num (prop data "code") 200%float = true -> nullish data = false.
Proof. destruct data; cbn; congruence. Qed.

Lemma fixed_envelope_ok (r : response) (data : value) :
  body r = Json data ->
  strict_eq_num (prop data "code") 200%float = true ->
  Fixed.read_envelope r = Ok (prop data "result").
Proof.
  intros Hb Hc. unfold Fixed.read_envelope. rewrite Hb.
  unfold get. rewrite (code_200_not_nullish data Hc). cbn. now rewrite Hc.
Qed.

Lemma fixed_answer_ok (tr : list request) (rq : request) (r : response) (data : value) :
  P tr rq = Responded r ->
  body r = Json data ->
  strict_eq_num (prop data "code") 200%float = true ->
  answer_fixed P tr rq = Ok (prop data "result").
Proof.
  intros HP Hb Hc. unfold answer_fixed. rewrite HP.
  exact (fixed_envelope_ok r data Hb Hc).
Qed.

(** C10.  [getStoreInfo] of the fixed client asks [/stores] once and returns
    the first element of the list in the envelope's [result]; when that list
    is empty it returns [undefined] and does not throw. *)
Theorem getStoreInfo_first_store
  (key : string) (tr : list request) (r : response) (data : value)
  (stores : list value) :
  configured E key ->
  P tr (fixed_get E key "/stores") = Responded r ->
  body r = Json data ->
  strict_eq_num (prop data "code") 200%float = true ->
  prop data "result" = VArr stores ->
  Fixed.getStoreInfo E P tr =
    (Ok (nth 0 stores VUndefined), (tr ++ [fixed_get E key "/stores"])%list)
  /\ (stores = [] -> fst (Fixed.getStoreInfo E P tr) = Ok VUndefined).
Proof.
  intros Hc HP Hb Hcode Hres.
  assert (Hrun : Fixed.getStoreInfo E P tr =
    (Ok (nth 0 stores VUndefined), (tr ++ [fixed_get E key "/stores"])%list)).
  { unfold Fixed.getStoreInfo, bind.
    rewrite (fixed_request_run key "/stores" no_options tr Hc eq_refl).
    cbv zeta. change (mkRequest _ _ _ _) with (fixed_get E key "/stores").
    rewrite (fixed_answer_ok tr _ r data HP Hb Hcode), Hres. reflexivity. }
  split; [exact Hrun|].
  intros ->. now rewrite Hrun.
Qed.

End WrapperFacts.

(** ** The two response readers *)

Section EnvelopeFacts.
Import Js Net Spec.
Context {B : Builtins}.

Lemma original_envelope_ok (r : response) (data : value) :
  body r = Json data -> nullish data = false -> ok r = true ->
  Original.read_envelope r = Ok (prop data "result").
Proof.
  intros Hb Hn Hok. unfold Original.read_envelope.
  rewrite Hok, Hb. cbn. unfold get. now rewrite Hn.
Qed.

Lemma original_envelope_error (r : response) (data : value) :
  body r = Json data -> nullish data = false -> ok r = false ->
  Original.read_envelope r =
  Err (Error (to_string (or_else (prop data "result")
                (VStr ("Printful API error: " ++ decimal (status r)))))).
Proof.
  intros Hb Hn Hok. unfold Original.read_envelope.
  rewrite Hok, Hb. cbn. unfold get. now rewrite Hn.
Qed.

Lemma fixed_envelope_error (r : response) (data : value) :
  body r = Json data -> nullish data = false ->
  strict_eq_num (prop data "code") 200%float = false ->
  Fixed.read_envelope r =
  Err (Error (to_string
    (or_else (get_opt (prop data "error") "message")
       (or_else (prop data "result")
          (VStr ("Printful API error: " ++ to_string (prop data "code"))))))).
Proof.
  intros Hb Hn Hc. unfold Fixed.read_envelope.
  rewrite Hb. unfold get. rewrite Hn. cbn. now rewrite Hc.
Qed.

(** C1, as amended.  On every response whose body is a JSON value other than
    [null] and whose HTTP status is in 200..299 exactly when the envelope's
    [code] is 200, the two versions of [printfulRequest] succeed together and
    then return the envelope's [result]; otherwise both throw an [Error].
    The fixed version's message is [error.message] when that is truthy; when
    it is not, both carry the envelope's [result] if that is truthy, and else
    the text ["Printful API error: "] followed by the HTTP status (original)
    or by the envelope's code (fixed). *)
Theorem envelope_readers_agree (r : response) (data : value) :
  body r = Json data ->
  nullish data = false ->
  ok r = strict_eq_num (prop data "code") 200%float ->
  (forall v, Original.read_envelope r = Ok v <-> Fixed.read_envelope r = Ok v)
  /\ (ok r = true ->
      Original.read_envelope r = Ok (prop data "result")
      /\ Fixed.read_envelope r = Ok (prop data "result"))
  /\ (ok r = false ->
      let result := prop data "result" in
      let detail := get_opt (prop data "error") "message" in
      exists m1 m2,
        Original.read_envelope r = Err (Error m1)
        /\ Fixed.read_envelope r = Err (Error m2)
        /\ (truthy detail = true -> m2 = to_string detail)
        /\ (truthy result = true -> m1 = to_string result)
        /\ (truthy detail = false -> truthy result = true -> m1 = m2)
        /\ (truthy detail = false -> truthy result = false ->
            m1 = "Printful API error: " ++ decimal (status r)
            /\ m2 = "Printful API error: " ++ to_string (prop data "code"))).
Proof.
  intros Hb Hn Hagree.
  destruct (ok r) eqn:Hok; symmetry in Hagree.
  - rewrite (original_envelope_ok r data Hb Hn Hok).
    rewrite (fixed_envelope_ok r data Hb Hagree).
    repeat split; auto; discriminate.
  - rewrite (original_envelope_error r data Hb Hn Hok).
    rewrite (fixed_envelope_error r data Hb Hn Hagree).
    split; [intros v; split; discriminate|].
    split; [discriminate|].
    intros _ result detail.
    eexists; eexists. split; [reflexivity|]. split; [reflexivity|].
    unfold or_else. subst result detail.
    destruct (truthy (get_opt (prop data "error") "message"));
      destruct (truthy (prop data "result"));
      repeat split; intros; try reflexivity; try discriminate.
Qed.

End EnvelopeFacts.

(** C1, as stated, fails: around an envelope with code 400 an HTTP status of
    200 makes the original version return the envelope's [result] while the
    fixed version throws the provider's [error.message]. *)
Lemma envelope_readers_disagree :
  Original.read_envelope (B := Samples.engine) Samples.status_200_code_400
    = Js.Ok (Js.VStr "Bad Request")
  /\ Fixed.read_envelope (B := Samples.engine) Samples.status_200_code_400
    = Js.Err (Js.Error "Missing required parameter").
Proof. split; reflexivity. Qed.

Lemma envelope_readers_agree_witness :
  Original.read_envelope (B := Samples.engine) (Samples.success_envelope (Js.VArr []))
    = Js.Ok (Js.VArr [])
  /\ Fixed.read_envelope (B := Samples.engine) (Samples.success_envelope (Js.VArr []))
    = Js.Ok (Js.VArr []).
Proof.
  exact (proj1 (proj2 (envelope_readers_agree (B := Samples.engine)
           (Samples.success_envelope (Js.VArr [])) _ eq_refl eq_refl eq_refl))
         eq_refl).
Defined.

(** ** What the operations send *)

Section SendsFacts.
Import Js Net Spec.

Lemma sends_ret {A} (G : request -> Prop) (a : A) : sends G (ret a).
Proof. intros tr. exists []. cbn. now rewrite app_nil_r. Qed.

Lemma sends_lift {A} (G : request -> Prop) (r : result A) : sends G (lift r).
Proof. intros tr. exists []. cbn. now rewrite app_nil_r. Qed.

Lemma sends_fetch (G : request -> Prop) (P : provider) (rq : request) :
  G rq -> sends G (fetch P rq).
Proof. intros H tr. exists [rq]. cbn. auto. Qed.

Lemma sends_bind {A C} (G : request -> Prop) (m : M A) (k : A -> M C) :
  sends G m -> (forall a, sends G (k a)) -> sends G (bind m k).
Proof.
  intros Hm Hk tr. unfold bind.
  destruct (Hm tr) as [n1 [E1 F1]].
  destruct (m tr) as [[a|e] tr1]; cbn in E1; subst tr1.
  - destruct (Hk a (tr ++ n1)%list) as [n2 [E2 F2]].
    exists (n1 ++ n2)%list. rewrite E2, app_assoc. split; [reflexivity|].
    apply Forall_app; auto.
  - exists n1. auto.
Qed.

Lemma sends_catch {A} (G : request -> Prop) (m : M A) (fallback : A) :
  sends G m -> sends G (catch m fallback).
Proof.
  intros Hm tr. unfold catch.
  destruct (Hm tr) as [n1 [E1 F1]].
  destruct (m tr) as [[a|e] tr1]; cbn in *; eauto.
Qed.

Lemma sends_all {A C} (G : request -> Prop) (f : A -> M C) (l : list A) :
  (forall a, sends G (f a)) -> sends G (all f l).
Proof.
  intros Hf. induction l as [|x rest IH]; [apply sends_ret|].
  intros tr. cbn.
  destruct (Hf x tr) as [n1 [E1 F1]].
  destruct (f x tr) as [r tr1]; cbn in E1; subst tr1.
  destruct (IH (tr ++ n1)%list) as [n2 [E2 F2]].
  destruct (all f rest (tr ++ n1)%list) as [rs tr2]; cbn in E2; subst tr2.
  exists (n1 ++ n2)%list. cbn. rewrite app_assoc. split; [reflexivity|].
  apply Forall_app; auto.
Qed.

End SendsFacts.

(** Walks down the binds of an operation; [request] closes the calls of the
    request wrapper. *)
Ltac sends_steps request :=
  repeat first
    [ request
    | apply sends_ret
    | apply sends_lift
    | apply sends_catch
    | apply sends_all; intros
    | apply sends_bind; [|intros] ].

Section KeyFacts.
Import Js Net Spec.
Context {B : Builtins}.
Variable E : env.
Variable P : provider.

Lemma original_request_sends (G : request -> Prop) (endpoint : string) (o : RequestInit) :
  (forall key, configured E key ->
     G (mkRequest (Original.PRINTFUL_API_URL ++ endpoint) (init_method o)
          (original_headers key) (init_body o))) ->
  init_headers o = None ->
  sends G (Original.printfulRequest E P endpoint o).
Proof.
  intros HG Hh tr.
  destruct (key_missing_or_configured E) as [Hm | [key Hc]].
  - rewrite (original_request_missing E P endpoint o tr Hm).
    exists []. cbn. now rewrite app_nil_r.
  - rewrite (original_request_run E P key endpoint o tr Hc Hh).
    eexists. split; [reflexivity|]. constructor; [|constructor].
    exact (HG key Hc).
Qed.

Lemma fixed_request_sends (G : request -> Prop) (endpoint : string) (o : RequestInit) :
  (forall key, configured E key ->
     G (mkRequest (Fixed.PRINTFUL_API_URL ++ endpoint) (init_method o)
          (fixed_headers E key) (init_body o))) ->
  init_headers o = None ->
  sends G (Fixed.printfulRequest E P endpoint o).
Proof.
  intros HG Hh tr.
  destruct (key_missing_or_configured E) as [Hm | [key Hc]].
  - rewrite (fixed_request_missing E P endpoint o tr Hm).
    exists []. cbn. now rewrite app_nil_r.
  - rewrite (fixed_request_run E P key endpoint o tr Hc Hh).
    eexists. split; [reflexivity|]. constructor; [|constructor].
    exact (HG key Hc).
Qed.

(** Every request of an original operation has the original header set. *)
Lemma original_run_sends (key : string) (op : Original.operation) :
  configured E key ->
  sends (fun rq => req_headers rq = original_headers key) (Original.run E P op).
Proof.
  intros Hc.
  assert (Hreq : forall endpoint o, init_headers o = None ->
            sends (fun rq => req_headers rq = original_headers key)
              (Original.printfulRequest E P endpoint o)).
  { intros endpoint o Hh. apply original_request_sends; [|exact Hh].
    intros k [Hk _]. destruct Hc as [Hk' _]. cbn. congruence. }
  destruct op; cbn [Original.run];
    unfold Original.getCatalog, Original.getProduct, Original.createSyncProduct,
      Original.createMockup, Original.getMockupResult, Original.getShippingRates,
      Original.createOrder, Original.getOrder, Original.listOrders,
      Original.cancelOrder, Original.getStoreInfo, Original.estimateCosts,
      Original.quickCreateProduct,
      Original.getProduct, Original.createSyncProduct, Original.createMockup;
    sends_steps ltac:(apply Hreq; reflexivity).
Qed.

Lemma fixed_run_sends (key : string) (op : Fixed.operation) :
  configured E key ->
  sends (fun rq => req_headers rq = fixed_headers E key) (Fixed.run E P op).
Proof.
  intros Hc.
  assert (Hreq : forall endpoint o, init_headers o = None ->
            sends (fun rq => req_headers rq = fixed_headers E key)
              (Fixed.printfulRequest E P endpoint o)).
  { intros endpoint o Hh. apply fixed_request_sends; [|exact Hh].
    intros k [Hk _]. destruct Hc as [Hk' _]. cbn. congruence. }
  destruct op; cbn [Fixed.run];
    unfold Fixed.getCatalog, Fixed.getProduct, Fixed.getVariant,
      Fixed.getShippingRates, Fixed.estimateCosts, Fixed.createMockupTask,
      Fixed.getMockupResult, Fixed.getStoreInfo, Fixed.createDraftOrder,
      Fixed.getPopularProducts, Fixed.getProductPricing, Fixed.getProduct;
    sends_steps ltac:(apply Hreq; reflexivity).
Qed.

(** Without the key every original operation throws at once. *)
Lemma original_run_missing (op : Original.operation) tr :
  key_missing E = true ->
  Original.run E P op tr = (Err not_configured, tr).
Proof.
  intros H.
  destruct op; cbn [Original.run];
    unfold Original.getCatalog, Original.getProduct, Original.createSyncProduct,
      Original.createMockup, Original.getMockupResult, Original.getShippingRates,
      Original.createOrder, Original.getOrder, Original.listOrders,
      Original.cancelOrder, Original.getStoreInfo, Original.estimateCosts,
      Original.quickCreateProduct, Original.getProduct, bind;
    now rewrite (original_request_missing E P _ _ tr H).
Qed.

Lemma fixed_run_missing (op : Fixed.operation) tr :
  key_missing E = true ->
  op <> Fixed.GetPopularProducts ->
  Fixed.run E P op tr = (Err not_configured, tr).
Proof.
  intros H Hop.
  destruct op; try congruence; cbn [Fixed.run];
    unfold Fixed.getCatalog, Fixed.getProduct, Fixed.getVariant,
      Fixed.getShippingRates, Fixed.estimateCosts, Fixed.createMockupTask,
      Fixed.getMockupResult, Fixed.getStoreInfo, Fixed.createDraftOrder,
      Fixed.getProductPricing, Fixed.getProduct, bind;
    now rewrite (fixed_request_missing E P _ _ tr H).
Qed.

Lemma fixed_popular_missing tr :
  key_missing E = true ->
  Fixed.getPopularProducts E P tr = (Ok (VArr []), tr).
Proof.
  intros H. unfold Fixed.getPopularProducts, bind. cbn.
  unfold catch, Fixed.getProduct.
  now rewrite !(fixed_request_missing E P _ _ tr H).
Qed.

(** C3, as amended.  Without [PRINTFUL_API_KEY] (unset or empty) every
    operation of the original client and every operation of the fixed client
    other than [getPopularProducts] throws ['PRINTFUL_API_KEY not configured']
    and sends nothing; [getPopularProducts] sends nothing either and returns
    the empty list.  With the key set, every request an operation of either
    client sends carries [Authorization: Bearer <key>], and in the fixed
    client also [X-PF-Store-Id]. *)
Theorem key_guard_and_auth_header :
  (key_missing E = true ->
     (forall op tr,
        Original.run E P op tr
        = (Err (Error "PRINTFUL_API_KEY not configured"), tr))
     /\ (forall op tr, op <> Fixed.GetPopularProducts ->
        Fixed.run E P op tr
        = (Err (Error "PRINTFUL_API_KEY not configured"), tr))
     /\ (forall tr,
        Fixed.run E P Fixed.GetPopularProducts tr = (Ok (VArr []), tr)))
  /\ (forall key, configured E key ->
     (forall op tr, exists new,
        snd (Original.run E P op tr) = (tr ++ new)%list
        /\ Forall (fun rq =>
             header "Authorization" (req_headers rq) = Some ("Bearer " ++ key))
             new)
     /\ (forall op tr, exists new,
        snd (Fixed.run E P op tr) = (tr ++ new)%list
        /\ Forall (fun rq =>
             header "Authorization" (req_headers rq) = Some ("Bearer " ++ key)
             /\ header "X-PF-Store-Id" (req_headers rq)
                = Some (Fixed.PRINTFUL_STORE_ID E))
             new)).
Proof.
  split.
  - intros H. split; [|split].
    + intros op tr. exact (original_run_missing op tr H).
    + intros op tr Hop. exact (fixed_run_missing op tr H Hop).
    + intros tr. exact (fixed_popular_missing tr H).
  - intros key Hc. split.
    + intros op tr. destruct (original_run_sends key op Hc tr) as [new [E1 F1]].
      exists new. split; [exact E1|].
      eapply Forall_impl; [|exact F1]. intros rq ->. reflexivity.
    + intros op tr. destruct (fixed_run_sends key op Hc tr) as [new [E1 F1]].
      exists new. split; [exact E1|].
      eapply Forall_impl; [|exact F1]. intros rq ->. split; reflexivity.
Qed.

End KeyFacts.

(** C3, as stated, fails for [getPopularProducts] of the fixed client: with
    no key it does not throw but returns the empty list. *)
Lemma popular_products_without_key :
  Fixed.run (B := Samples.engine) Samples.env_without_key Samples.unreachable
    Fixed.GetPopularProducts []
  = (Js.Ok (Js.VArr []), [])
  /\ Spec.key_missing Samples.env_without_key = true.
Proof. split; reflexivity. Qed.

Lemma key_guard_witness :
  Original.run (B := Samples.engine) Samples.env_without_key Samples.unreachable
    Original.GetCatalog []
  = (Js.Err (Js.Error "PRINTFUL_API_KEY not configured"), [])
  /\ exists new,
       snd (Fixed.run (B := Samples.engine) Samples.env_with_key Samples.unreachable
              (Fixed.GetProductPricing 71%float) [])
       = ([] ++ new)%list
       /\ Forall (fun rq =>
            Net.header "Authorization" (Net.req_headers rq) = Some "Bearer secret"
            /\ Net.header "X-PF-Store-Id" (Net.req_headers rq) = Some "16513682")
            new.
Proof.
  split.
  - exact (proj1 (proj1 (key_guard_and_auth_header (B := Samples.engine)
             Samples.env_without_key Samples.unreachable) eq_refl)
           Original.GetCatalog []).
  - exact (proj2 (proj2 (key_guard_and_auth_header (B := Samples.engine)
             Samples.env_with_key Samples.unreachable)
             "secret" (conj eq_refl eq_refl))
           (Fixed.GetProductPricing 71%float) []).
Defined.

(** ** getPopularProducts *)

Section PopularFacts.
Import Js Net Spec.
Context {B : Builtins}.
Variable E : env.
Variable P : provider.

Lemma getProduct_caught (key : string) (id : float) tr :
  configured E key ->
  catch (Fixed.getProduct E P id) VNull tr =
  (Ok (match answer_fixed P tr (product_request E key id) with
       | Ok v => v
       | Err _ => VNull
       end), (tr ++ [product_request E key id])%list).
Proof.
  intros Hc. unfold catch, Fixed.getProduct.
  rewrite (fixed_request_run E P key _ no_options tr Hc eq_refl). cbv zeta.
  change (mkRequest _ _ _ _) with (product_request E key id).
  now destruct (answer_fixed P tr (product_request E key id)).
Qed.

Lemma all_caught (key : string) (ids : list float) :
  configured E key ->
  forall tr, exists products,
    all (fun id => catch (Fixed.getProduct E P id) VNull) ids tr
    = (Ok products, (tr ++ map (product_request E key) ids)%list)
    /\ filter (fun p => negb (Fixed.is_null p)) products
       = fetched_details P tr (map (product_request E key) ids).
Proof.
  intros Hc. induction ids as [|id rest IH]; intros tr.
  - exists []. cbn. now rewrite app_nil_r.
  - cbn [all map fetched_details].
    rewrite (getProduct_caught key id tr Hc).
    destruct (IH (tr ++ [product_request E key id])%list) as [ps [Hrun Hkeep]].
    rewrite Hrun.
    eexists. split.
    + rewrite <- app_assoc. reflexivity.
    + cbn [filter]. rewrite Hkeep.
      destruct (answer_fixed P tr (product_request E key id)) as [v|e];
        [destruct v|]; reflexivity.
Qed.

(** C5.  [POPULAR_PRODUCTS] has eight ids; [getPopularProducts] asks for the
    first five only, in declaration order, returns the details that were
    fetched, dropping every product whose request failed, and never throws:
    not when a request fails, and not when the key is missing. *)
Theorem popular_products_first_five (tr : list request) :
  List.length (Fixed.Object_values Fixed.POPULAR_PRODUCTS) = 8
  /\ (exists details, fst (Fixed.getPopularProducts E P tr) = Ok (VArr details))
  /\ (forall key, configured E key ->
      let rqs := map (product_request E key) [71; 380; 19; 1; 195]%float in
      Fixed.getPopularProducts E P tr
      = (Ok (VArr (fetched_details P tr rqs)), (tr ++ rqs)%list)).
Proof.
  assert (Hrun : forall key, configured E key ->
      let rqs := map (product_request E key) [71; 380; 19; 1; 195]%float in
      Fixed.getPopularProducts E P tr
      = (Ok (VArr (fetched_details P tr rqs)), (tr ++ rqs)%list)).
  { intros key Hc rqs. unfold Fixed.getPopularProducts, bind.
    change (firstn 5 (Fixed.Object_values Fixed.POPULAR_PRODUCTS))
      with [71; 380; 19; 1; 195]%float.
    destruct (all_caught key [71; 380; 19; 1; 195]%float Hc tr) as [ps [Hall Hkeep]].
    rewrite Hall. unfold ret. now rewrite Hkeep. }
  split; [reflexivity|]. split; [|exact Hrun].
  destruct (key_missing_or_configured E) as [Hm | [key Hc]].
  - exists []. now rewrite (fixed_popular_missing E P tr Hm).
  - eexists. now rewrite (Hrun key Hc).
Qed.

End PopularFacts.

(** ** quickCreateProduct *)

Section QuickFacts.
Import Js Net Spec.
Context {B : Builtins}.
Variable E : env.
Variable P : provider.

Lemma prop_array_not_nullish (v : value) (p : string) (l : list value) :
  prop v p = VArr l -> nullish v = false.
Proof. destruct v; cbn; congruence. Qed.

Lemma get_ok (v : value) (p : string) :
  nullish v = false -> get v p = Ok (prop v p).
Proof. intros H. unfold get. now rewrite H. Qed.

Lemma destructure_ok (v : value) (p : string) :
  nullish v = false -> destructure v p = Ok (prop v p).
Proof. intros H. unfold destructure. now rewrite H. Qed.

Lemma rmap_ok {A C} (f : A -> result C) (g : A -> C) (l : list A) :
  Forall (fun x => f x = Ok (g x)) l -> rmap f l = Ok (map g l).
Proof.
  induction 1 as [|x rest Hx _ IH]; [reflexivity|].
  cbn. now rewrite Hx, IH.
Qed.


Lemma bind_lift {A C} (r : result A) (k : A -> M C) tr :
  bind (lift r) k tr = match r with Ok a => k a tr | Err e => (Err e, tr) end.
Proof. now destruct r. Qed.

(** Whatever the provider answers, the requests of [quickCreateProduct] are
    an initial part of the chain product, sync product, mockup task, and a
    result is returned only after all three. *)
(** Closes a case of the chain once the list of requests is known. *)
Ltac stopped new n :=
  eexists; exists new, n; rewrite <- ?app_assoc;
  split; [reflexivity | split; [reflexivity | first [discriminate | reflexivity]]].

(** Whatever the provider answers, the requests of [quickCreateProduct] are
    an initial part of the chain product, sync product, mockup task, and a
    result is returned only after all three. *)
Lemma quickCreateProduct_order (params : Original.QuickParams) (tr : list request) :
  exists r new n,
    Original.quickCreateProduct E P params tr = (r, (tr ++ new)%list)
    /\ map req_url new
       = firstn n (chain_urls (Original.POPULAR_PRODUCTS (Original.qp_productType params)))
    /\ (forall v, r = Ok v -> n = 3).
Proof.
  destruct (key_missing_or_configured E) as [Hm | [key Hc]].
  { pose proof (original_run_missing E P (Original.QuickCreateProduct params) tr Hm) as H.
    cbn [Original.run] in H. rewrite H.
    eexists; exists [], 0. rewrite app_nil_r.
    split; [reflexivity | split; [reflexivity | discriminate]]. }
  unfold Original.quickCreateProduct.
  set (productId := Original.POPULAR_PRODUCTS (Original.qp_productType params)).
  set (markup := Original.markup_of (Original.qp_retailMarkup params)).
  unfold bind at 1. unfold Original.getProduct.
  rewrite (original_request_run E P key _ no_options tr Hc eq_refl). cbv zeta.
  match goal with |- context [answer_original P tr ?r] => set (rq1 := r) end.
  destruct (answer_original P tr rq1) as [product|e1]; [|stopped [rq1] 1].
  rewrite bind_lift.
  destruct (get product "variants") as [variants|e]; [|stopped [rq1] 1].
  rewrite bind_lift.
  destruct (slice_receiver variants) as [sliced|e]; [|stopped [rq1] 1].
  rewrite bind_lift.
  destruct (rmap _ (firstn 5 sliced)) as [syncVariants|e]; [|stopped [rq1] 1].
  unfold bind at 1. unfold Original.createSyncProduct.
  rewrite (original_request_run E P key _ (post _) _ Hc eq_refl). cbv zeta.
  match goal with |- context [answer_original P (tr ++ [rq1]) ?r] => set (rq2 := r) end.
  destruct (answer_original P (tr ++ [rq1]) rq2) as [syncProduct|e2];
    [|stopped [rq1; rq2] 2].
  rewrite bind_lift.
  destruct (rmap _ (firstn 5 sliced)) as [variantIds|e]; [|stopped [rq1; rq2] 2].
  unfold bind at 1. unfold Original.createMockup.
  rewrite (original_request_run E P key _ (post _) _ Hc eq_refl). cbv zeta.
  match goal with |- context [answer_original P ((tr ++ [rq1]) ++ [rq2]) ?r] =>
    set (rq3 := r) end.
  destruct (answer_original P ((tr ++ [rq1]) ++ [rq2]) rq3) as [mockupTask|e3];
    [|stopped [rq1; rq2; rq3] 3].
  rewrite !bind_lift.
  destruct (get syncProduct "id"); [|stopped [rq1; rq2; rq3] 3].
  rewrite !bind_lift.
  destruct (get mockupTask "mockups"); [|stopped [rq1; rq2; rq3] 3].
  rewrite !bind_lift.
  destruct (map_receiver _); [|stopped [rq1; rq2; rq3] 3].
  rewrite !bind_lift.
  destruct (rmap _ _); stopped [rq1; rq2; rq3] 3.
Qed.

(** What the original client makes of an answer: the call returns [v]
    exactly on an accepted answer with result [v]. *)
Lemma accepted_answer (tr : list request) (rq : request) (v : value) :
  accepted P tr rq v <-> answer_original P tr rq = Ok v.
Proof.
  unfold accepted, answer_original. split.
  - intros [r [data [HP [Hok [Hb [Hn Hv]]]]]]. rewrite HP.
    unfold Original.read_envelope. rewrite Hok, Hb. cbn. unfold get.
    now rewrite Hn, Hv.
  - destruct (P tr rq) as [m|r]; [discriminate|].
    unfold Original.read_envelope.
    destruct (ok r) eqn:Hok; cbn [negb].
    + destruct (body r) as [m|data] eqn:Hb; [discriminate|].
      unfold get. destruct (nullish data) eqn:Hn; [discriminate|].
      intros H. injection H as <-. exists r, data. auto.
    + destruct (get _ "result"); discriminate.
Qed.

Lemma not_accepted_error (tr : list request) (rq : request) :
  (forall v, ~ accepted P tr rq v) -> exists e, answer_original P tr rq = Err e.
Proof.
  intros H. destruct (answer_original P tr rq) as [v|e] eqn:Ha; [|eauto].
  exfalso. exact (H v (proj2 (accepted_answer tr rq v) Ha)).
Qed.

(** Mapping a callback that reads a property over a list with a [null] or
    [undefined] element throws a TypeError. *)
Lemma rmap_null {C} (f : value -> result C) (l : list value) :
  (forall x, nullish x = false -> exists y, f x = Ok y) ->
  (forall x, nullish x = true -> exists m, f x = Err (TypeError m)) ->
  Exists (fun x => nullish x = true) l ->
  exists m, rmap f l = Err (TypeError m).
Proof.
  intros Hok Herr. induction l as [|x rest IH]; intros Hex; [inversion Hex|].
  cbn [rmap]. destruct (nullish x) eqn:Hx.
  - destruct (Herr x Hx) as [m ->]. eexists; reflexivity.
  - destruct (Hok x Hx) as [y ->]. cbn [rbind].
    inversion Hex as [? ? H | ? ? H]; subst; [congruence|].
    destruct (IH H) as [m ->]. eexists; reflexivity.
Qed.

Section Chain.
Variable params : Original.QuickParams.
Variable key : string.
Variable tr : list request.
Hypothesis Hc : configured E key.

Lemma quick_markup_of :
  Original.markup_of (Original.qp_retailMarkup params) = quick_markup params.
Proof.
  unfold Original.markup_of, quick_markup, num_truthy.
  destruct (Original.qp_retailMarkup params) as [m|]; [|reflexivity].
  now destruct (PrimFloat.is_zero m || PrimFloat.is_nan m).
Qed.

(** The first call. *)
Lemma quick_product_step :
  Original.quickCreateProduct E P params tr
  = match answer_original P tr (quick_product_request key params) with
    | Err e => (Err e, (tr ++ [quick_product_request key params])%list)
    | Ok product =>
        ((let! variants := get product "variants" in
          let! sliced := slice_receiver variants in
          let baseVariants := firstn 5 sliced in
          let! syncVariants :=
            rmap (Original.sync_variant (Original.qp_designUrl params)
                    (quick_markup params)) baseVariants in
          syncProduct <- Original.createSyncProduct E P (Original.qp_name params)
                           (Original.qp_designUrl params) (VArr syncVariants) ;;
          let! variantIds := rmap (fun v => get v "id") baseVariants in
          mockupTask <- Original.createMockup E P
                          (Original.POPULAR_PRODUCTS (Original.qp_productType params))
                          (VArr variantIds)
                          (VArr [Original.default_file (Original.qp_designUrl params)]) ;;
          let! id := get syncProduct "id" in
          let! mockups := get mockupTask "mockups" in
          let! ms := map_receiver mockups in
          let! urls := rmap (fun m => get m "mockup_url") ms in
          ret (VObj [("productId", id); ("mockupUrls", VArr urls)]))%js)
          (tr ++ [quick_product_request key params])%list
    end.
Proof.
  unfold Original.quickCreateProduct. rewrite quick_markup_of.
  unfold bind at 1. unfold Original.getProduct.
  rewrite (original_request_run E P key _ no_options tr Hc eq_refl). cbv zeta.
  change (mkRequest _ _ _ _) with (quick_product_request key params).
  now destruct (answer_original P tr (quick_product_request key params)).
Qed.

(** The second call, once the product has a list of variants. *)
Lemma quick_sync_step (product : value) (variants : list value) :
  let base := firstn 5 variants in
  let rq1 := quick_product_request key params in
  let rq2 := quick_sync_request key params base in
  answer_original P tr rq1 = Ok product ->
  prop product "variants" = VArr variants ->
  Forall (fun v => nullish v = false) base ->
  Original.quickCreateProduct E P params tr
  = match answer_original P (tr ++ [rq1]) rq2 with
    | Err e => (Err e, (tr ++ [rq1; rq2])%list)
    | Ok syncProduct =>
        ((mockupTask <- Original.createMockup E P
                          (Original.POPULAR_PRODUCTS (Original.qp_productType params))
                          (VArr (map (fun v => prop v "id") base))
                          (VArr [Original.default_file (Original.qp_designUrl params)]) ;;
          let! id := get syncProduct "id" in
          let! mockups := get mockupTask "mockups" in
          let! ms := map_receiver mockups in
          let! urls := rmap (fun m => get m "mockup_url") ms in
          ret (VObj [("productId", id); ("mockupUrls", VArr urls)]))%js)
          (tr ++ [rq1; rq2])%list
    end.
Proof.
  intros base rq1 rq2 H1 Hvariants Hbase.
  rewrite quick_product_step. fold rq1. rewrite H1.
  rewrite (get_ok product "variants" (prop_array_not_nullish _ _ _ Hvariants)).
  rewrite Hvariants. cbn [bind lift slice_receiver]. fold base.
  rewrite (rmap_ok (Original.sync_variant (Original.qp_designUrl params)
                      (quick_markup params))
             (fun v => VObj [("variant_id", prop v "id");
                             ("retail_price",
                              VNum (to_number (prop v "price") * quick_markup params)%float);
                             ("files", VArr [quick_file params])]) base); cycle 1.
  { eapply Forall_impl; [|exact Hbase]. intros v Hv.
    unfold Original.sync_variant. now rewrite !(get_ok v _ Hv). }
  unfold bind at 1. unfold Original.createSyncProduct.
  rewrite (original_request_run E P key _ (post _) _ Hc eq_refl). cbv zeta.
  change (mkRequest _ _ _ _) with rq2.
  rewrite <- app_assoc. change ([rq1] ++ [rq2])%list with [rq1; rq2].
  destruct (answer_original P (tr ++ [rq1]) rq2) as [syncProduct|e]; [|reflexivity].
  rewrite (rmap_ok (fun v => get v "id") (fun v => prop v "id") base); cycle 1.
  { eapply Forall_impl; [|exact Hbase]. intros v Hv. exact (get_ok v "id" Hv). }
  reflexivity.
Qed.

(** The third call, and what is made of its answer. *)
Lemma quick_mockup_step (product syncProduct : value) (variants : list value) :
  let base := firstn 5 variants in
  let rq1 := quick_product_request key params in
  let rq2 := quick_sync_request key params base in
  let rq3 := quick_mockup_request key params base in
  answer_original P tr rq1 = Ok product ->
  prop product "variants" = VArr variants ->
  Forall (fun v => nullish v = false) base ->
  answer_original P (tr ++ [rq1]) rq2 = Ok syncProduct ->
  Original.quickCreateProduct E P params tr
  = (match answer_original P (tr ++ [rq1; rq2]) rq3 with
     | Err e => Err e
     | Ok mockupTask =>
         rbind (get syncProduct "id") (fun id =>
         rbind (get mockupTask "mockups") (fun mockups =>
         rbind (map_receiver mockups) (fun ms =>
         rbind (rmap (fun m => get m "mockup_url") ms) (fun urls =>
         Ok (VObj [("productId", id); ("mockupUrls", VArr urls)])))))
     end, (tr ++ [rq1; rq2; rq3])%list).
Proof.
  intros base rq1 rq2 rq3 H1 Hvariants Hbase H2.
  rewrite (quick_sync_step product variants H1 Hvariants Hbase).
  fold base rq1 rq2. rewrite H2.
  unfold bind at 1. unfold Original.createMockup.
  rewrite (original_request_run E P key _ (post _) _ Hc eq_refl). cbv zeta.
  change (mkRequest _ _ _ _) with rq3.
  replace ((tr ++ [rq1; rq2]) ++ [rq3])%list with (tr ++ [rq1; rq2; rq3])%list
    by (rewrite <- app_assoc; reflexivity).
  destruct (answer_original P (tr ++ [rq1; rq2]) rq3) as [mockupTask|e];
    [|reflexivity].
  unfold bind, lift, ret.
  destruct (get syncProduct "id"); [|reflexivity]. cbn [rbind].
  destruct (get mockupTask "mockups"); [|reflexivity]. cbn [rbind].
  destruct (map_receiver _); [|reflexivity]. cbn [rbind].
  now destruct (rmap _ _).
Qed.

(** A product answer without a list of variants, or with a [null] among the
    first five, makes the function throw before the second call. *)
Lemma no_variants_throws (product : value) :
  answer_original P tr (quick_product_request key params) = Ok product ->
  (forall l, prop product "variants" <> VArr l)
  \/ (exists variants,
        prop product "variants" = VArr variants
        /\ Exists (fun v => nullish v = true) (firstn 5 variants)) ->
  exists m,
    Original.quickCreateProduct E P params tr
    = (Err (TypeError m), (tr ++ [quick_product_request key params])%list).
Proof.
  intros H1 Hwhy. rewrite quick_product_step, H1. unfold bind at 1, lift at 1, get.
  destruct (nullish product) eqn:Hn; [eexists; reflexivity|].
  unfold bind at 1, lift at 1.
  destruct Hwhy as [Hno | [variants [Hvs Hex]]].
  - destruct (prop product "variants") as [| |b|n|t|l|fs] eqn:Hv;
      try (eexists; reflexivity).
    exfalso. exact (Hno l eq_refl).
  - rewrite Hvs. cbn [slice_receiver]. unfold bind at 1, lift at 1.
    destruct (rmap_null (Original.sync_variant (Original.qp_designUrl params)
                           (quick_markup params)) (firstn 5 variants)) as [m Hm].
    + intros x Hx. unfold Original.sync_variant. rewrite !(get_ok x _ Hx).
      eexists; reflexivity.
    + intros x Hx. unfold Original.sync_variant, get. rewrite Hx.
      eexists; reflexivity.
    + exact Hex.
    + rewrite Hm. eexists; reflexivity.
Qed.

(** An answer without a list of mockups makes the last step throw, and so
    does a sync product that is [null] or a [null] among the mockups. *)
Lemma no_mockups_throws (syncProduct mockupTask : value) :
  nullish syncProduct = true
  \/ (forall l, prop mockupTask "mockups" <> VArr l)
  \/ (exists mockups,
        prop mockupTask "mockups" = VArr mockups
        /\ Exists (fun m => nullish m = true) mockups) ->
  exists m,
    rbind (get syncProduct "id") (fun id =>
    rbind (get mockupTask "mockups") (fun mockups =>
    rbind (map_receiver mockups) (fun ms =>
    rbind (rmap (fun m => get m "mockup_url") ms) (fun urls =>
    Ok (VObj [("productId", id); ("mockupUrls", VArr urls)])))))
    = Err (TypeError m).
Proof.
  intros Hwhy. unfold get at 1 2.
  destruct (nullish syncProduct) eqn:Hs; [eexists; reflexivity|]. cbn [rbind].
  destruct (nullish mockupTask); [eexists; reflexivity|]. cbn [rbind].
  destruct Hwhy as [H | [Hno | [mockups [Hms Hex]]]]; [discriminate| |].
  - destruct (prop mockupTask "mockups") as [| |b|n|t|l|fs] eqn:Hm;
      try (eexists; reflexivity).
    exfalso. exact (Hno l eq_refl).
  - rewrite Hms. cbn [map_receiver rbind].
    destruct (rmap_null (fun m => get m "mockup_url") mockups) as [m Hm].
    + intros x Hx. rewrite (get_ok x _ Hx). eexists; reflexivity.
    + intros x Hx. unfold get. rewrite Hx. eexists; reflexivity.
    + exact Hex.
    + rewrite Hm. eexists; reflexivity.
Qed.

End Chain.

(** C2, as amended.  Whatever the provider answers, the requests of
    [quickCreateProduct] are an initial part of the chain product details,
    sync product, mockup task, and a result is returned only after all
    three.  With the key set the function goes on only while the calls
    succeed: when the provider does not accept a call, the function throws
    and that call was its last request.  The first request asks for the
    product mapped to [productType]; the sync product's i-th variant, for the
    first five variants of the product, has that variant's id and its price
    times the markup, where the markup is [retailMarkup] when that is given
    and is neither zero nor NaN, and 2 otherwise; the mockup task is for the
    same variant ids with the single file [{type: 'default', url:
    designUrl}].  A product answer without a list of variants, or with a
    [null] among the first five, makes the function throw a TypeError after
    the first request.  When the sync product is not [null] and the mockup
    answer has a list of mockups without a [null], the function returns the
    id of the created sync product and the [mockup_url]s of that list;
    otherwise, as for a mockup answer [{task_key, status}], it throws a
    TypeError after the three requests. *)
Theorem quickCreateProduct_chain
  (params : Original.QuickParams) (key : string) (tr : list request) :
  configured E key ->
  let productId := Original.POPULAR_PRODUCTS (Original.qp_productType params) in
  let markup :=
    match Original.qp_retailMarkup params with
    | Some m => if PrimFloat.is_zero m || PrimFloat.is_nan m then 2%float else m
    | None => 2%float
    end in
  let file :=
    VObj [("type", VStr "default"); ("url", VStr (Original.qp_designUrl params))] in
  let rq1 := original_get key ("/products/" ++ number_to_string productId) in
  let rq2 (base : list value) :=
    original_post key "/sync/products"
      (VObj [("sync_product",
              VObj [("name", VStr (Original.qp_name params));
                    ("thumbnail", VStr (Original.qp_designUrl params))]);
             ("sync_variants",
              VArr (map (fun v =>
                      VObj [("variant_id", prop v "id");
                            ("retail_price",
                             VNum (to_number (prop v "price") * markup)%float);
                            ("files", VArr [file])]) base))]) in
  let rq3 (base : list value) :=
    original_post key
      ("/mockup-generator/create-task/" ++ number_to_string productId)
      (VObj [("variant_ids", VArr (map (fun v => prop v "id") base));
             ("files", VArr [file])]) in
  (exists r new n,
     Original.quickCreateProduct E P params tr = (r, (tr ++ new)%list)
     /\ map req_url new = firstn n (chain_urls productId)
     /\ (forall v, r = Ok v -> n = 3))
  /\ ((forall product, ~ accepted P tr rq1 product) ->
      exists e,
        Original.quickCreateProduct E P params tr = (Err e, (tr ++ [rq1])%list))
  /\ (forall product,
        accepted P tr rq1 product ->
        (forall l, prop product "variants" <> VArr l)
        \/ (exists variants,
              prop product "variants" = VArr variants
              /\ Exists (fun v => nullish v = true) (firstn 5 variants)) ->
        exists m,
          Original.quickCreateProduct E P params tr
          = (Err (TypeError m), (tr ++ [rq1])%list))
  /\ (forall product variants,
        accepted P tr rq1 product ->
        prop product "variants" = VArr variants ->
        Forall (fun v => nullish v = false) (firstn 5 variants) ->
        let base := firstn 5 variants in
        ((forall syncProduct, ~ accepted P (tr ++ [rq1]) (rq2 base) syncProduct) ->
         exists e,
           Original.quickCreateProduct E P params tr
           = (Err e, (tr ++ [rq1; rq2 base])%list))
        /\ (forall syncProduct,
              accepted P (tr ++ [rq1]) (rq2 base) syncProduct ->
              ((forall mockupTask,
                  ~ accepted P (tr ++ [rq1; rq2 base]) (rq3 base) mockupTask) ->
               exists e,
                 Original.quickCreateProduct E P params tr
                 = (Err e, (tr ++ [rq1; rq2 base; rq3 base])%list))
              /\ (forall mockupTask,
                    accepted P (tr ++ [rq1; rq2 base]) (rq3 base) mockupTask ->
                    (forall mockups,
                       nullish syncProduct = false ->
                       prop mockupTask "mockups" = VArr mockups ->
                       Forall (fun m => nullish m = false) mockups ->
                       Original.quickCreateProduct E P params tr
                       = (Ok (VObj [("productId", prop syncProduct "id");
                                    ("mockupUrls",
                                     VArr (map (fun m => prop m "mockup_url") mockups))]),
                          (tr ++ [rq1; rq2 base; rq3 base])%list))
                    /\ (nullish syncProduct = true
                        \/ (forall l, prop mockupTask "mockups" <> VArr l)
                        \/ (exists mockups,
                              prop mockupTask "mockups" = VArr mockups
                              /\ Exists (fun m => nullish m = true) mockups) ->
                        exists m,
                          Original.quickCreateProduct E P params tr
                          = (Err (TypeError m),
                             (tr ++ [rq1; rq2 base; rq3 base])%list))))).
Proof.
  intros Hc productId markup file rq1 rq2 rq3.
  change rq1 with (quick_product_request key params).
  split; [apply quickCreateProduct_order|].
  split.
  { intros Hno. destruct (not_accepted_error tr _ Hno) as [e He].
    exists e. rewrite (quick_product_step params key tr Hc). now rewrite He. }
  split.
  { intros product H1 Hwhy. apply accepted_answer in H1.
    exact (no_variants_throws params key tr Hc product H1 Hwhy). }
  intros product variants H1 Hvariants Hbase base.
  change (rq2 base) with (quick_sync_request key params base).
  change (rq3 base) with (quick_mockup_request key params base).
  apply accepted_answer in H1.
  split.
  { intros Hno. destruct (not_accepted_error _ _ Hno) as [e He].
    exists e.
    rewrite (quick_sync_step params key tr Hc product variants H1 Hvariants Hbase).
    fold base. now rewrite He. }
  intros syncProduct H2. apply accepted_answer in H2.
  pose proof (quick_mockup_step params key tr Hc product syncProduct variants
                H1 Hvariants Hbase H2) as Hrun.
  cbv zeta in Hrun. fold base in Hrun.
  split.
  { intros Hno. destruct (not_accepted_error _ _ Hno) as [e He].
    exists e. rewrite Hrun. now rewrite He. }
  intros mockupTask H3. apply accepted_answer in H3.
  rewrite H3 in Hrun. split.
  - intros mockups Hsync Hmockups Hms. rewrite Hrun.
    rewrite (get_ok syncProduct "id" Hsync).
    rewrite (get_ok mockupTask "mockups" (prop_array_not_nullish _ _ _ Hmockups)).
    rewrite Hmockups. cbn [rbind map_receiver].
    rewrite (rmap_ok (fun m => get m "mockup_url") (fun m => prop m "mockup_url")
               mockups); [reflexivity|].
    eapply Forall_impl; [|exact Hms]. intros m Hm. exact (get_ok m "mockup_url" Hm).
  - intros Hno. destruct (no_mockups_throws syncProduct mockupTask Hno) as [m Hm].
    exists m. rewrite Hrun. now rewrite Hm.
Qed.

End QuickFacts.

(** ** Mockup tasks *)

Section MockupFacts.
Import Js Net Spec.
Context {B : Builtins}.
Variable E : env.
Variable P : provider.

Lemma in_firstn {A} (n : nat) (l : list A) (x : A) :
  In x (firstn n l) -> In x l.
Proof.
  revert l. induction n as [|n IH]; intros [|y l]; cbn; try tauto.
  intros [-> | H]; auto.
Qed.

(** C4, as amended.  With the key set, creating a mockup task is one POST
    to [/mockup-generator/create-task/<productId>] and [getMockupResult] is
    one request to [/mockup-generator/task?task_key=<key>], in both clients
    and whatever the provider answers; each returns the [result] of an
    accepted answer as it is.  So the caller gets a task key and a status and
    no mockups when that is the provider's answer, and the mockups when the
    answer has them; no function waits or asks again.  The workflow of the
    original client, [quickCreateProduct], never asks for a task's result: it
    reads the mockups off the answer to the creation, and throws a TypeError
    when that answer has no list of mockups. *)
Theorem mockup_task_is_polled
  (key : string) (tr : list request) :
  configured E key ->
  (forall productId variantIds files,
     let rq := fixed_post E key
                 ("/mockup-generator/create-task/" ++ to_string productId)
                 (VObj [("variant_ids", variantIds); ("files", files)]) in
     snd (Fixed.createMockupTask E P productId variantIds files tr)
     = (tr ++ [rq])%list
     /\ forall r data,
          P tr rq = Responded r -> body r = Json data ->
          strict_eq_num (prop data "code") 200%float = true ->
          fst (Fixed.createMockupTask E P productId variantIds files tr)
          = Ok (prop data "result")
          /\ forall task_key status,
               prop data "result"
               = VObj [("task_key", task_key); ("status", status)] ->
               exists task,
                 fst (Fixed.createMockupTask E P productId variantIds files tr)
                 = Ok task
                 /\ prop task "task_key" = task_key
                 /\ prop task "status" = status
                 /\ prop task "mockups" = VUndefined)
  /\ (forall taskKey,
     let rq := fixed_get E key ("/mockup-generator/task?task_key=" ++ taskKey) in
     snd (Fixed.getMockupResult E P taskKey tr) = (tr ++ [rq])%list
     /\ forall r data,
          P tr rq = Responded r -> body r = Json data ->
          strict_eq_num (prop data "code") 200%float = true ->
          fst (Fixed.getMockupResult E P taskKey tr) = Ok (prop data "result"))
  /\ (forall productId variantIds files,
     let rq := original_post key
                 ("/mockup-generator/create-task/" ++ number_to_string productId)
                 (VObj [("variant_ids", variantIds); ("files", files)]) in
     snd (Original.createMockup E P productId variantIds files tr)
     = (tr ++ [rq])%list
     /\ forall r data,
          P tr rq = Responded r -> ok r = true -> body r = Json data ->
          nullish data = false ->
          fst (Original.createMockup E P productId variantIds files tr)
          = Ok (prop data "result"))
  /\ (forall taskKey,
     let rq := original_get key ("/mockup-generator/task?task_key=" ++ taskKey) in
     snd (Original.getMockupResult E P taskKey tr) = (tr ++ [rq])%list
     /\ forall r data,
          P tr rq = Responded r -> ok r = true -> body r = Json data ->
          nullish data = false ->
          fst (Original.getMockupResult E P taskKey tr) = Ok (prop data "result"))
  /\ (forall params,
     (exists new,
        snd (Original.quickCreateProduct E P params tr) = (tr ++ new)%list
        /\ Forall (fun rq =>
             String.prefix "https://api.printful.com/mockup-generator/task"
               (req_url rq) = false) new)
     /\ forall product variants syncProduct mockupTask,
          let base := firstn 5 variants in
          let rq1 := quick_product_request key params in
          let rq2 := quick_sync_request key params base in
          let rq3 := quick_mockup_request key params base in
          accepted P tr rq1 product ->
          prop product "variants" = VArr variants ->
          Forall (fun v => nullish v = false) base ->
          accepted P (tr ++ [rq1]) rq2 syncProduct ->
          accepted P (tr ++ [rq1; rq2]) rq3 mockupTask ->
          (forall l, prop mockupTask "mockups" <> VArr l) ->
          exists m,
            Original.quickCreateProduct E P params tr
            = (Err (TypeError m), (tr ++ [rq1; rq2; rq3])%list)).
Proof.
  intros Hc. repeat apply conj.
  - intros productId variantIds files rq.
    assert (Hrun : Fixed.createMockupTask E P productId variantIds files tr
                   = (answer_fixed P tr rq, (tr ++ [rq])%list)).
    { unfold Fixed.createMockupTask.
      now rewrite (fixed_request_run E P key _ (post _) tr Hc eq_refl). }
    rewrite Hrun. split; [reflexivity|].
    intros r data HP Hb Hcode. cbn [fst].
    rewrite (fixed_answer_ok P tr rq r data HP Hb Hcode).
    split; [reflexivity|].
    intros task_key status Hres. exists (prop data "result").
    rewrite Hres. repeat split; reflexivity.
  - intros taskKey rq.
    assert (Hrun : Fixed.getMockupResult E P taskKey tr
                   = (answer_fixed P tr rq, (tr ++ [rq])%list)).
    { unfold Fixed.getMockupResult.
      now rewrite (fixed_request_run E P key _ no_options tr Hc eq_refl). }
    rewrite Hrun. split; [reflexivity|].
    intros r data HP Hb Hcode. cbn [fst].
    exact (fixed_answer_ok P tr rq r data HP Hb Hcode).
  - intros productId variantIds files rq.
    assert (Hrun : Original.createMockup E P productId variantIds files tr
                   = (answer_original P tr rq, (tr ++ [rq])%list)).
    { unfold Original.createMockup.
      now rewrite (original_request_run E P key _ (post _) tr Hc eq_refl). }
    rewrite Hrun. split; [reflexivity|].
    intros r data HP Hok Hb Hn. cbn [fst].
    apply (accepted_answer P). exists r, data. auto.
  - intros taskKey rq.
    assert (Hrun : Original.getMockupResult E P taskKey tr
                   = (answer_original P tr rq, (tr ++ [rq])%list)).
    { unfold Original.getMockupResult.
      now rewrite (original_request_run E P key _ no_options tr Hc eq_refl). }
    rewrite Hrun. split; [reflexivity|].
    intros r data HP Hok Hb Hn. cbn [fst].
    apply (accepted_answer P). exists r, data. auto.
  - intros params. split.
    + destruct (quickCreateProduct_order E P params tr) as [r [new [n [Hrun [Hurls _]]]]].
      exists new. rewrite Hrun. split; [reflexivity|].
      assert (Hall : Forall (fun u =>
                String.prefix "https://api.printful.com/mockup-generator/task" u
                = false) (map req_url new)).
      { rewrite Hurls. apply Forall_forall. intros u Hu.
        apply in_firstn in Hu. cbn in Hu.
        destruct Hu as [<- | [<- | [<- | []]]]; reflexivity. }
      clear Hurls Hrun. induction new as [|rq rest IH]; [constructor|].
      inversion Hall; subst. constructor; auto.
    + intros product variants syncProduct mockupTask base rq1 rq2 rq3
        H1 Hvariants Hbase H2 H3 Hno.
      apply (accepted_answer P) in H1, H2, H3.
      destruct (no_mockups_throws syncProduct mockupTask (or_intror (or_introl Hno)))
        as [m Hm].
      exists m.
      rewrite (quick_mockup_step E P params key tr Hc product syncProduct variants
                 H1 Hvariants Hbase H2).
      fold base rq1 rq2 rq3. now rewrite H3, Hm.
Qed.

End MockupFacts.

(** C2, as stated, fails for a supplied markup of zero: the price 10 is sent
    as 20, the default doubling, and not as 10 times 0. *)
Lemma zero_markup_is_replaced :
  nth_error
    (snd (Original.quickCreateProduct (B := Samples.engine) Samples.env_with_key
            Samples.shop (Samples.tee (Some 0%float)) []))
    1
  = Some (Spec.original_post "secret" "/sync/products"
      (Js.VObj
         [("sync_product",
           Js.VObj [("name", Js.VStr "Tee"); ("thumbnail", Js.VStr "https://d/x.png")]);
          ("sync_variants",
           Js.VArr
             [Js.VObj [("variant_id", Js.VNum 4011%float);
                       ("retail_price", Js.VNum 20%float);
                       ("files", Js.VArr [Original.default_file "https://d/x.png"])]])]))
  /\ PrimFloat.eqb (10 * 0)%float 20%float = false.
Proof. split; reflexivity. Qed.

Lemma quickCreateProduct_witness :
  Original.quickCreateProduct (B := Samples.engine) Samples.env_with_key
    Samples.shop (Samples.tee (Some 3%float)) []
  = (Js.Ok (Js.VObj [("productId", Js.VNum 1001%float);
                     ("mockupUrls", Js.VArr [Js.VStr "https://img/1.png"])]),
     [Spec.original_get "secret" "/products/71";
      Spec.original_post "secret" "/sync/products"
        (Js.VObj
           [("sync_product",
             Js.VObj [("name", Js.VStr "Tee"); ("thumbnail", Js.VStr "https://d/x.png")]);
            ("sync_variants",
             Js.VArr
               [Js.VObj [("variant_id", Js.VNum 4011%float);
                         ("retail_price", Js.VNum 30%float);
                         ("files", Js.VArr [Original.default_file "https://d/x.png"])]])]);
      Spec.original_post "secret" "/mockup-generator/create-task/71"
        (Js.VObj [("variant_ids", Js.VArr [Js.VNum 4011%float]);
                  ("files", Js.VArr [Original.default_file "https://d/x.png"])])]).
Proof.
  pose proof (quickCreateProduct_chain (B := Samples.engine) Samples.env_with_key
                Samples.shop (Samples.tee (Some 3%float)) "secret" []
                (conj eq_refl eq_refl)) as H.
  cbv zeta in H.
  destruct H as [_ [_ [_ H]]].
  specialize (H (Js.VObj [("variants",
                   Js.VArr [Js.VObj [("id", Js.VNum 4011%float);
                                     ("price", Js.VNum 10%float)]])])
                [Js.VObj [("id", Js.VNum 4011%float); ("price", Js.VNum 10%float)]]).
  destruct H as [_ H].
  { eexists; eexists. repeat split; reflexivity. }
  { reflexivity. }
  { repeat constructor. }
  specialize (H (Js.VObj [("id", Js.VNum 1001%float)])).
  destruct H as [_ H].
  { eexists; eexists. repeat split; reflexivity. }
  specialize (H (Js.VObj [("mockups",
                   Js.VArr [Js.VObj [("mockup_url", Js.VStr "https://img/1.png")]])])).
  destruct H as [H _].
  { eexists; eexists. repeat split; reflexivity. }
  apply (H [Js.VObj [("mockup_url", Js.VStr "https://img/1.png")]]);
    [reflexivity | reflexivity | repeat constructor].
Defined.

Lemma popular_products_witness :
  fst (Fixed.getPopularProducts (B := Samples.engine) Samples.env_with_key
         Samples.all_but_380 [])
  = Js.Ok (Js.VArr
      [Js.VObj [("product", Js.VStr "https://api.printful.com/products/71")];
       Js.VObj [("product", Js.VStr "https://api.printful.com/products/19")];
       Js.VObj [("product", Js.VStr "https://api.printful.com/products/1")];
       Js.VObj [("product", Js.VStr "https://api.printful.com/products/195")]]).
Proof.
  rewrite (proj2 (proj2 (popular_products_first_five (B := Samples.engine)
             Samples.env_with_key Samples.all_but_380 []))
           "secret" (conj eq_refl eq_refl)).
  reflexivity.
Defined.

(** ** The route handlers *)

Section RouteFacts.
Import Js Net Spec Route.
Context {B : Builtins}.
Variable E : env.
Variable P : provider.

Lemma try_catch_total {A} (m : M A) (handler : js_error -> A) tr :
  exists a tr', try_catch m handler tr = (Ok a, tr').
Proof. unfold try_catch. destruct (m tr) as [[a|e] tr']; eauto. Qed.

Lemma GET_total (q : list (string * string)) tr :
  exists resp tr', GET E P q tr = (Ok resp, tr').
Proof. unfold GET. apply try_catch_total. Qed.

Lemma POST_total (q : list (string * string)) (b : body_outcome) tr :
  exists resp tr', POST E P q b tr = (Ok resp, tr').
Proof.
  unfold POST, required.
  destruct (searchParams_get q "action") as [a|]; [|unfold ret; eauto].
  destruct (str_truthy a); [|unfold ret; eauto].
  apply try_catch_total.
Qed.

Lemma GET_info (q : list (string * string)) tr :
  ~ In (str_or (searchParams_get q "action") "info")
       ["catalog"; "product"; "popular"; "pricing"; "store"; "mockup-status"] ->
  GET E P q tr = (Ok info, tr).
Proof.
  intros Hnot. unfold GET.
  set (action := str_or (searchParams_get q "action") "info") in *.
  cbn in Hnot.
  repeat match goal with
  | |- context [String.eqb action ?s] =>
      destruct (String.eqb_spec action s) as [Heq|_]; [exfalso; intuition congruence|]
  end.
  reflexivity.
Qed.

Lemma str_or_missing (x : option string) (fallback : string) :
  missing x = true -> str_or x fallback = fallback.
Proof.
  unfold missing, str_or. destruct x as [s|]; [|reflexivity].
  now destruct (str_truthy s).
Qed.

Lemma required_missing {A} (x : option string) (otherwise : A) (k : string -> A) :
  missing x = true -> required x otherwise k = otherwise.
Proof.
  unfold missing, required. destruct x as [s|]; [|reflexivity].
  now destruct (str_truthy s).
Qed.

Lemma bind_lift_ok {A C} (a : A) (k : A -> M C) : bind (lift (Ok a)) k = k a.
Proof. reflexivity. Qed.

(** Closes one arm of the dispatch: the client call either threw or
    returned. *)
Ltac dispatch_arm Hcall :=
  injection Hcall as <- <-; cbn [Fixed.run];
  split;
  [ intros e tr' Hrun; unfold try_catch, bind; rewrite Hrun; reflexivity
  | intros v tr' Hrun; unfold try_catch, bind, get, reads_length; rewrite Hrun;
    destruct (nullish v); reflexivity ].

Lemma GET_dispatch (q : list (string * string)) tr (op : Fixed.operation) (k : string) :
  GET_call q = Some (op, k) ->
  (forall e tr', Fixed.run E P op tr = (Err e, tr') ->
     GET E P q tr
     = (Ok (mkJson 500 (VObj [("success", VBool false); ("error", VStr (message e))])),
        tr'))
  /\ (forall v tr', Fixed.run E P op tr = (Ok v, tr') ->
      GET E P q tr
      = (Ok (if reads_length k && nullish v
             then mkJson 500
                    (VObj [("success", VBool false);
                           ("error", VStr (cannot_read_text v "length"))])
             else mkJson 200
                    (VObj (("success", VBool true) :: (k, v)
                           :: (if reads_length k
                               then [("count", prop v "length")] else [])))),
         tr')).
Proof.
  unfold GET_call, GET, required.
  set (action := str_or (searchParams_get q "action") "info").
  destruct (action =? "catalog"); [intros H; dispatch_arm H|].
  destruct (action =? "product").
  { destruct (searchParams_get q "id") as [id|]; [|discriminate].
    destruct (str_truthy id); [|discriminate]. intros H; dispatch_arm H. }
  destruct (action =? "popular"); [intros H; dispatch_arm H|].
  destruct (action =? "pricing").
  { destruct (searchParams_get q "id") as [id|]; [|discriminate].
    destruct (str_truthy id); [|discriminate]. intros H; dispatch_arm H. }
  destruct (action =? "store"); [intros H; dispatch_arm H|].
  destruct (action =? "mockup-status"); [|discriminate].
  destruct (searchParams_get q "task_key") as [key|]; [|discriminate].
  destruct (str_truthy key); [|discriminate]. intros H; dispatch_arm H.
Qed.

(** A body that is [null] dispatches nothing. *)
Lemma POST_call_body (q : list (string * string)) (b : value)
  (op : Fixed.operation) (k : string) :
  POST_call q b = Some (op, k) -> nullish b = false.
Proof.
  unfold POST_call, required.
  destruct (searchParams_get q "action") as [action|]; [|discriminate].
  destruct (str_truthy action); [|discriminate].
  destruct b; try reflexivity; cbn;
    repeat match goal with |- context [if ?c then _ else _] => destruct c end;
    discriminate.
Qed.

Lemma POST_dispatch (q : list (string * string)) (b : value) tr
  (op : Fixed.operation) (k : string) :
  POST_call q b = Some (op, k) ->
  (forall e tr', Fixed.run E P op tr = (Err e, tr') ->
     POST E P q (Json b) tr
     = (Ok (mkJson 500 (VObj [("success", VBool false); ("error", VStr (message e))])),
        tr'))
  /\ (forall v tr', Fixed.run E P op tr = (Ok v, tr') ->
      POST E P q (Json b) tr
      = (Ok (if reads_length k && nullish v
             then mkJson 500
                    (VObj [("success", VBool false);
                           ("error", VStr (cannot_read_text v "length"))])
             else mkJson 200
                    (VObj (("success", VBool true) :: (k, v)
                           :: (if reads_length k
                               then [("count", prop v "length")] else [])))),
         tr')).
Proof.
  intros Hcall. pose proof (POST_call_body q b op k Hcall) as Hb.
  revert Hcall. unfold POST_call, POST, required.
  destruct (searchParams_get q "action") as [action|]; [|discriminate].
  destruct (str_truthy action); [|discriminate].
  cbn [req_json]. rewrite bind_lift_ok. cbv beta.
  destruct (action =? "shipping").
  { repeat (rewrite (destructure_ok b _ Hb), bind_lift_ok; cbv beta).
    destruct (truthy (prop b "recipient")), (truthy (prop b "items"));
      cbn [andb negb orb]; try discriminate. intros H; dispatch_arm H. }
  destruct (action =? "estimate").
  { repeat (rewrite (destructure_ok b _ Hb), bind_lift_ok; cbv beta).
    destruct (truthy (prop b "recipient")), (truthy (prop b "items"));
      cbn [andb negb orb]; try discriminate. intros H; dispatch_arm H. }
  destruct (action =? "mockup"); [|discriminate].
  repeat (rewrite (destructure_ok b _ Hb), bind_lift_ok; cbv beta).
  destruct (truthy (prop b "productId")), (truthy (prop b "variantIds")),
    (truthy (prop b "files")); cbn [andb negb orb]; try discriminate.
  intros H; dispatch_arm H.
Qed.

(** A body that is [null] cannot be taken apart. *)
Lemma POST_null_body (q : list (string * string)) (b : value) (action : string) tr :
  searchParams_get q "action" = Some action ->
  In action ["shipping"; "estimate"; "mockup"] ->
  nullish b = true ->
  POST E P q (Json b) tr
  = (Ok (mkJson 500
           (VObj [("success", VBool false);
                  ("error",
                   VStr (cannot_destructure_text b
                           (if action =? "mockup" then "productId" else "recipient")))])),
     tr).
Proof.
  intros Ha Hin Hb. unfold POST, required. rewrite Ha.
  cbn in Hin.
  destruct Hin as [<- | [<- | [<- | []]]]; cbn [str_truthy String.eqb negb];
    unfold try_catch, bind, lift, req_json, destructure; rewrite Hb; reflexivity.
Qed.

(** C6, as amended.  The route dispatches on [action].  A GET whose action
    is missing or is none of the six recognized ones answers the info
    payload, with status 200 and [success: true]; a POST whose action is
    missing answers status 400 with [success: false].  Neither handler
    throws.  When a request is dispatched to a client function, an error
    thrown by it comes back as [{success: false, error: <message>}] with
    status 500, and a returned result comes back with status 200 as
    [{success: true, <key>: <result>}], with [count: <result>.length] added
    for the catalog, popular and shipping actions.  For those actions a
    result that is [null] or [undefined] is not re-wrapped: reading its
    [length] throws, which is answered with status 500 and
    [success: false] like a client error.  A POST for shipping, estimate or
    mockup whose body is the JSON [null] is answered with status 500 and
    [success: false] as well. *)
Theorem route_dispatch (q : list (string * string)) (tr : list request) :
  (searchParams_get q "action" = None \/ searchParams_get q "action" = Some "" ->
   GET E P q tr = (Ok info, tr))
  /\ (forall action, searchParams_get q "action" = Some action ->
      ~ In action ["catalog"; "product"; "popular"; "pricing"; "store";
                   "mockup-status"] ->
      GET E P q tr = (Ok info, tr))
  /\ (res_status info = 200%Z /\ prop (res_body info) "success" = VBool true)
  /\ (forall b,
      searchParams_get q "action" = None \/ searchParams_get q "action" = Some "" ->
      POST E P q b tr
      = (Ok (mkJson 400
               (VObj [("success", VBool false);
                      ("error",
                       VStr "Action parameter required. Use: shipping, estimate, mockup")])),
         tr))
  /\ (exists resp tr', GET E P q tr = (Ok resp, tr'))
  /\ (forall b, exists resp tr', POST E P q b tr = (Ok resp, tr'))
  /\ (forall op k, GET_call q = Some (op, k) ->
      (forall e tr', Fixed.run E P op tr = (Err e, tr') ->
         GET E P q tr
         = (Ok (mkJson 500
                  (VObj [("success", VBool false); ("error", VStr (message e))])),
            tr'))
      /\ (forall v tr', Fixed.run E P op tr = (Ok v, tr') ->
         GET E P q tr
         = (Ok (if reads_length k && nullish v
                then mkJson 500
                       (VObj [("success", VBool false);
                              ("error", VStr (cannot_read_text v "length"))])
                else mkJson 200
                       (VObj (("success", VBool true) :: (k, v)
                              :: (if reads_length k
                                  then [("count", prop v "length")] else [])))),
            tr')))
  /\ (forall b op k, POST_call q b = Some (op, k) ->
      (forall e tr', Fixed.run E P op tr = (Err e, tr') ->
         POST E P q (Json b) tr
         = (Ok (mkJson 500
                  (VObj [("success", VBool false); ("error", VStr (message e))])),
            tr'))
      /\ (forall v tr', Fixed.run E P op tr = (Ok v, tr') ->
         POST E P q (Json b) tr
         = (Ok (if reads_length k && nullish v
                then mkJson 500
                       (VObj [("success", VBool false);
                              ("error", VStr (cannot_read_text v "length"))])
                else mkJson 200
                       (VObj (("success", VBool true) :: (k, v)
                              :: (if reads_length k
                                  then [("count", prop v "length")] else [])))),
            tr')))
  /\ (forall b action, searchParams_get q "action" = Some action ->
      In action ["shipping"; "estimate"; "mockup"] ->
      nullish b = true ->
      POST E P q (Json b) tr
      = (Ok (mkJson 500
               (VObj [("success", VBool false);
                      ("error",
                       VStr (cannot_destructure_text b
                               (if action =? "mockup" then "productId"
                                else "recipient")))])),
         tr)).
Proof.
  assert (Hmissing :
    searchParams_get q "action" = None \/ searchParams_get q "action" = Some "" ->
    missing (searchParams_get q "action") = true).
  { intros [-> | ->]; reflexivity. }
  split.
  { intros Hm. apply Hmissing in Hm. apply GET_info.
    rewrite (str_or_missing _ "info" Hm). cbn. intuition discriminate. }
  split.
  { intros action Ha Hnot. apply GET_info. rewrite Ha. unfold str_or.
    destruct (str_truthy action); [exact Hnot|]. cbn. intuition discriminate. }
  split; [split; reflexivity|].
  split.
  { intros b Hm. apply Hmissing in Hm. unfold POST.
    now rewrite (required_missing _ _ _ Hm). }
  split; [apply GET_total|].
  split; [intros b; apply POST_total|].
  split; [intros op k H; exact (GET_dispatch q tr op k H)|].
  split; [intros b op k H; exact (POST_dispatch q b tr op k H)|].
  intros b action Ha Hin Hb. exact (POST_null_body q b action tr Ha Hin Hb).
Qed.

End RouteFacts.

Lemma route_dispatch_witness :
  Route.GET (B := Samples.engine) Samples.env_with_key Samples.unreachable
    [("action", "store")] []
  = (Js.Ok (Route.mkJson 500
       (Js.VObj [("success", Js.VBool false); ("error", Js.VStr "fetch failed")])),
     [Spec.fixed_get Samples.env_with_key "secret" "/stores"])
  /\ Route.GET (B := Samples.engine) Samples.env_with_key Samples.unreachable
       [("action", "nothing")] []
     = (Js.Ok Route.info, [])
  /\ Route.GET (B := Samples.engine) Samples.env_with_key
       (Samples.always (Samples.success_envelope (Js.VArr [Js.VStr "Market Forge"])))
       [("action", "store")] []
     = (Js.Ok (Route.mkJson 200
          (Js.VObj [("success", Js.VBool true); ("store", Js.VStr "Market Forge")])),
        [Spec.fixed_get Samples.env_with_key "secret" "/stores"]).
Proof.
  pose proof (route_dispatch (B := Samples.engine) Samples.env_with_key
                Samples.unreachable [("action", "store")] []) as Hstore.
  pose proof (route_dispatch (B := Samples.engine) Samples.env_with_key
                Samples.unreachable [("action", "nothing")] []) as Hnone.
  pose proof (route_dispatch (B := Samples.engine) Samples.env_with_key
                (Samples.always
                   (Samples.success_envelope (Js.VArr [Js.VStr "Market Forge"])))
                [("action", "store")] []) as Hok.
  split.
  - apply (proj1 (proj1 (proj2 (proj2 (proj2 (proj2 (proj2 (proj2 Hstore))))))
             Fixed.GetStoreInfo "store" eq_refl)
             (Js.TypeError "fetch failed")).
    reflexivity.
  - split.
    { apply (proj1 (proj2 Hnone) "nothing" eq_refl).
      cbn. intuition discriminate. }
    exact (proj2 (proj1 (proj2 (proj2 (proj2 (proj2 (proj2 (proj2 Hok))))))
                    Fixed.GetStoreInfo "store" eq_refl)
             (Js.VStr "Market Forge")
             [Spec.fixed_get Samples.env_with_key "secret" "/stores"] eq_refl).
Defined.

(** C6, as stated, fails where the handler reads the result's [length]: when
    the provider's envelope has code 200 and a [null] result, the client's
    [getCatalog] returns [null] without throwing, and the route answers
    status 500 with [success: false]. *)
Lemma catalog_null_result_is_500 :
  exists op,
    Spec.GET_call (B := Samples.engine) [("action", "catalog")] = Some (op, "products")
    /\ fst (Fixed.run (B := Samples.engine) Samples.env_with_key
              (Samples.always (Samples.success_envelope Js.VNull)) op [])
       = Js.Ok Js.VNull
    /\ fst (Route.GET (B := Samples.engine) Samples.env_with_key
              (Samples.always (Samples.success_envelope Js.VNull))
              [("action", "catalog")] [])
       = Js.Ok (Route.mkJson 500
           (Js.VObj [("success", Js.VBool false);
                     ("error",
                      Js.VStr "Cannot read properties of null (reading 'length')")])).
Proof.
  eexists. split; [reflexivity|]. split; reflexivity.
Qed.

(** ** Paths below the storage directory *)

Section PathFacts.
Import NodePath Spec.

Lemma append_assoc (a b c : string) : (a ++ b) ++ c = a ++ b ++ c.
Proof. induction a as [|x a IH]; cbn; [reflexivity | now rewrite IH]. Qed.

Lemma append_nil_r (a : string) : a ++ "" = a.
Proof. induction a as [|x a IH]; cbn; [reflexivity | now rewrite IH]. Qed.

Lemma append_not_empty_l (a b : string) : a <> "" -> a ++ b <> "".
Proof. destruct a; cbn; congruence. Qed.

Lemma split_slash_not_nil (s : string) : split_slash s <> [].
Proof.
  destruct s as [|c s]; cbn; [discriminate|].
  destruct (Ascii.eqb c slash); [discriminate|].
  destruct (split_slash s); discriminate.
Qed.

Lemma split_slash_app (a b : string) :
  split_slash (a ++ String slash b) = (split_slash a ++ split_slash b)%list.
Proof.
  induction a as [|c a IH]; [reflexivity|].
  cbn [append split_slash]. rewrite IH.
  destruct (Ascii.eqb c slash); [reflexivity|].
  pose proof (split_slash_not_nil a) as Hne.
  destruct (split_slash a) as [|h t]; [contradiction | reflexivity].
Qed.

Lemma split_slash_head (s : string) (c : ascii) (h : string) (t : list string) :
  split_slash s = String c h :: t -> exists s', s = String c s'.
Proof.
  destruct s as [|c0 s]; cbn; [discriminate|].
  destruct (Ascii.eqb c0 slash); [discriminate|].
  destruct (split_slash s); intros H; injection H as -> _ _; eauto.
Qed.

Lemma no_dotdot_segment (s : string) :
  includes s ".." = false -> ~ In ".." (split_slash s).
Proof.
  induction s as [|c s IH]; cbn [includes split_slash].
  - intros _ [H|[]]. discriminate.
  - intros H. apply orb_false_iff in H as [Hpre Hrest].
    specialize (IH Hrest).
    destruct (Ascii.eqb c slash).
    + intros [H|H]; [discriminate | contradiction].
    + destruct (split_slash s) as [|h t] eqn:Hs.
      * intros [H|[]]. discriminate.
      * intros [H|H]; [|apply IH; now right].
        injection H as -> ->.
        destruct (split_slash_head s _ _ _ Hs) as [s' ->].
        cbn in Hpre. destruct s'; discriminate.
Qed.

Lemma split_slash_no_slash (s : string) :
  Forall (fun seg => has_slash seg = false) (split_slash s).
Proof.
  induction s as [|c s IH]; cbn [split_slash].
  - repeat constructor.
  - destruct (Ascii.eqb c slash) eqn:Hc.
    + constructor; [reflexivity | exact IH].
    + destruct (split_slash s) as [|h t].
      * repeat constructor. cbn. now rewrite Hc.
      * inversion IH as [|? ? Hh Ht]; subst.
        constructor; [cbn; now rewrite Hc, Hh | exact Ht].
Qed.

Lemma normalizeString_app (allow : bool) (l1 l2 kept : list string) :
  normalizeString allow kept (l1 ++ l2)
  = normalizeString allow (normalizeString allow kept l1) l2.
Proof.
  revert kept. induction l1 as [|seg rest IH]; intros kept; [reflexivity|].
  cbn [app normalizeString].
  destruct ((seg =? "") || (seg =? ".")); [apply IH|].
  destruct (seg =? ".."); [|apply IH].
  destruct kept as [|top below]; [apply IH|].
  destruct (top =? ".."); apply IH.
Qed.

Lemma normalizeString_plain (allow : bool) (segs kept : list string) :
  ~ In ".." segs ->
  normalizeString allow kept segs
  = (rev (filter kept_segment segs) ++ kept)%list.
Proof.
  revert kept. induction segs as [|seg rest IH]; intros kept Hno; [reflexivity|].
  cbn [normalizeString filter]. unfold kept_segment at 1.
  assert (Hrest : ~ In ".." rest) by (intros H; apply Hno; now right).
  destruct ((seg =? "") || (seg =? ".")); cbn [negb]; [now apply IH|].
  destruct (String.eqb_spec seg "..") as [->|_]; [exfalso; apply Hno; now left|].
  rewrite (IH (seg :: kept) Hrest). cbn [rev]. now rewrite <- app_assoc.
Qed.

Lemma kept_segments_proper (s : string) :
  includes s ".." = false ->
  Forall proper_name (filter kept_segment (split_slash s)).
Proof.
  intros Hno. apply Forall_forall. intros seg Hin.
  apply filter_In in Hin as [Hin Hkept].
  unfold kept_segment in Hkept. apply negb_true_iff, orb_false_iff in Hkept.
  destruct Hkept as [He Hd].
  repeat split.
  - now apply String.eqb_neq.
  - now apply String.eqb_neq.
  - intros ->. exact (no_dotdot_segment s Hno Hin).
  - exact (proj1 (Forall_forall _ _) (split_slash_no_slash s) seg Hin).
Qed.

Lemma join_slash_cons (x : string) (names : list string) :
  join_slash (x :: names) = x ++ descend names.
Proof.
  revert x. induction names as [|n rest IH]; intros x.
  - cbn. now rewrite append_nil_r.
  - change (join_slash (x :: n :: rest)) with (x ++ "/" ++ join_slash (n :: rest)).
    now rewrite IH.
Qed.

Lemma descend_app (a b : list string) :
  descend (a ++ b) = descend a ++ descend b.
Proof.
  induction a as [|n a IH]; [reflexivity|].
  cbn [app descend]. rewrite IH.
  change ("/" ++ n ++ descend a ++ descend b)
    with (String slash (n ++ descend a ++ descend b)).
  change ("/" ++ n ++ descend a) with (String slash (n ++ descend a)).
  cbn [append]. now rewrite append_assoc.
Qed.

Lemma append_not_empty_r (a b : string) : b <> "" -> a ++ b <> "".
Proof. destruct a; cbn; [auto | discriminate]. Qed.

Lemma join_slash_app (A names : list string) :
  A <> [] -> join_slash (A ++ names) = join_slash A ++ descend names.
Proof.
  destruct A as [|x A]; [congruence|]. intros _.
  change ((x :: A) ++ names)%list with (x :: (A ++ names))%list.
  now rewrite !join_slash_cons, descend_app, append_assoc.
Qed.

Lemma join_slash_last_not_empty (A : list string) (x : string) :
  x <> "" -> join_slash (A ++ [x]) <> "".
Proof.
  intros Hx. destruct A as [|y A]; [exact Hx|].
  change ((y :: A) ++ [x])%list with (y :: (A ++ [x]))%list.
  rewrite join_slash_cons, descend_app.
  apply append_not_empty_r, append_not_empty_r. discriminate.
Qed.

Lemma isAbsolute_app (a b : string) :
  a <> "" -> isAbsolute (a ++ b) = isAbsolute a.
Proof. destruct a; [congruence | reflexivity]. Qed.

Lemma ends_with_slash_app (a b : string) :
  b <> "" -> ends_with_slash (a ++ b) = ends_with_slash b.
Proof.
  intros Hb. induction a as [|c a IH]; [reflexivity|].
  cbn [append ends_with_slash]. rewrite IH.
  destruct (a ++ b) eqn:Hab; [|reflexivity].
  destruct a; cbn in Hab; [contradiction | discriminate].
Qed.

(** A relative part without [".."] is appended, name by name, below a base
    that ends in the segment ["storage"]. *)
Lemma normalize_below (base np : string) (l : list string) :
  base <> "" ->
  ends_with_slash base = false ->
  split_slash base = (l ++ ["storage"])%list ->
  np <> "" ->
  includes np ".." = false ->
  normalize (base ++ "/" ++ np)
  = normalize base ++ descend (filter kept_segment (split_slash np))
    ++ (if ends_with_slash np then "/" else "").
Proof.
  intros Hbase Hend Hsplit Hnp Hno.
  unfold normalize.
  destruct (String.eqb_spec (base ++ "/" ++ np) "") as [H|_];
    [exfalso; exact (append_not_empty_l base _ Hbase H)|].
  destruct (String.eqb_spec base "") as [H|_]; [contradiction|].
  rewrite (isAbsolute_app base _ Hbase).
  set (allow := negb (isAbsolute base)).
  change ("/" ++ np) with (String slash np).
  rewrite split_slash_app, Hsplit.
  rewrite (normalizeString_app allow (l ++ ["storage"]) (split_slash np) []).
  rewrite (normalizeString_app allow l ["storage"] []).
  set (K := normalizeString allow [] l).
  change (normalizeString allow K ["storage"]) with ("storage" :: K).
  rewrite (normalizeString_plain allow (split_slash np) ("storage" :: K)
             (no_dotdot_segment np Hno)).
  set (names := filter kept_segment (split_slash np)).
  rewrite rev_app_distr, rev_involutive.
  cbn [rev].
  rewrite (join_slash_app (rev K ++ ["storage"]) names)
    by (destruct (rev K); discriminate).
  pose proof (join_slash_last_not_empty (rev K) "storage" ltac:(discriminate)) as HJ.
  set (J := join_slash (rev K ++ ["storage"])) in *.
  destruct (String.eqb_spec (J ++ descend names) "") as [H|_];
    [exfalso; exact (append_not_empty_l J _ HJ H)|].
  destruct (String.eqb_spec J "") as [H|_]; [contradiction|].
  rewrite Hend.
  rewrite (ends_with_slash_app base (String slash np) ltac:(discriminate)).
  assert (Htail : ends_with_slash (String slash np) = ends_with_slash np).
  { destruct np; [contradiction | reflexivity]. }
  rewrite Htail.
  rewrite append_nil_r. now rewrite !append_assoc.
Qed.

(** Every path the handler builds from a relative part without [".."] is
    the storage directory followed by proper names. *)
Lemma join_below_storage (cwd np : string) :
  includes np ".." = false ->
  exists names trailing,
    join [cwd; "storage"; np]
    = join [cwd; "storage"] ++ descend names ++ trailing
    /\ Forall proper_name names
    /\ (trailing = "" \/ trailing = "/")
    /\ names = filter kept_segment (split_slash np).
Proof.
  intros Hno.
  destruct (String.eqb_spec np "") as [->|Hnp].
  - exists [], "". cbn [descend]. repeat split; auto.
    change ("" ++ "") with "". rewrite append_nil_r.
    unfold join. cbn [filter]. now destruct (cwd =? "").
  - exists (filter kept_segment (split_slash np)),
           (if ends_with_slash np then "/" else "").
    split; [|split; [exact (kept_segments_proper np Hno)|split;
      [destruct (ends_with_slash np); auto | reflexivity]]].
    unfold join. cbn [filter].
    destruct (String.eqb_spec np "") as [|_]; [contradiction|].
    destruct (String.eqb_spec cwd "") as [->|Hcwd]; cbn [negb String.eqb].
    + change (join_slash ["storage"; np]) with ("storage" ++ "/" ++ np).
      change (join_slash ["storage"]) with "storage".
      apply (normalize_below "storage" np []); auto; discriminate.
    + change (join_slash [cwd; "storage"; np])
        with (cwd ++ "/" ++ "storage" ++ "/" ++ np).
      change (join_slash [cwd; "storage"]) with (cwd ++ "/" ++ "storage").
      replace (cwd ++ "/" ++ "storage" ++ "/" ++ np)
        with ((cwd ++ "/" ++ "storage") ++ "/" ++ np)
        by (now rewrite !append_assoc).
      apply (normalize_below (cwd ++ "/" ++ "storage") np (split_slash cwd)); auto.
      * now apply append_not_empty_l.
      * rewrite ends_with_slash_app by discriminate. reflexivity.
      * change ("/" ++ "storage") with (String slash "storage").
        now rewrite split_slash_app.
Qed.

End PathFacts.

(** ** The download handler *)

Section DownloadFacts.
Import Js NodePath Download Spec.
Variable W : world.

Lemma row_passes_checks (data : value) (file_path : string) :
  prop data "file_path" = VStr file_path ->
  negb (truthy data) || negb (typeof_object data) || negb (has_key "file_path" data)
  = false.
Proof.
  destruct data; cbn; try discriminate.
  destruct (lookup "file_path" fields); [reflexivity | discriminate].
Qed.

(** A request that passes every check is answered by the inner block. *)
Lemma GET_valid_path (slug : string) (user : option string) (data : value)
  (file_path : string) :
  getUser W = Ok user ->
  createServerClient W = Ok tt ->
  select_product W slug = Ok data ->
  prop data "file_path" = VStr file_path ->
  file_path <> "" ->
  userHasProductAccess W user (prop data "id") = Ok true ->
  includes (normalize file_path) ".." = false ->
  isAbsolute (normalize file_path) = false ->
  GET W slug = serve W (normalize file_path).
Proof.
  intros Hu Hc Hd Hf Hne Ha Hi Hab.
  unfold GET, attempt, rbind.
  rewrite Hu, Hc, Hd, (row_passes_checks data file_path Hf), Hf, Ha.
  cbn [truthy negb]. unfold str_truthy.
  destruct (String.eqb_spec file_path ""); [contradiction|].
  cbn [negb]. now rewrite Hi, Hab.
Qed.

Lemma bad_path_not_empty (file_path : string) :
  includes (normalize file_path) ".." || isAbsolute (normalize file_path) = true ->
  file_path <> "".
Proof. intros H ->. discriminate. Qed.

Lemma GET_bad_path (slug : string) (user : option string) (data : value)
  (file_path : string) :
  getUser W = Ok user ->
  createServerClient W = Ok tt ->
  select_product W slug = Ok data ->
  prop data "file_path" = VStr file_path ->
  includes (normalize file_path) ".." || isAbsolute (normalize file_path) = true ->
  snd (GET W slug) = []
  /\ (userHasProductAccess W user (prop data "id") = Ok true ->
      GET W slug = (mkResponse 400 (Text "Invalid file path"), [])).
Proof.
  intros Hu Hc Hd Hf Hbad.
  pose proof (bad_path_not_empty file_path Hbad) as Hne.
  unfold GET, attempt, rbind.
  rewrite Hu, Hc, Hd, (row_passes_checks data file_path Hf), Hf.
  cbn [truthy negb]. unfold str_truthy.
  destruct (String.eqb_spec file_path ""); [contradiction|].
  cbn [negb].
  destruct (userHasProductAccess W user (prop data "id")) as [[|]|e];
    cbn [negb]; rewrite ?Hbad; split; try reflexivity; intros; congruence.
Qed.

(** Whatever is served was read from a path the inner block built from a
    relative part without [".."]. *)
Lemma GET_served (slug : string) (bytes : list Byte.byte) :
  payload_of (fst (GET W slug)) = FileData bytes ->
  exists np,
    includes np ".." = false
    /\ GET W slug
       = (mkResponse 200 (FileData bytes),
          [Stat (fileAbsPath_of W np); ReadFile (fileAbsPath_of W np)])
    /\ fs_readFile W (fileAbsPath_of W np) = Ok bytes.
Proof.
  unfold GET, attempt, rbind, notFound.
  destruct (getUser W) as [user|]; [|discriminate].
  destruct (createServerClient W); [|discriminate].
  destruct (select_product W slug) as [data|]; [|discriminate].
  destruct (negb (truthy data) || negb (typeof_object data)
            || negb (has_key "file_path" data)); [discriminate|].
  destruct (negb (truthy (prop data "file_path"))); [discriminate|].
  destruct (userHasProductAccess W user (prop data "id")) as [[|]|];
    cbn [negb]; try discriminate.
  destruct (prop data "file_path") as [| |b|n|file_path|l|fs]; try discriminate.
  destruct (includes (normalize file_path) "..") eqn:Hi; [discriminate|].
  destruct (isAbsolute (normalize file_path)); [discriminate|].
  cbn [orb]. unfold serve.
  destruct (fs_stat W (fileAbsPath_of W (normalize file_path))) as [size|];
    [|discriminate].
  destruct (size >? MAX_FILE_SIZE)%Z; [discriminate|].
  destruct (fs_readFile W (fileAbsPath_of W (normalize file_path))) as [data'|] eqn:Hr;
    [|discriminate].
  cbn. intros H; injection H as ->.
  exists (normalize file_path). auto.
Qed.

(** C8, as amended.  For a product whose normalized [file_path] contains
    [".."] or is absolute, the handler makes no file-system call, whatever
    else happens, and answers 400 when the user has access to the product.
    Every file it serves was found under the storage directory of the
    working directory: its path is that directory followed by names that
    are not empty, not ["."], not [".."] and hold no separator; at least one
    such name when the storage directory cannot itself be read as a file. *)
Theorem download_path_guard (slug : string) :
  (forall user data file_path,
     getUser W = Ok user ->
     createServerClient W = Ok tt ->
     select_product W slug = Ok data ->
     prop data "file_path" = VStr file_path ->
     includes (normalize file_path) ".." || isAbsolute (normalize file_path) = true ->
     snd (GET W slug) = []
     /\ (userHasProductAccess W user (prop data "id") = Ok true ->
         GET W slug = (mkResponse 400 (Text "Invalid file path"), [])))
  /\ (forall bytes,
     payload_of (fst (GET W slug)) = FileData bytes ->
     exists names trailing,
       let path := storage_dir W ++ descend names ++ trailing in
       GET W slug = (mkResponse 200 (FileData bytes), [Stat path; ReadFile path])
       /\ fs_readFile W path = Ok bytes
       /\ Forall proper_name names
       /\ (trailing = "" \/ trailing = "/")
       /\ (storage_is_directory W -> names <> [])).
Proof.
  split.
  - intros user data file_path. apply GET_bad_path.
  - intros bytes H.
    destruct (GET_served slug bytes H) as [np [Hno [Hget Hread]]].
    destruct (join_below_storage (cwd W) np Hno)
      as [names [trailing [Hpath [Hnames [Htrail _]]]]].
    exists names, trailing. cbv zeta.
    unfold fileAbsPath_of in Hget, Hread. rewrite Hpath in Hget, Hread.
    unfold storage_dir.
    repeat split; auto.
    intros Hdir ->. cbn [descend append] in Hread.
    exact (Hdir trailing bytes Htrail Hread).
Qed.

(** C9.  When the request passes the checks and [stat] reports a size above
    50 MiB (52428800 bytes), the handler answers 413 with a text body; its
    only file-system call is that [stat], so the file is never read. *)
Theorem oversized_file_refused (slug : string) (user : option string)
  (data : value) (file_path : string) (size : Z) :
  getUser W = Ok user ->
  createServerClient W = Ok tt ->
  select_product W slug = Ok data ->
  prop data "file_path" = VStr file_path ->
  file_path <> "" ->
  userHasProductAccess W user (prop data "id") = Ok true ->
  includes (normalize file_path) ".." = false ->
  isAbsolute (normalize file_path) = false ->
  fs_stat W (fileAbsPath_of W (normalize file_path)) = Ok size ->
  (size > 52428800)%Z ->
  GET W slug
  = (mkResponse 413 (Text "File too large"),
     [Stat (fileAbsPath_of W (normalize file_path))]).
Proof.
  intros Hu Hc Hd Hf Hne Ha Hi Hab Hstat Hsize.
  rewrite (GET_valid_path slug user data file_path Hu Hc Hd Hf Hne Ha Hi Hab).
  unfold serve. rewrite Hstat.
  assert (Hgt : (size >? MAX_FILE_SIZE)%Z = true).
  { unfold MAX_FILE_SIZE. apply Z.gtb_gt. lia. }
  now rewrite Hgt.
Qed.

End DownloadFacts.

(** C8, as stated, fails for a user without access: the traversal path is
    never looked at and the answer is 403, not 400. *)
Lemma traversal_path_without_access :
  Download.GET (Samples.library false "../secret.pdf") "guide"
  = (Download.mkResponse 403 (Download.Text "Forbidden"), [])
  /\ NodePath.includes (NodePath.normalize "../secret.pdf") ".." = true.
Proof. split; reflexivity. Qed.

Lemma download_path_guard_witness :
  Download.GET (Samples.library true "../secret.pdf") "guide"
  = (Download.mkResponse 400 (Download.Text "Invalid file path"), [])
  /\ exists names trailing,
       Download.GET (Samples.library true "docs/../guide.pdf") "guide"
       = (Download.mkResponse 200
            (Download.FileData [Byte.x25; Byte.x50; Byte.x44; Byte.x46]),
          [Download.Stat ("/app/storage" ++ Spec.descend names ++ trailing);
           Download.ReadFile ("/app/storage" ++ Spec.descend names ++ trailing)])
       /\ names <> [].
Proof.
  split.
  - apply (proj1 (download_path_guard (Samples.library true "../secret.pdf") "guide")
             (Some "u1") (Samples.row "../secret.pdf") "../secret.pdf");
      reflexivity.
  - destruct (proj2 (download_path_guard (Samples.library true "docs/../guide.pdf")
                       "guide")
                [Byte.x25; Byte.x50; Byte.x44; Byte.x46] eq_refl)
      as [names [trailing [Hget [_ [_ [Htrail Hstrict]]]]]].
    exists names, trailing. split; [exact Hget|].
    apply Hstrict. intros t b [->| ->]; discriminate.
Defined.

Lemma oversized_file_witness :
  Download.GET (Samples.library true "video.zip") "video"
  = (Download.mkResponse 413 (Download.Text "File too large"),
     [Download.Stat "/app/storage/video.zip"]).
Proof.
  apply (oversized_file_refused (Samples.library true "video.zip") "video"
           (Some "u1") (Samples.row "video.zip") "video.zip" 52428801%Z);
    try reflexivity; discriminate.
Defined.

Lemma views_witness :
  Browser.render Samples.product_open
  = Browser.ProductView (Browser.selectedProduct Samples.product_open) Js.VNull
  /\ Js.truthy (Browser.selectedProduct Samples.product_open) = true.
Proof.
  split; [reflexivity|].
  apply (proj1 (proj2 (proj2 (proj2 (views_mutually_exclusive Samples.product_open))))).
  reflexivity.
Defined.

Lemma getStoreInfo_witness :
  Fixed.getStoreInfo (B := Samples.engine) Samples.env_with_key
    (Samples.always (Samples.success_envelope (Js.VArr []))) []
  = (Js.Ok Js.VUndefined, [Spec.fixed_get Samples.env_with_key "secret" "/stores"]).
Proof.
  apply (proj1 (getStoreInfo_first_store (B := Samples.engine) Samples.env_with_key
                  (Samples.always (Samples.success_envelope (Js.VArr [])))
                  "secret" [] (Samples.success_envelope (Js.VArr []))
                  (Js.VObj [("code", Js.VNum 200%float); ("result", Js.VArr [])]) []
                  (conj eq_refl eq_refl) eq_refl eq_refl eq_refl eq_refl)).
Defined.

Lemma mockup_task_witness :
  snd (Fixed.getMockupResult (B := Samples.engine) Samples.env_with_key
         (Samples.always
            (Samples.success_envelope (Js.VObj [("status", Js.VStr "pending")])))
         "gt-42" [])
  = [Spec.fixed_get Samples.env_with_key "secret"
       "/mockup-generator/task?task_key=gt-42"]
  /\ fst (Fixed.getMockupResult (B := Samples.engine) Samples.env_with_key
            (Samples.always
               (Samples.success_envelope (Js.VObj [("status", Js.VStr "pending")])))
            "gt-42" [])
     = Js.Ok (Js.VObj [("status", Js.VStr "pending")]).
Proof.
  pose proof (proj1 (proj2 (mockup_task_is_polled (B := Samples.engine)
                Samples.env_with_key
                (Samples.always
                   (Samples.success_envelope (Js.VObj [("status", Js.VStr "pending")])))
                "secret" [] (conj eq_refl eq_refl))) "gt-42") as H.
  cbv zeta in H. destruct H as [Hsnd Hfst].
  split; [exact Hsnd|].
  exact (Hfst (Samples.success_envelope (Js.VObj [("status", Js.VStr "pending")]))
           (Js.VObj [("code", Js.VNum 200%float);
                     ("result", Js.VObj [("status", Js.VStr "pending")])])
           eq_refl eq_refl eq_refl).
Defined.

(** C4, as stated, fails for the original client.  Its [createMockup]
    returns finished mockups and no task key when that is what the provider
    answers, and its workflow counts on it: when the provider answers the
    creation with a task key and a status, [quickCreateProduct] sends its
    three requests, none of them for the task's result, and throws. *)
Lemma mockups_read_without_polling :
  (exists mockups,
     fst (Original.createMockup (B := Samples.engine) Samples.env_with_key
            Samples.shop 71%float (Js.VArr [Js.VNum 4011%float])
            (Js.VArr [Original.default_file "https://d/x.png"]) [])
     = Js.Ok (Js.VObj [("mockups", Js.VArr mockups)]))
  /\ map Net.req_url
       (snd (Original.quickCreateProduct (B := Samples.engine) Samples.env_with_key
               Samples.shop_async (Samples.tee None) []))
     = ["https://api.printful.com/products/71";
        "https://api.printful.com/sync/products";
        "https://api.printful.com/mockup-generator/create-task/71"]
  /\ exists m,
       fst (Original.quickCreateProduct (B := Samples.engine) Samples.env_with_key
              Samples.shop_async (Samples.tee None) [])
       = Js.Err (Js.TypeError m).
Proof.
  split; [eexists; reflexivity|].
  split; [reflexivity|].
  eexists. reflexivity.
Qed.

(* ================================================================== *)
(** * Further statements: the two clients *)
(* ================================================================== *)

Section ReaderCoverage.
Import Js Net Spec.
Context {B : Builtins}.

(** X1.  The original [printfulRequest] returns exactly when the HTTP status
    is in 200..299 and the body parses to a value other than [null]; what it
    returns is that value's [result].  The envelope's [code] plays no part. *)
Theorem original_reader_returns_iff (r : response) (v : value) :
  Original.read_envelope r = Ok v
  <-> ok r = true
      /\ exists data, body r = Json data /\ nullish data = false
                      /\ v = prop data "result".
Proof.
  unfold Original.read_envelope. split.
  - destruct (ok r); cbn [negb].
    + destruct (body r) as [m|data]; [discriminate|].
      unfold get. destruct (nullish data) eqn:Hn; [discriminate|].
      intros H; injection H as <-. eauto.
    + destruct (body r) as [m|data]; cbn; unfold get.
      * discriminate.
      * destruct (nullish data); discriminate.
  - intros [Hok [data [Hb [Hn ->]]]]. rewrite Hok, Hb. cbn. unfold get.
    now rewrite Hn.
Qed.

(** X2.  The fixed [printfulRequest] returns exactly when the body parses to
    an envelope whose [code] is the number 200; what it returns is the
    envelope's [result].  The HTTP status plays no part. *)
Theorem fixed_reader_returns_iff (r : response) (v : value) :
  Fixed.read_envelope r = Ok v
  <-> exists data, body r = Json data
                   /\ strict_eq_num (prop data "code") 200%float = true
                   /\ v = prop data "result".
Proof.
  unfold Fixed.read_envelope. split.
  - destruct (body r) as [m|data]; [discriminate|].
    unfold get. destruct (nullish data); [discriminate|]. cbn.
    destruct (strict_eq_num (prop data "code") 200%float) eqn:Hc; cbn;
      [|discriminate].
    intros H; injection H as <-. eauto.
  - intros [data [Hb [Hc ->]]]. exact (fixed_envelope_ok r data Hb Hc).
Qed.

(** X3.  A body that is not JSON.  The original client reports it as
    ["Printful API error: <status>"] when the HTTP status is outside 200..299
    and as the parser's error otherwise; the fixed client always reports the
    parser's error. *)
Theorem unparsable_body (r : response) (m : string) :
  body r = BadJson m ->
  (ok r = false ->
   Original.read_envelope r
   = Err (Error ("Printful API error: " ++ decimal (status r))))
  /\ (ok r = true -> Original.read_envelope r = Err (SyntaxError m))
  /\ Fixed.read_envelope r = Err (SyntaxError m).
Proof.
  intros Hb. unfold Original.read_envelope, Fixed.read_envelope. rewrite Hb.
  repeat split; intros; try reflexivity.
  - now rewrite H.
  - now rewrite H.
Qed.

End ReaderCoverage.

Lemma unparsable_body_witness :
  Original.read_envelope (B := Samples.engine)
    (Net.mkResponse 502 (Net.BadJson "Unexpected token <"))
  = Js.Err (Js.Error "Printful API error: 502")
  /\ Fixed.read_envelope (B := Samples.engine)
       (Net.mkResponse 502 (Net.BadJson "Unexpected token <"))
     = Js.Err (Js.SyntaxError "Unexpected token <").
Proof.
  pose proof (unparsable_body (B := Samples.engine)
                (Net.mkResponse 502 (Net.BadJson "Unexpected token <"))
                "Unexpected token <" eq_refl) as H.
  split.
  - exact (proj1 H eq_refl).
  - exact (proj2 (proj2 H)).
Defined.

Section ClientCoverage.
Import Js Net Spec Cover.
Context {B : Builtins}.
Variable E : env.
Variable P : provider.

Lemma original_shape (endpoint : string) (o : RequestInit) :
  method_matches_body
    (mkRequest "" (init_method o) [] (init_body o)) = true ->
  init_headers o = None ->
  sends (fun rq => to_provider rq = true
                   /\ header "Content-Type" (req_headers rq) = Some "application/json"
                   /\ method_matches_body rq = true)
    (Original.printfulRequest E P (String "/" endpoint) o).
Proof.
  intros Hm Hh. apply original_request_sends; [|exact Hh].
  intros key _. repeat split; [|exact Hm].
  unfold to_provider. cbn. now destruct endpoint.
Qed.

Lemma fixed_shape (endpoint : string) (o : RequestInit) :
  get_or_post (mkRequest "" (init_method o) [] (init_body o)) = true ->
  method_matches_body
    (mkRequest "" (init_method o) [] (init_body o)) = true ->
  init_headers o = None ->
  sends (fun rq => to_provider rq = true
                   /\ header "Content-Type" (req_headers rq) = Some "application/json"
                   /\ method_matches_body rq = true
                   /\ get_or_post rq = true)
    (Fixed.printfulRequest E P (String "/" endpoint) o).
Proof.
  intros Hg Hm Hh. apply fixed_request_sends; [|exact Hh].
  intros key _. repeat split; [|exact Hm | exact Hg].
  unfold to_provider. cbn. now destruct endpoint.
Qed.

(** X4.  Every request either client sends goes to
    [https://api.printful.com/], is marked [application/json], and has a body
    exactly when it is a POST; the original client's only other method is the
    DELETE of [cancelOrder], and the fixed client has none. *)
Theorem client_requests_shape :
  (forall op tr, exists new,
     snd (Original.run E P op tr) = (tr ++ new)%list
     /\ Forall (fun rq =>
          to_provider rq = true
          /\ header "Content-Type" (req_headers rq) = Some "application/json"
          /\ method_matches_body rq = true) new)
  /\ (forall op tr, exists new,
     snd (Fixed.run E P op tr) = (tr ++ new)%list
     /\ Forall (fun rq =>
          to_provider rq = true
          /\ header "Content-Type" (req_headers rq) = Some "application/json"
          /\ method_matches_body rq = true
          /\ get_or_post rq = true) new).
Proof.
  split; intros op tr; revert tr.
  - change (sends (fun rq => to_provider rq = true
                   /\ header "Content-Type" (req_headers rq) = Some "application/json"
                   /\ method_matches_body rq = true) (Original.run E P op)).
    destruct op; cbn [Original.run];
      unfold Original.getCatalog, Original.getProduct, Original.createSyncProduct,
        Original.createMockup, Original.getMockupResult, Original.getShippingRates,
        Original.createOrder, Original.getOrder, Original.listOrders,
        Original.cancelOrder, Original.getStoreInfo, Original.estimateCosts,
        Original.quickCreateProduct,
        Original.getProduct, Original.createSyncProduct, Original.createMockup;
      sends_steps ltac:(apply original_shape; reflexivity).
  - change (sends (fun rq => to_provider rq = true
                   /\ header "Content-Type" (req_headers rq) = Some "application/json"
                   /\ method_matches_body rq = true
                   /\ get_or_post rq = true) (Fixed.run E P op)).
    destruct op; cbn [Fixed.run];
      unfold Fixed.getCatalog, Fixed.getProduct, Fixed.getVariant,
        Fixed.getShippingRates, Fixed.estimateCosts, Fixed.createMockupTask,
        Fixed.getMockupResult, Fixed.getStoreInfo, Fixed.createDraftOrder,
        Fixed.getPopularProducts, Fixed.getProductPricing, Fixed.getProduct;
      sends_steps ltac:(apply fixed_shape; reflexivity).
Qed.

End ClientCoverage.

Section ClientCalls.
Import Js Net Spec Cover.
Context {B : Builtins}.
Variable E : env.
Variable P : provider.

Lemma bind_request_trace {C} (m : M value) (k : value -> result C)
  (r : result value) (tr tr' : list request) :
  m tr = (r, tr') ->
  snd (bind m (fun v => lift (k v)) tr) = tr'.
Proof. intros H. unfold bind, lift. rewrite H. now destruct r. Qed.

(** X5.  With the key set, every operation of the original client other
    than [quickCreateProduct], and every operation of the fixed client other
    than [getPopularProducts], sends exactly one request, whatever the
    provider answers. *)
Theorem one_request_per_operation (key : string) :
  configured E key ->
  (forall op tr, single_call_original op = true ->
     exists rq, snd (Original.run E P op tr) = (tr ++ [rq])%list)
  /\ (forall op tr, single_call_fixed op = true ->
     exists rq, snd (Fixed.run E P op tr) = (tr ++ [rq])%list).
Proof.
  intros Hc. split; intros op tr Hop.
  - destruct op; try discriminate; cbn [Original.run];
      unfold Original.getCatalog, Original.getProduct, Original.createSyncProduct,
        Original.createMockup, Original.getMockupResult, Original.getShippingRates,
        Original.createOrder, Original.getOrder, Original.listOrders,
        Original.cancelOrder, Original.getStoreInfo, Original.estimateCosts;
      try (rewrite (original_request_run E P key _ no_options tr Hc eq_refl);
           eexists; reflexivity);
      try (rewrite (original_request_run E P key _ (post _) tr Hc eq_refl);
           eexists; reflexivity).
    unfold bind.
    rewrite (original_request_run E P key _ (mkInit (Some "DELETE") None None) tr
               Hc eq_refl).
    cbv zeta. destruct (answer_original P tr _); eexists; reflexivity.
  - destruct op; try discriminate; cbn [Fixed.run];
      unfold Fixed.getCatalog, Fixed.getProduct, Fixed.getVariant,
        Fixed.getShippingRates, Fixed.estimateCosts, Fixed.createMockupTask,
        Fixed.getMockupResult, Fixed.createDraftOrder;
      try (rewrite (fixed_request_run E P key _ no_options tr Hc eq_refl);
           eexists; reflexivity);
      try (rewrite (fixed_request_run E P key _ (post _) tr Hc eq_refl);
           eexists; reflexivity).
    + unfold Fixed.getStoreInfo.
      eexists.
      apply (bind_request_trace _ index0 _ tr _
               (fixed_request_run E P key "/stores" no_options tr Hc eq_refl)).
    + unfold Fixed.getProductPricing, bind, Fixed.getProduct.
      rewrite (fixed_request_run E P key _ no_options tr Hc eq_refl). cbv zeta.
      destruct (answer_fixed P tr _) as [detail|e]; [|eexists; reflexivity].
      unfold lift.
      destruct (get detail "variants") as [vs|]; [|eexists; reflexivity].
      destruct (slice_receiver vs) as [sl|]; [|eexists; reflexivity].
      destruct (rmap Fixed.pricing_variant (firstn 5 sl)); [|eexists; reflexivity].
      destruct (get detail "product") as [pr|]; [|eexists; reflexivity].
      destruct (get pr "title"); [|eexists; reflexivity].
      destruct (index0 vs); eexists; reflexivity.
Qed.

Lemma query_string_empty (q : list (string * string)) :
  Original.query_string q = "" -> q = [].
Proof.
  destruct q as [|[k v] rest]; [reflexivity|]. cbn [Original.query_string].
  intros H. exfalso.
  assert (Hne : form_urlencode k ++ "=" ++ form_urlencode v <> "").
  { apply append_not_empty_r. discriminate. }
  destruct rest; [exact (Hne H)|].
  exact (append_not_empty_l _ _ Hne H).
Qed.

Lemma query_string_concat (q : list (string * string)) :
  Original.query_string q
  = String.concat "&"
      (map (fun kv => form_urlencode (fst kv) ++ "=" ++ form_urlencode (snd kv)) q).
Proof.
  induction q as [|[k v] rest IH]; [reflexivity|].
  cbn [Original.query_string map String.concat fst snd].
  destruct rest as [|kv rest']; [reflexivity|].
  rewrite IH. reflexivity.
Qed.

Lemma orders_endpoint (q : list (string * string)) :
  (if str_truthy (Original.query_string q)
   then "?" ++ Original.query_string q else "")
  = match q with
    | [] => ""
    | _ :: _ =>
        "?" ++ String.concat "&"
                 (map (fun kv => form_urlencode (fst kv) ++ "="
                                 ++ form_urlencode (snd kv)) q)
    end.
Proof.
  destruct q as [|kv rest]; [reflexivity|].
  unfold str_truthy.
  destruct (String.eqb_spec (Original.query_string (kv :: rest)) "") as [H0|_].
  - discriminate (query_string_empty _ H0).
  - cbn [negb]. now rewrite query_string_concat.
Qed.

(** X6.  [listOrders] asks [/orders] with no question mark when it is given
    no filter that counts, where a missing or empty status and a missing,
    zero or NaN offset or limit do not count; otherwise it asks [/orders?]
    followed by the filters that count, form-encoded as [status=<status>],
    [offset=<offset>] and [limit=<limit>], in this order and joined by
    [&]. *)
Theorem listOrders_url (key : string) (tr : list request) :
  configured E key ->
  let headers :=
    [("Authorization", "Bearer " ++ key); ("Content-Type", "application/json")] in
  snd (Original.listOrders E P None tr)
  = (tr ++ [mkRequest "https://api.printful.com/orders" None headers None])%list
  /\ forall status offset limit,
       let pair name text := form_urlencode name ++ "=" ++ form_urlencode text in
       let number name (n : option float) :=
         match n with
         | Some x =>
             if PrimFloat.is_zero x || PrimFloat.is_nan x then []
             else [pair name (number_to_string x)]
         | None => []
         end in
       let filters :=
         (match status with
          | Some s => if s =? "" then [] else [pair "status" s]
          | None => []
          end ++ number "offset" offset ++ number "limit" limit)%list in
       let url :=
         "https://api.printful.com/orders"
           ++ match filters with
              | [] => ""
              | _ :: _ => "?" ++ String.concat "&" filters
              end in
       snd (Original.listOrders E P
              (Some (Original.mkListOrders status offset limit)) tr)
       = (tr ++ [mkRequest url None headers None])%list.
Proof.
  intros Hc headers. split.
  - unfold Original.listOrders.
    now rewrite (original_request_run E P key _ no_options tr Hc eq_refl).
  - intros status offset limit pair number filters url. subst url headers.
    unfold Original.listOrders.
    rewrite (original_request_run E P key _ no_options tr Hc eq_refl). cbv zeta.
    cbn [snd init_method init_body no_options]. unfold original_headers.
    do 3 f_equal. rewrite orders_endpoint.
    assert (Hmap : map (fun kv => form_urlencode (fst kv) ++ "="
                                  ++ form_urlencode (snd kv))
                     (Original.query_pairs
                        (Some (Original.mkListOrders status offset limit)))
                   = filters).
    { unfold Original.query_pairs, filters, number, pair, str_truthy, num_truthy.
      cbn [Original.lo_status Original.lo_offset Original.lo_limit].
      rewrite !map_app.
      destruct status as [s|]; [destruct (s =? "")|];
        (destruct offset as [o|];
         [destruct (PrimFloat.is_zero o || PrimFloat.is_nan o)|]);
        (destruct limit as [l|];
         [destruct (PrimFloat.is_zero l || PrimFloat.is_nan l)|]);
        reflexivity. }
    change ("https://api.printful.com/orders" ++ ?x)
      with (Original.PRINTFUL_API_URL ++ "/orders" ++ x).
    destruct (Original.query_pairs
                (Some (Original.mkListOrders status offset limit))) as [|kv rest];
      cbn [map] in Hmap; rewrite <- Hmap; reflexivity.
Qed.

(** X7.  [cancelOrder] sends one DELETE to [/orders/<orderId>] without a
    body; when the provider accepts it the function returns [undefined],
    whatever the envelope's [result] was, and otherwise it throws the
    client's error. *)
Theorem cancelOrder_returns_nothing (key orderId : string) (tr : list request) :
  configured E key ->
  let rq := mkRequest (Original.PRINTFUL_API_URL ++ "/orders/" ++ orderId)
              (Some "DELETE") (original_headers key) None in
  Original.cancelOrder E P orderId tr
  = (match answer_original P tr rq with
     | Ok _ => Ok VUndefined
     | Err e => Err e
     end, (tr ++ [rq])%list).
Proof.
  intros Hc rq. unfold Original.cancelOrder, bind.
  rewrite (original_request_run E P key _ (mkInit (Some "DELETE") None None) tr
             Hc eq_refl).
  cbv zeta. change (mkRequest _ _ _ _) with rq.
  now destruct (answer_original P tr rq).
Qed.


End ClientCalls.

Lemma one_request_per_operation_witness :
  exists rq,
    snd (Original.run (B := Samples.engine) Samples.env_with_key
           Samples.unreachable (Original.GetOrder "7") [])
    = [rq].
Proof.
  exact (proj1 (one_request_per_operation (B := Samples.engine)
                  Samples.env_with_key Samples.unreachable "secret"
                  (conj eq_refl eq_refl))
           (Original.GetOrder "7") [] eq_refl).
Defined.

Lemma listOrders_url_witness :
  snd (Original.listOrders (B := Samples.engine) Samples.env_with_key
         Samples.unreachable (Some MoreSamples.pending_orders) [])
  = [Net.mkRequest
       "https://api.printful.com/orders?status=pending&offset=20&limit=10" None
       [("Authorization", "Bearer secret"); ("Content-Type", "application/json")]
       None]
  /\ snd (Original.listOrders (B := Samples.engine) Samples.env_with_key
            Samples.unreachable (Some MoreSamples.first_pending_orders) [])
     = [Net.mkRequest "https://api.printful.com/orders?status=pending" None
          [("Authorization", "Bearer secret"); ("Content-Type", "application/json")]
          None].
Proof.
  pose proof (proj2 (listOrders_url (B := Samples.engine) Samples.env_with_key
                       Samples.unreachable "secret" [] (conj eq_refl eq_refl))) as H.
  split.
  - exact (H (Some "pending") (Some 20%float) (Some 10%float)).
  - exact (H (Some "pending") (Some 0%float) None).
Defined.

Lemma cancelOrder_witness :
  Original.cancelOrder (B := Samples.engine) Samples.env_with_key
    (Samples.always (Samples.success_envelope (Js.VStr "canceled"))) "7" []
  = (Js.Ok Js.VUndefined,
     [Net.mkRequest "https://api.printful.com/orders/7" (Some "DELETE")
        (Spec.original_headers "secret") None]).
Proof.
  exact (cancelOrder_returns_nothing (B := Samples.engine) Samples.env_with_key
           (Samples.always (Samples.success_envelope (Js.VStr "canceled")))
           "secret" "7" [] (conj eq_refl eq_refl)).
Defined.


(* ================================================================== *)
(** * Further statements: the /api/printful route *)
(* ================================================================== *)

Section ReturnsFacts.
Import Js Net Cover.

Lemma returns_ret {A} (Q : A -> Prop) (a : A) : Q a -> returns Q (ret a).
Proof. intros H tr a' tr' E. injection E as <- _. exact H. Qed.

Lemma returns_bind {A C} (Q : C -> Prop) (m : M A) (k : A -> M C) :
  (forall a, returns Q (k a)) -> returns Q (bind m k).
Proof.
  intros Hk tr c tr'. unfold bind.
  destruct (m tr) as [[a|e] tr1]; [apply Hk | discriminate].
Qed.

Lemma returns_required {A} (Q : A -> Prop) (x : option string)
  (otherwise : M A) (k : string -> M A) :
  returns Q otherwise -> (forall s, returns Q (k s)) ->
  returns Q (Route.required x otherwise k).
Proof.
  intros Ho Hk. unfold Route.required.
  destruct x as [s|]; [|exact Ho]. destruct (str_truthy s); [apply Hk | exact Ho].
Qed.

Lemma try_catch_returns {A} (Q : A -> Prop) (m : M A) (handler : js_error -> A) tr :
  returns Q m -> (forall e, Q (handler e)) ->
  exists a tr', try_catch m handler tr = (Ok a, tr') /\ Q a.
Proof.
  intros Hm Hh. unfold try_catch.
  destruct (m tr) as [[a|e] tr'] eqn:E; eauto.
Qed.

End ReturnsFacts.

Section RouteCoverage.
Import Js Net Spec Route Cover.
Context {B : Builtins}.
Variable E : env.
Variable P : provider.

Lemma well_formed_error_400 (m : string) : well_formed_answer (errorResponse m 400).
Proof. split; [cbn; auto | reflexivity]. Qed.

Lemma well_formed_error_500 (m : string) : well_formed_answer (errorResponse m 500).
Proof. split; [cbn; auto | reflexivity]. Qed.

Lemma well_formed_success (fields : list (string * value)) :
  well_formed_answer (json (("success", VBool true) :: fields)).
Proof. split; [cbn; auto | reflexivity]. Qed.

(** Walks a handler's [try] block down to its [return]s. *)
Ltac answers :=
  repeat first
    [ apply returns_ret;
      first [ apply well_formed_error_400 | apply well_formed_success ]
    | apply returns_required; [|intros]
    | apply returns_bind; intros
    | match goal with |- returns _ (if ?c then _ else _) => destruct c end ].

(** X9.  Neither handler throws, and every answer of the route has status
    200, 400 or 500 and a body whose [success] is [true] exactly when the
    status is 200. *)
Theorem route_answers_well_formed
  (q : list (string * string)) (b : body_outcome) (tr : list request) :
  (exists resp tr', GET E P q tr = (Ok resp, tr') /\ well_formed_answer resp)
  /\ (exists resp tr', POST E P q b tr = (Ok resp, tr') /\ well_formed_answer resp).
Proof.
  split.
  - unfold GET. apply try_catch_returns; [|intros e; apply well_formed_error_500].
    answers.
  - unfold POST, required.
    destruct (searchParams_get q "action") as [action|];
      [|eexists; eexists; split; [reflexivity | apply well_formed_error_400]].
    destruct (str_truthy action);
      [|eexists; eexists; split; [reflexivity | apply well_formed_error_400]].
    apply try_catch_returns; [|intros e; apply well_formed_error_500].
    answers.
Qed.

(** X10.  A request the route does not dispatch never reaches the provider.
    A GET that is not dispatched is answered with the info payload, or with
    status 400 and [success: false] when a recognized action lacks its
    parameter.  A POST whose body parsed and that is not dispatched is
    answered with [success: false] and status 400, except that a body that
    is [null] or [undefined] under the action shipping, estimate or mockup
    is answered with status 500.  In all these cases nothing is sent. *)
Theorem undispatched_requests_send_nothing
  (q : list (string * string)) (tr : list request) :
  (GET_call q = None ->
   exists resp,
     GET E P q tr = (Ok resp, tr)
     /\ (resp = info /\ res_status resp = 200%Z
         \/ exists m,
              resp = mkJson 400 (VObj [("success", VBool false); ("error", VStr m)])))
  /\ (forall b, POST_call q b = None ->
      let taken_apart :=
        match searchParams_get q "action" with
        | Some a => (a =? "shipping") || (a =? "estimate") || (a =? "mockup")
        | None => false
        end in
      exists m,
        POST E P q (Json b) tr
        = (Ok (mkJson (if nullish b && taken_apart then 500 else 400)
                 (VObj [("success", VBool false); ("error", VStr m)])),
           tr)).
Proof.
  split.
  - unfold GET_call, GET, required.
    set (action := str_or (searchParams_get q "action") "info").
    destruct (action =? "catalog"); [discriminate|].
    destruct (action =? "product").
    { destruct (searchParams_get q "id") as [id|];
        [destruct (str_truthy id); [discriminate|]|]; intros _;
        eexists; (split; [reflexivity | right; eexists; reflexivity]). }
    destruct (action =? "popular"); [discriminate|].
    destruct (action =? "pricing").
    { destruct (searchParams_get q "id") as [id|];
        [destruct (str_truthy id); [discriminate|]|]; intros _;
        eexists; (split; [reflexivity | right; eexists; reflexivity]). }
    destruct (action =? "store"); [discriminate|].
    destruct (action =? "mockup-status").
    { destruct (searchParams_get q "task_key") as [k|];
        [destruct (str_truthy k); [discriminate|]|]; intros _;
        eexists; (split; [reflexivity | right; eexists; reflexivity]). }
    intros _. eexists. split; [reflexivity | left; split; reflexivity].
  - intros b Hcall. cbv zeta. revert Hcall. unfold POST_call, POST, required.
    destruct (searchParams_get q "action") as [action|];
      [|intros _; rewrite Bool.andb_false_r; eexists; reflexivity].
    destruct (str_truthy action) eqn:Hta.
    2:{ intros _.
        assert (action = "") as ->.
        { unfold str_truthy in Hta. now destruct (String.eqb_spec action ""). }
        rewrite Bool.andb_false_r. eexists; reflexivity. }
    cbn [req_json]. rewrite bind_lift_ok. cbv beta.
    unfold try_catch, bind, lift, destructure.
    destruct (nullish b) eqn:Hb; cbn [andb].
    + intros _.
      destruct (action =? "shipping"); [eexists; reflexivity|].
      destruct (action =? "estimate"); [eexists; reflexivity|].
      destruct (action =? "mockup"); eexists; reflexivity.
    + destruct (action =? "shipping").
      { destruct (truthy (prop b "recipient")), (truthy (prop b "items"));
          cbn [andb negb orb]; try discriminate; intros _; eexists; reflexivity. }
      destruct (action =? "estimate").
      { destruct (truthy (prop b "recipient")), (truthy (prop b "items"));
          cbn [andb negb orb]; try discriminate; intros _; eexists; reflexivity. }
      destruct (action =? "mockup").
      { destruct (truthy (prop b "productId")), (truthy (prop b "variantIds")),
          (truthy (prop b "files"));
          cbn [andb negb orb]; try discriminate; intros _; eexists; reflexivity. }
      intros _. eexists. reflexivity.
Qed.

(** X11.  A POST whose body is not JSON is answered with status 500,
    [success: false] and the parser's message as [error], and nothing is
    sent; this holds for every action that is present, the unknown ones
    included, because the body is parsed before the action is looked at. *)
Theorem malformed_body_is_500
  (q : list (string * string)) (action m : string) (tr : list request) :
  searchParams_get q "action" = Some action ->
  action <> "" ->
  POST E P q (BadJson m) tr
  = (Ok (mkJson 500 (VObj [("success", VBool false); ("error", VStr m)])), tr).
Proof.
  intros Ha Hne. unfold POST, required. rewrite Ha. unfold str_truthy.
  destruct (String.eqb_spec action ""); [contradiction|]. reflexivity.
Qed.

Lemma fetched_details_length (tr rqs : list request) :
  List.length (fetched_details P tr rqs) <= List.length rqs.
Proof.
  revert tr. induction rqs as [|rq rest IH]; intros tr; [apply le_n|].
  cbn [fetched_details]. rewrite length_app. specialize (IH (tr ++ [rq])%list).
  destruct (answer_fixed P tr rq) as [v|e]; [destruct (Fixed.is_null v)|]; cbn; lia.
Qed.

Lemma fetched_details_down (tr rqs : list request) :
  (forall t rq, exists m, P t rq = FetchFailed m) ->
  fetched_details P tr rqs = [].
Proof.
  intros Hdown. revert tr. induction rqs as [|rq rest IH]; intros tr; [reflexivity|].
  cbn [fetched_details]. unfold answer_fixed.
  destruct (Hdown tr rq) as [m ->]. now rewrite IH.
Qed.

Lemma popular_always_returns (tr : list request) :
  exists details tr',
    Fixed.getPopularProducts E P tr = (Ok (VArr details), tr')
    /\ List.length details <= 5
    /\ (key_missing E = true -> details = [] /\ tr' = tr)
    /\ ((forall t rq, exists m, P t rq = FetchFailed m) -> details = []).
Proof.
  destruct (key_missing_or_configured E) as [Hm | [key Hc]].
  - exists [], tr. rewrite (fixed_popular_missing E P tr Hm).
    repeat split; cbn; lia.
  - unfold Fixed.getPopularProducts, bind.
    change (firstn 5 (Fixed.Object_values Fixed.POPULAR_PRODUCTS))
      with [71; 380; 19; 1; 195]%float.
    destruct (all_caught E P key [71; 380; 19; 1; 195]%float Hc tr)
      as [ps [Hall Hkeep]].
    rewrite Hall. unfold ret. eexists; eexists. split; [reflexivity|].
    rewrite Hkeep. split; [|split].
    + exact (fetched_details_length tr
               (map (product_request E key) [71; 380; 19; 1; 195]%float)).
    + intros Hm. exfalso. destruct Hc as [Hk Ht].
      unfold key_missing in Hm. rewrite Hk, Ht in Hm. discriminate.
    + intros Hdown. now apply fetched_details_down.
Qed.

(** X12.  [GET ?action=popular] always answers status 200 with
    [success: true], a list of at most five products and its length as
    [count].  With no key the list is empty and nothing is sent; with the
    provider down the list is empty; in both cases the answer is still a
    success. *)
Theorem popular_route_never_fails (q : list (string * string)) (tr : list request) :
  searchParams_get q "action" = Some "popular" ->
  exists details tr',
    GET E P q tr
    = (Ok (mkJson 200
         (VObj [("success", VBool true); ("products", VArr details);
                ("count", VNum (nat_to_float (List.length details)))])), tr')
    /\ List.length details <= 5
    /\ (key_missing E = true -> details = [] /\ tr' = tr)
    /\ ((forall t rq, exists m, P t rq = FetchFailed m) -> details = []).
Proof.
  intros Ha. unfold GET. rewrite Ha. cbn [str_or str_truthy String.eqb negb].
  change (str_or (Some "popular") "info") with "popular". cbn [String.eqb Ascii.eqb Bool.eqb].
  destruct (popular_always_returns tr) as [details [tr' [Hrun Hrest]]].
  exists details, tr'. split; [|exact Hrest].
  unfold try_catch, bind. rewrite Hrun. reflexivity.
Qed.

End RouteCoverage.

Lemma undispatched_requests_witness :
  exists m,
    Route.POST (B := Samples.engine) Samples.env_with_key Samples.unreachable
      [("action", "shipping")] (Net.Json Js.VNull) []
    = (Js.Ok (Route.mkJson 500
         (Js.VObj [("success", Js.VBool false); ("error", Js.VStr m)])), []).
Proof.
  exact (proj2 (undispatched_requests_send_nothing (B := Samples.engine)
                  Samples.env_with_key Samples.unreachable
                  [("action", "shipping")] []) Js.VNull eq_refl).
Defined.

Lemma malformed_body_witness :
  Route.POST (B := Samples.engine) Samples.env_with_key Samples.unreachable
    [("action", "checkout")] (Net.BadJson "Unexpected end of JSON input") []
  = (Js.Ok (Route.mkJson 500
       (Js.VObj [("success", Js.VBool false);
                 ("error", Js.VStr "Unexpected end of JSON input")])), []).
Proof.
  apply (malformed_body_is_500 (B := Samples.engine) Samples.env_with_key
           Samples.unreachable [("action", "checkout")] "checkout");
    [reflexivity | discriminate].
Defined.

Lemma popular_route_witness :
  Route.GET (B := Samples.engine) Samples.env_without_key Samples.unreachable
    [("action", "popular")] []
  = (Js.Ok (Route.mkJson 200
       (Js.VObj [("success", Js.VBool true); ("products", Js.VArr []);
                 ("count", Js.VNum 0%float)])), []).
Proof.
  destruct (popular_route_never_fails (B := Samples.engine) Samples.env_without_key
              Samples.unreachable [("action", "popular")] [] eq_refl)
    as [details [tr' [Hrun [_ [Hkey _]]]]].
  destruct (Hkey eq_refl) as [Hd Ht]. subst details tr'. exact Hrun.
Defined.

(* ================================================================== *)
(** * Further statements: the download handler *)
(* ================================================================== *)

Section DownloadCoverage.
Import Js NodePath Download Spec.
Variable W : world.

(** The four ways the inner block ends. *)
Lemma serve_cases (np : string) :
  let path := fileAbsPath_of W np in
  (exists e, fs_stat W path = Err e
             /\ serve W np = (mkResponse 404 (Text "File not found"), [Stat path]))
  \/ (exists size, fs_stat W path = Ok size /\ (size > 52428800)%Z
             /\ serve W np = (mkResponse 413 (Text "File too large"), [Stat path]))
  \/ (exists size e, fs_stat W path = Ok size /\ (size <= 52428800)%Z
             /\ fs_readFile W path = Err e
             /\ serve W np = (mkResponse 404 (Text "File not found"),
                              [Stat path; ReadFile path]))
  \/ (exists size bytes, fs_stat W path = Ok size /\ (size <= 52428800)%Z
             /\ fs_readFile W path = Ok bytes
             /\ serve W np = (mkResponse 200 (FileData bytes),
                              [Stat path; ReadFile path])).
Proof.
  intros path. unfold serve. fold path.
  destruct (fs_stat W path) as [size|e]; [|left; eauto].
  right. unfold MAX_FILE_SIZE.
  destruct (size >? 50 * 1024 * 1024)%Z eqn:Hs.
  - left. exists size. apply Z.gtb_gt in Hs. repeat split; auto; lia.
  - right. assert (size <= 52428800)%Z.
    { destruct (Z.gtb_spec size (50 * 1024 * 1024)); [discriminate | lia]. }
    destruct (fs_readFile W path) as [bytes|e]; [right | left]; eauto 10.
Qed.

(** The ways the handler ends before the inner block, or else enters it. *)
Lemma GET_cases (slug : string) :
  GET W slug = (mkResponse 500 (Text "Internal server error"), [])
  \/ GET W slug = (mkResponse 403 (Text "Forbidden"), [])
  \/ GET W slug = (mkResponse 400 (Text "Invalid file path"), [])
  \/ exists user data file_path,
       getUser W = Ok user
       /\ select_product W slug = Ok data
       /\ prop data "file_path" = VStr file_path
       /\ userHasProductAccess W user (prop data "id") = Ok true
       /\ includes (normalize file_path) ".." = false
       /\ isAbsolute (normalize file_path) = false
       /\ GET W slug = serve W (normalize file_path).
Proof.
  unfold GET, attempt, rbind, notFound.
  destruct (getUser W) as [user|]; [|now left].
  destruct (createServerClient W); [|now left].
  destruct (select_product W slug) as [data|]; [|now left].
  destruct (negb (truthy data) || negb (typeof_object data)
            || negb (has_key "file_path" data)); [now left|].
  destruct (negb (truthy (prop data "file_path"))); [now left|].
  destruct (userHasProductAccess W user (prop data "id")) as [[|]|] eqn:Ha;
    cbn [negb]; [|right; now left | now left].
  destruct (prop data "file_path") as [| |b|n|file_path|l|fs] eqn:Hf;
    try (now left).
  destruct (includes (normalize file_path) "..") eqn:Hi;
    [right; right; now left|].
  destruct (isAbsolute (normalize file_path)) eqn:Hab;
    [right; right; now left|].
  right; right; right. exists user, data, file_path. cbn [orb]. auto 10.
Qed.

(** X13.  The download handler answers with one of the statuses 200, 400,
    403, 404, 413 and 500, and its body is file data exactly when the status
    is 200. *)
Theorem download_statuses (slug : string) :
  In (status (fst (GET W slug))) [200; 400; 403; 404; 413; 500]%Z
  /\ (status (fst (GET W slug)) = 200%Z
      <-> exists bytes, payload_of (fst (GET W slug)) = FileData bytes).
Proof.
  destruct (GET_cases slug) as [H | [H | [H | [user [data [fp [_ [_ [_ [_ [_ [_ H]]]]]]]]]]]];
    rewrite H; try (cbn; split; [tauto | split; [discriminate | intros [b Hb]; discriminate]]).
  destruct (serve_cases (normalize fp))
    as [[e [_ Hs]] | [[size [_ [_ Hs]]] | [[size [e [_ [_ [_ Hs]]]]]
        | [size [bytes [_ [_ [_ Hs]]]]]]]];
    rewrite Hs; cbn;
    (split; [tauto | split; [try discriminate; eauto | try (intros [b Hb]; discriminate); auto]]).
Qed.

(** X14.  The file system is touched only for a signed-in state, a product
    row and a user that the access rule admits: whenever the handler makes a
    file-system call or returns file data, [userHasProductAccess] answered
    [true] for that user and that product. *)
Theorem files_only_with_access (slug : string) :
  snd (GET W slug) <> []
  \/ (exists bytes, payload_of (fst (GET W slug)) = FileData bytes) ->
  exists user data,
    getUser W = Ok user
    /\ select_product W slug = Ok data
    /\ userHasProductAccess W user (prop data "id") = Ok true.
Proof.
  intros Hused.
  destruct (GET_cases slug) as [H | [H | [H | [user [data [fp [Hu [Hd [_ [Ha _]]]]]]]]]];
    [| | |eauto];
    rewrite H in Hused; cbn in Hused;
    destruct Hused as [Hn | [b Hb]]; congruence.
Qed.

(** X15.  The handler makes at most two file-system calls, a [stat] and then
    a [readFile] of the same path, and it reads a file only after [stat]
    reported a size of at most 52428800 bytes. *)
Theorem stat_before_read (slug : string) :
  (snd (GET W slug) = []
   \/ exists path, snd (GET W slug) = [Stat path]
                   \/ snd (GET W slug) = [Stat path; ReadFile path])
  /\ (forall path, In (ReadFile path) (snd (GET W slug)) ->
      snd (GET W slug) = [Stat path; ReadFile path]
      /\ exists size, fs_stat W path = Ok size /\ (size <= 52428800)%Z).
Proof.
  destruct (GET_cases slug) as [H | [H | [H | [user [data [fp [_ [_ [_ [_ [_ [_ H]]]]]]]]]]]];
    rewrite H; try (cbn; split; [now left | intros path []]).
  destruct (serve_cases (normalize fp))
    as [[e [_ Hs]] | [[size [_ [_ Hs]]] | [[size [e [Hst [Hle [_ Hs]]]]]
        | [size [bytes [Hst [Hle [_ Hs]]]]]]]];
    rewrite Hs; cbn [snd]; (split; [right; eexists; eauto|]);
    intros path Hin; cbn in Hin;
    repeat match goal with
    | H : _ \/ _ |- _ => destruct H
    | H : False |- _ => contradiction
    | H : Stat _ = ReadFile _ |- _ => discriminate
    | H : ReadFile _ = ReadFile _ |- _ => injection H as <-
    end; eauto.
Qed.


(** X17.  A file that passes the checks but cannot be inspected or read is
    answered 404: when [stat] fails the file is not read, and when [stat]
    succeeds within the limit and [readFile] fails no data is returned. *)
Theorem unreadable_file_is_404 (slug : string) (user : option string)
  (data : value) (file_path : string) :
  getUser W = Ok user ->
  createServerClient W = Ok tt ->
  select_product W slug = Ok data ->
  prop data "file_path" = VStr file_path ->
  file_path <> "" ->
  userHasProductAccess W user (prop data "id") = Ok true ->
  includes (normalize file_path) ".." = false ->
  isAbsolute (normalize file_path) = false ->
  let path := fileAbsPath_of W (normalize file_path) in
  (forall e, fs_stat W path = Err e ->
     GET W slug = (mkResponse 404 (Text "File not found"), [Stat path]))
  /\ (forall size e, fs_stat W path = Ok size -> (size <= 52428800)%Z ->
     fs_readFile W path = Err e ->
     GET W slug = (mkResponse 404 (Text "File not found"),
                   [Stat path; ReadFile path])).
Proof.
  intros Hu Hc Hd Hf Hne Ha Hi Hab path.
  rewrite (GET_valid_path W slug user data file_path Hu Hc Hd Hf Hne Ha Hi Hab).
  unfold serve. fold path. split.
  - intros e Hstat. now rewrite Hstat.
  - intros size e Hstat Hsize Hread. rewrite Hstat, Hread.
    assert (Hgt : (size >? MAX_FILE_SIZE)%Z = false).
    { unfold MAX_FILE_SIZE.
      destruct (Z.gtb_spec size (50 * 1024 * 1024)); [lia | reflexivity]. }
    now rewrite Hgt.
Qed.

End DownloadCoverage.

Lemma files_only_with_access_witness :
  exists user data,
    Download.getUser (Samples.library true "guide.pdf") = Js.Ok user
    /\ Download.select_product (Samples.library true "guide.pdf") "guide" = Js.Ok data
    /\ Download.userHasProductAccess (Samples.library true "guide.pdf") user
         (Js.prop data "id") = Js.Ok true.
Proof.
  apply (files_only_with_access (Samples.library true "guide.pdf") "guide").
  right. eexists. reflexivity.
Defined.


Lemma unreadable_file_witness :
  Download.GET (Samples.library true "lost.pdf") "lost"
  = (Download.mkResponse 404 (Download.Text "File not found"),
     [Download.Stat "/app/storage/lost.pdf"]).
Proof.
  refine (proj1 (unreadable_file_is_404 (Samples.library true "lost.pdf") "lost"
                   (Some "u1") (Samples.row "lost.pdf") "lost.pdf"
                   eq_refl eq_refl eq_refl eq_refl _ eq_refl eq_refl eq_refl)
            (Js.Error "ENOENT") eq_refl).
  discriminate.
Defined.

(* ================================================================== *)
(** * Further statements: the handlers of the component *)
(* ================================================================== *)

Section BrowserCoverage.
Import Js Net Browser BrowserSteps Cover.
Context {B : Builtins}.
Variable API : provider.

Lemma render_catalog (s : state) (ps : list value) :
  render s = CatalogView ps -> loading s = false /\ view s = catalog.
Proof.
  unfold render. destruct s as [p sp sv sr [|] e v]; cbn; [discriminate|].
  destruct (error_truthy e); [discriminate|].
  destruct v; cbn; [auto| |].
  - destruct (truthy sp); discriminate.
  - destruct (truthy sp), (truthy sv); discriminate.
Qed.

Lemma render_product (s : state) (d v : value) :
  render s = ProductView d v ->
  loading s = false /\ view s = product /\ truthy (selectedProduct s) = true.
Proof.
  unfold render. destruct s as [p sp sv sr [|] e vw]; cbn; [discriminate|].
  destruct (error_truthy e); [discriminate|].
  destruct vw; cbn; [discriminate| |].
  - destruct (truthy sp); [auto | discriminate].
  - destruct (truthy sp), (truthy sv); discriminate.
Qed.

Lemma render_estimate (s : state) (d v r : value) :
  render s = EstimateView d v r -> loading s = false /\ view s = estimate.
Proof.
  unfold render. destruct s as [p sp sv sr [|] e vw]; cbn; [discriminate|].
  destruct (error_truthy e); [discriminate|].
  destruct vw; cbn; [discriminate| |auto].
  destruct (truthy sp); discriminate.
Qed.

Lemma loadCatalog_fields (s : state) (tr : list request) :
  exists ps e,
    fst (loadCatalog API s tr)
    = settled ps (selectedProduct s) (selectedVariant s) (shippingRates s) e (view s).
Proof.
  unfold loadCatalog. destruct (loadCatalog_try API tr) as [[ps|e] tr'];
    cbn [fst]; unfold failed; eauto.
Qed.

Lemma loadProduct_fields (s : state) (id : value) (tr : list request) :
  (exists d, fst (loadProduct API s id tr)
             = settled (products s) d VNull (shippingRates s) None product)
  \/ (exists e, fst (loadProduct API s id tr) = failed s e).
Proof.
  unfold loadProduct. destruct (loadProduct_try API id tr) as [[d|e] tr'];
    cbn [fst]; eauto.
Qed.

Lemma calculateShipping_fields (s : state) (tr : list request) :
  fst (calculateShipping API s tr) = s
  \/ (truthy (selectedVariant s) = true
      /\ exists rates,
           fst (calculateShipping API s tr)
           = settled (products s) (selectedProduct s) (selectedVariant s) rates
               None estimate)
  \/ (exists e, fst (calculateShipping API s tr) = failed s e).
Proof.
  unfold calculateShipping. destruct (truthy (selectedVariant s)); cbn [negb];
    [|now left].
  destruct (calculateShipping_try API (selectedVariant s) tr) as [[r|e] tr'];
    cbn [fst]; eauto 6.
Qed.

Lemma selectVariant_fields (s : state) (choice : string) :
  exists v,
    selectVariant s choice
    = mkState (products s) (selectedProduct s) v (shippingRates s) (loading s)
        (error s) (view s).
Proof.
  assert (Hs : s = mkState (products s) (selectedProduct s) (selectedVariant s)
                     (shippingRates s) (loading s) (error s) (view s))
    by now destruct s.
  unfold selectVariant.
  destruct (prop (selectedProduct s) "variants") as [| |b|n|t|l|fs]; eauto.
  destruct (find_variant (parseInt choice) l); eauto.
Qed.

(** Every step keeps the state consistent and ends with [loading] off. *)
Lemma step_preserves (s s' : state) :
  consistent s -> step API s s' -> consistent s' /\ loading s' = false.
Proof.
  intros IH Hstep.
  destruct Hstep as [tr | s tr ps Hr | s tr ps p Hr Hin | s d v Hr
                     | s d v choice Hr | s d v tr Hr | s d v r Hr | s m tr Hr].
  - destruct (loadCatalog_fields initial tr) as [ps [e ->]].
    split; [|reflexivity]. unfold consistent, settled, initial; cbn.
    repeat split; intros; congruence.
  - destruct (loadCatalog_fields s tr) as [ps' [e ->]].
    split; [exact IH | reflexivity].
  - destruct (render_catalog s ps Hr) as [_ Hv].
    destruct (loadProduct_fields s (prop p "id") tr) as [[d ->] | [e ->]];
      [|split; [exact IH | reflexivity]].
    destruct IH as [_ [_ Hrates]].
    split; [|reflexivity]. unfold consistent, settled; cbn.
    repeat split; intros; try congruence.
    apply Hrates. congruence.
  - destruct (render_product s d v Hr) as [Hl [Hv _]].
    destruct IH as [_ [_ Hrates]].
    unfold goBack. rewrite Hv.
    split; [|exact Hl].
    unfold consistent; cbn. repeat split; intros; try congruence.
    apply Hrates. congruence.
  - destruct (render_product s d v Hr) as [Hl [Hv _]].
    destruct IH as [_ [_ Hrates]].
    destruct (selectVariant_fields s choice) as [v' ->].
    split; [|exact Hl].
    unfold consistent; cbn. rewrite Hv. repeat split; intros; try congruence.
    apply Hrates. congruence.
  - destruct (render_product s d v Hr) as [Hl [Hv Hsp]].
    destruct (calculateShipping_fields s tr) as [-> | [[Hsv [rates ->]] | [e ->]]].
    + split; [exact IH | exact Hl].
    + split; [|reflexivity]. unfold consistent, settled; cbn.
      repeat split; intros; congruence.
    + split; [exact IH | reflexivity].
  - destruct (render_estimate s d v r Hr) as [Hl Hv].
    destruct IH as [_ [[Hsp Hsv] _]]; [exact Hv|].
    unfold goBack. rewrite Hv.
    split; [|exact Hl].
    unfold consistent; cbn. repeat split; intros; congruence.
  - destruct (loadCatalog_fields s tr) as [ps' [e ->]].
    split; [exact IH | reflexivity].
Qed.

(** X18.  Between events the component's state is consistent: in the
    catalog view nothing is selected, in the estimate view a product and a
    variant are selected, outside the estimate view the list of shipping
    rates is empty, and [loading] is on only before the first load ends. *)
Theorem states_stay_consistent (s : state) :
  reachable API s -> consistent s /\ (s = initial \/ loading s = false).
Proof.
  induction 1 as [|s s' Hreach [IH _] Hstep].
  - split; [|now left]. unfold consistent, initial; cbn.
    repeat split; intros; congruence.
  - destruct (step_preserves s s' IH Hstep) as [Hc Hl]. auto.
Qed.

(** X19.  In a state the handlers can reach, the component falls through
    all its branches to the final [return null] only when the view is
    ['product'] and the selected product is falsy, which [loadProduct] sets
    when the API reports success without a [product].  The statement is about
    the branch taken: [render] follows the conditions of the component's
    branches, which are evaluated without throwing, and the steps allow at
    least the events of the component.  It does not say that building the
    tree of a taken branch succeeds. *)
Theorem blank_only_without_product (s : state) :
  reachable API s -> render s = Nothing ->
  view s = product /\ truthy (selectedProduct s) = false.
Proof.
  intros Hreach Hn.
  assert (Hinv : consistent s).
  { clear Hn. induction Hreach as [|s s' Hreach IH Hstep].
    - unfold consistent, initial; cbn. repeat split; intros; congruence.
    - exact (proj1 (step_preserves s s' IH Hstep)). }
  destruct Hinv as [_ [Hest _]].
  unfold render in Hn. destruct s as [ps sp sv sr l e v]; cbn in *.
  destruct l; [discriminate|]. destruct (error_truthy e); [discriminate|].
  destruct v; cbn in Hn; [discriminate | |].
  - destruct (truthy sp); [discriminate | auto].
  - destruct (Hest eq_refl) as [Hsp Hsv]. rewrite Hsp, Hsv in Hn. discriminate.
Qed.

Lemma refused_run {A} (rq : request) (fallback : string) (k : value -> M A)
  (tr : list request) (r : response) (data : value) :
  API tr rq = Responded r ->
  body r = Json data ->
  nullish data = false ->
  truthy (prop data "success") = false ->
  (data <- fetch_json API rq ;;
   let! success := get data "success" in
   if truthy success then k data else refuse data fallback)%js tr
  = (Err (Error (to_string (or_else (prop data "error") (VStr fallback)))),
     (tr ++ [rq])%list).
Proof.
  intros Hapi Hbody Hnn Hs.
  unfold fetch_json, refuse, bind, fetch, lift, throw. rewrite Hapi, Hbody.
  rewrite !(get_ok data _ Hnn). now rewrite Hs.
Qed.

(** X20.  The handlers look at [success] in the body and not at the HTTP
    status.  When the API answers with a body whose [success] is falsy, each
    handler leaves products, selection, rates and view as they were, turns
    [loading] off and sets [error] to the body's [error], or to its own
    fallback text when that is falsy. *)
Theorem refusal_is_shown (s : state) (tr : list request) (r : response)
  (data : value) :
  body r = Json data ->
  nullish data = false ->
  truthy (prop data "success") = false ->
  let shown fallback :=
    mkState (products s) (selectedProduct s) (selectedVariant s) (shippingRates s)
      false (Some (to_string (or_else (prop data "error") (VStr fallback))))
      (view s) in
  (forall rq, rq = mkRequest "/api/printful?action=popular" None [] None ->
     API tr rq = Responded r ->
     loadCatalog API s tr = (shown "Failed to load catalog", (tr ++ [rq])%list))
  /\ (forall id rq,
        rq = mkRequest ("/api/printful?action=product&id=" ++ to_string id)
               None [] None ->
        API tr rq = Responded r ->
        loadProduct API s id tr = (shown "Failed to load product", (tr ++ [rq])%list))
  /\ (forall rq,
        rq = mkRequest "/api/printful?action=shipping" (Some "POST")
               [("Content-Type", "application/json")]
               (Some (VObj
                  [("recipient",
                    VObj [("address1", VStr "123 Test St");
                          ("city", VStr "Fort Myers");
                          ("state_code", VStr "FL");
                          ("country_code", VStr "US");
                          ("zip", VStr "33901")]);
                   ("items",
                    VArr [VObj [("variant_id", prop (selectedVariant s) "id");
                                ("quantity", VNum 1%float)]])])) ->
        truthy (selectedVariant s) = true ->
        API tr rq = Responded r ->
        calculateShipping API s tr
        = (shown "Failed to calculate shipping", (tr ++ [rq])%list)).
Proof.
  intros Hbody Hnn Hs shown. repeat split.
  - intros rq -> Hapi. unfold loadCatalog, loadCatalog_try.
    now rewrite (refused_run _ _ _ tr r data Hapi Hbody Hnn Hs).
  - intros id rq -> Hapi. unfold loadProduct, loadProduct_try.
    now rewrite (refused_run _ _ _ tr r data Hapi Hbody Hnn Hs).
  - intros rq -> Hsv Hapi. unfold calculateShipping, calculateShipping_try.
    rewrite Hsv. cbn [negb].
    change (shipping_request (selectedVariant s)) with
      (mkRequest "/api/printful?action=shipping" (Some "POST")
         [("Content-Type", "application/json")]
         (Some (VObj
            [("recipient",
              VObj [("address1", VStr "123 Test St");
                    ("city", VStr "Fort Myers");
                    ("state_code", VStr "FL");
                    ("country_code", VStr "US");
                    ("zip", VStr "33901")]);
             ("items",
              VArr [VObj [("variant_id", prop (selectedVariant s) "id");
                          ("quantity", VNum 1%float)]])]))).
    now rewrite (refused_run _ _ _ tr r data Hapi Hbody Hnn Hs).
Qed.

Lemma fetch_json_trace {A} (rq : request) (k : value -> M A) (tr : list request) :
  (forall v tr', snd (k v tr') = tr') ->
  snd (bind (fetch_json API rq) k tr) = (tr ++ [rq])%list.
Proof.
  intros Hk. unfold fetch_json, bind, fetch, lift.
  destruct (API tr rq) as [m|r]; [reflexivity|].
  destruct (body r) as [m|data]; [reflexivity|]. apply Hk.
Qed.

Lemma refuse_trace {A} (data : value) (fallback : string) (tr : list request) :
  snd (refuse (A := A) data fallback tr) = tr.
Proof. unfold refuse, bind, lift, throw. now destruct (get data "error"). Qed.

(** X21.  Whatever the API answers, [loadCatalog] and [loadProduct] send
    exactly one GET, to [?action=popular] and to [?action=product&id=<id>],
    and [calculateShipping] sends exactly one POST to [?action=shipping]
    for one unit of the selected variant to the fixed test address when a
    variant is selected, and nothing when none is. *)
Theorem component_requests (s : state) (tr : list request) :
  snd (loadCatalog API s tr)
  = (tr ++ [mkRequest "/api/printful?action=popular" None [] None])%list
  /\ (forall id,
        snd (loadProduct API s id tr)
        = (tr ++ [mkRequest ("/api/printful?action=product&id=" ++ to_string id)
                    None [] None])%list)
  /\ snd (calculateShipping API s tr)
     = (if truthy (selectedVariant s)
        then tr ++ [mkRequest "/api/printful?action=shipping" (Some "POST")
                      [("Content-Type", "application/json")]
                      (Some (VObj
                         [("recipient",
                           VObj [("address1", VStr "123 Test St");
                                 ("city", VStr "Fort Myers");
                                 ("state_code", VStr "FL");
                                 ("country_code", VStr "US");
                                 ("zip", VStr "33901")]);
                          ("items",
                           VArr [VObj [("variant_id",
                                        prop (selectedVariant s) "id");
                                       ("quantity", VNum 1%float)]])]))]
        else tr)%list.
Proof.
  repeat split.
  - unfold loadCatalog.
    destruct (loadCatalog_try API tr) as [[ps|e] tr'] eqn:Hrun; cbn [snd];
      change tr' with (snd (Ok ps, tr')) || change tr' with (snd (Err (A := list value) e, tr'));
      rewrite <- Hrun; unfold loadCatalog_try; apply fetch_json_trace;
      intros v t; unfold bind, lift;
      destruct (get v "success") as [sv|]; [|reflexivity| |reflexivity];
      (destruct (truthy sv); [|apply refuse_trace]);
      (destruct (get v "products") as [pv|]; [|reflexivity]);
      (destruct (map_receiver pv) as [l|]; [|reflexivity]); reflexivity.
  - intros id. unfold loadProduct.
    destruct (loadProduct_try API id tr) as [[d|e] tr'] eqn:Hrun; cbn [snd];
      change tr' with (snd (Ok d, tr')) || change tr' with (snd (Err (A := value) e, tr'));
      rewrite <- Hrun; unfold loadProduct_try; apply fetch_json_trace;
      intros v t; unfold bind, lift;
      destruct (get v "success") as [sv|]; [|reflexivity| |reflexivity];
      (destruct (truthy sv); [reflexivity | apply refuse_trace]).
  - unfold calculateShipping. destruct (truthy (selectedVariant s)); cbn [negb];
      [|reflexivity].
    destruct (calculateShipping_try API (selectedVariant s) tr) as [[d|e] tr'] eqn:Hrun;
      cbn [snd];
      change tr' with (snd (Ok d, tr')) || change tr' with (snd (Err (A := value) e, tr'));
      rewrite <- Hrun; unfold calculateShipping_try;
      apply (fetch_json_trace (shipping_request (selectedVariant s)));
      intros v t; unfold bind, lift;
      destruct (get v "success") as [sv|]; [|reflexivity| |reflexivity];
      (destruct (truthy sv); [reflexivity | apply refuse_trace]).
Qed.

End BrowserCoverage.

Lemma mug_estimate_reachable :
  BrowserSteps.reachable (B := MoreSamples.reader) MoreSamples.storefront
    MoreSamples.mug_estimate.
Proof.
  apply (BrowserSteps.reachable_step _ MoreSamples.mug_chosen).
  - apply (BrowserSteps.reachable_step _ MoreSamples.mug_open).
    + apply (BrowserSteps.reachable_step _ MoreSamples.catalog_loaded).
      * apply (BrowserSteps.reachable_step _ Browser.initial).
        -- apply BrowserSteps.reachable_initial.
        -- exact (BrowserSteps.step_mount _ []).
      * apply (BrowserSteps.step_open _ MoreSamples.catalog_loaded []
                 (Browser.products MoreSamples.catalog_loaded)
                 (Js.VObj [("id", Js.VNum 19%float); ("title", Js.VStr "Mug")]));
          [reflexivity | left; reflexivity].
    + apply (BrowserSteps.step_choose _ MoreSamples.mug_open
               MoreSamples.mug_detail Js.VNull "1320").
      reflexivity.
  - apply (BrowserSteps.step_calculate _ MoreSamples.mug_chosen
             MoreSamples.mug_detail
             (Js.VObj [("id", Js.VNum 1320%float); ("name", Js.VStr "White 11oz");
                       ("price", Js.VStr "7.95")]) []).
    reflexivity.
Qed.

Lemma tee_open_reachable :
  BrowserSteps.reachable (B := MoreSamples.reader) MoreSamples.storefront
    MoreSamples.tee_open.
Proof.
  apply (BrowserSteps.reachable_step _ MoreSamples.catalog_loaded).
  - apply (BrowserSteps.reachable_step _ Browser.initial).
    + apply BrowserSteps.reachable_initial.
    + exact (BrowserSteps.step_mount _ []).
  - apply (BrowserSteps.step_open _ MoreSamples.catalog_loaded []
             (Browser.products MoreSamples.catalog_loaded)
             (Js.VObj [("id", Js.VNum 71%float); ("title", Js.VStr "Tee")]));
      [reflexivity | right; left; reflexivity].
Qed.

Lemma states_witness :
  Cover.consistent MoreSamples.mug_estimate
  /\ (MoreSamples.mug_estimate = Browser.initial
      \/ Browser.loading MoreSamples.mug_estimate = false).
Proof.
  exact (states_stay_consistent (B := MoreSamples.reader) MoreSamples.storefront
           MoreSamples.mug_estimate mug_estimate_reachable).
Defined.

Lemma blank_witness :
  Browser.view MoreSamples.tee_open = Browser.product
  /\ Js.truthy (Browser.selectedProduct MoreSamples.tee_open) = false.
Proof.
  exact (blank_only_without_product (B := MoreSamples.reader)
           MoreSamples.storefront MoreSamples.tee_open tee_open_reachable
           eq_refl).
Defined.

Lemma refusal_witness :
  BrowserSteps.loadCatalog (B := Samples.engine)
    (Samples.always MoreSamples.refusal) Browser.initial []
  = (Browser.mkState [] Js.VNull Js.VNull (Js.VArr []) false
       (Some "Unknown action") Browser.catalog,
     [Net.mkRequest "/api/printful?action=popular" None [] None]).
Proof.
  exact (proj1 (refusal_is_shown (B := Samples.engine)
                  (Samples.always MoreSamples.refusal) Browser.initial []
                  MoreSamples.refusal
                  (Js.VObj [("success", Js.VBool false);
                            ("error", Js.VStr "Unknown action")])
                  eq_refl eq_refl eq_refl)
           _ eq_refl eq_refl).
Defined.

Lemma component_requests_witness :
  snd (BrowserSteps.calculateShipping (B := MoreSamples.reader)
         MoreSamples.storefront MoreSamples.mug_chosen [])
  = [Net.mkRequest "/api/printful?action=shipping" (Some "POST")
       [("Content-Type", "application/json")]
       (Some (Js.VObj
          [("recipient",
            Js.VObj [("address1", Js.VStr "123 Test St");
                     ("city", Js.VStr "Fort Myers");
                     ("state_code", Js.VStr "FL");
                     ("country_code", Js.VStr "US");
                     ("zip", Js.VStr "33901")]);
           ("items",
            Js.VArr [Js.VObj [("variant_id", Js.VNum 1320%float);
                              ("quantity", Js.VNum 1%float)]])]))].
Proof.
  exact (proj2 (proj2 (component_requests (B := MoreSamples.reader)
                         MoreSamples.storefront MoreSamples.mug_chosen []))).
Defined.

(* ================================================================== *)
(** * Further statements: the checkout route *)
(* ================================================================== *)

Section CheckoutCoverage.
Import Js Net Checkout Cover.
Context {B : Builtins}.
Variable W : world.
Variable F : provider.

Lemma present_given (q : list (string * string)) (name value : string) :
  given q name value <-> present (Route.searchParams_get q name) = Some value.
Proof.
  unfold given, present, str_truthy.
  destruct (Route.searchParams_get q name) as [s|]; [|split; [intros [H _]|]; discriminate].
  destruct (String.eqb_spec s "") as [->|Hne]; cbn [negb]; split.
  - intros [H Hv]. injection H as <-. contradiction.
  - discriminate.
  - intros [H _]. exact H.
  - intros H. injection H as <-. auto.
Qed.

Lemma present_not_given (q : list (string * string)) (name : string) :
  not_given q name <-> present (Route.searchParams_get q name) = None.
Proof.
  unfold not_given, present, str_truthy.
  destruct (Route.searchParams_get q name) as [s|]; [|tauto].
  destruct (String.eqb_spec s "") as [->|Hne]; cbn [negb]; split; auto;
    try discriminate.
  intros [H | H]; [discriminate | congruence].
Qed.

(** Enters the [try] block of a checkout that passes the checks, once the
    provider is known. *)
Ltac enter Hs Hp :=
  unfold POST, try_catch, attempt, bind, lift;
  destruct Hs as [Hs1 Hs2]; destruct Hp as [Hp1 [Hp2 Hp3]];
  apply present_given in Hp1, Hp2, Hp3;
  rewrite Hs1, Hs2, Hp1, Hp2, Hp3;
  cbn [String.eqb Ascii.eqb Bool.eqb orb negb];
  unfold fetch, function_request, supabaseUrl;
  cbn [String.eqb Ascii.eqb Bool.eqb].

(** X22.  The checkout route sends nothing, or exactly one request: a POST
    without a body to
    [<NEXT_PUBLIC_SUPABASE_URL>/functions/v1/<function>?productId=<id>&type=<type>],
    where the function is [stripe-checkout] for the provider ['stripe'] and
    [paypal-checkout] for ['paypal'], with the session's access token as
    bearer token.  It sends that request only for a session with a user,
    three non-empty parameters and one of these two providers. *)
Theorem checkout_sends_only_when_valid
  (q : list (string * string)) (tr : list request) :
  snd (POST W F q tr) = tr
  \/ exists sess provider productId type function,
       signed_in W sess
       /\ checkout_params q provider productId type
       /\ (provider = "stripe" /\ function = "stripe-checkout"
           \/ provider = "paypal" /\ function = "paypal-checkout")
       /\ snd (POST W F q tr)
          = (tr ++ [mkRequest
                      ((match NEXT_PUBLIC_SUPABASE_URL W with
                        | Some url => url
                        | None => "undefined"
                        end ++ "/functions/v1/" ++ function
                          ++ "?productId=" ++ productId ++ "&type=" ++ type)%string)
                      (Some "POST")
                      [("Authorization", ("Bearer " ++ access_token sess)%string);
                       ("Content-Type", "application/json")]
                      None])%list.
Proof.
  unfold POST, try_catch, attempt, bind, lift.
  destruct (getSession W) as [[sess|]|] eqn:Hs; cbn; try (now left).
  destruct (truthy (user sess)) eqn:Hu; cbn [negb]; [|now left].
  destruct (present (Route.searchParams_get q "provider")) as [provider|] eqn:H1;
    [|now left].
  destruct (present (Route.searchParams_get q "productId")) as [productId|] eqn:H2;
    [|now left].
  destruct (present (Route.searchParams_get q "type")) as [type|] eqn:H3;
    [|now left].
  destruct ((provider =? "stripe") || (provider =? "paypal")) eqn:Hv; cbn [negb];
    [|now left].
  right.
  exists sess, provider, productId, type,
    (if provider =? "stripe" then "stripe-checkout" else "paypal-checkout").
  split; [now split|].
  split.
  { split; [|split]; apply present_given; assumption. }
  split.
  { destruct (String.eqb_spec provider "stripe") as [->|Hne]; [now left|].
    cbn [orb] in Hv. apply String.eqb_eq in Hv. now right. }
  unfold fetch.
  destruct (F tr (function_request W sess provider productId type)) as [m|r];
    [reflexivity|].
  destruct (ok r); cbn [negb]; unfold read_json;
    destruct (body r) as [m|data]; try reflexivity.
  destruct (get data "error") as [e|]; [|reflexivity].
  now destruct (respond (status r) _).
Qed.

(** X23.  What the checkout route refuses before it sends anything: no
    session, or a session without a user, is answered with status 401 and
    [{error: 'Unauthorized'}]; a missing or empty [provider], [productId]
    or [type] with status 400 and [{error: 'Missing parameters'}]; a
    provider other than ['stripe'] and ['paypal'] with status 400 and
    [{error: 'Invalid provider'}].  The session is checked first. *)
Theorem checkout_rejections (q : list (string * string)) (tr : list request) :
  (getSession W = Ok None ->
   POST W F q tr
   = (Ok (Route.mkJson 401 (VObj [("error", VStr "Unauthorized")])), tr))
  /\ (forall sess, getSession W = Ok (Some sess) -> truthy (user sess) = false ->
      POST W F q tr
      = (Ok (Route.mkJson 401 (VObj [("error", VStr "Unauthorized")])), tr))
  /\ (forall sess, signed_in W sess ->
      not_given q "provider" \/ not_given q "productId" \/ not_given q "type" ->
      POST W F q tr
      = (Ok (Route.mkJson 400 (VObj [("error", VStr "Missing parameters")])), tr))
  /\ (forall sess provider productId type, signed_in W sess ->
      checkout_params q provider productId type ->
      provider <> "stripe" -> provider <> "paypal" ->
      POST W F q tr
      = (Ok (Route.mkJson 400 (VObj [("error", VStr "Invalid provider")])), tr)).
Proof.
  repeat split; unfold POST, try_catch, attempt, bind, lift.
  - intros ->. reflexivity.
  - intros sess -> ->. reflexivity.
  - intros sess [-> ->] Hmiss. cbn [negb].
    rewrite !present_not_given in Hmiss.
    destruct (present (Route.searchParams_get q "provider")),
      (present (Route.searchParams_get q "productId")),
      (present (Route.searchParams_get q "type")); try reflexivity.
    destruct Hmiss as [H | [H | H]]; discriminate.
  - intros sess provider productId type [-> ->] [Hp1 [Hp2 Hp3]] H1 H2.
    apply present_given in Hp1, Hp2, Hp3. rewrite Hp1, Hp2, Hp3. cbn [negb].
    destruct (String.eqb_spec provider "stripe"); [contradiction|].
    destruct (String.eqb_spec provider "paypal"); [contradiction|].
    reflexivity.
Qed.

(** X24.  A checkout that passes the checks hands the function's answer
    on.  An answer with a status in 200..299 is returned as it is with
    status 200.  An answer with a status in 300..599 other than 304 and a
    JSON body other than [null] is returned with the same status and, as
    [error], the answer's [error], or ['Checkout failed'] when that is
    falsy. *)
Theorem checkout_passthrough (q : list (string * string)) (tr : list request)
  (sess : session) (provider productId type function : string) (r : response)
  (data : value) :
  signed_in W sess ->
  checkout_params q provider productId type ->
  provider = "stripe" /\ function = "stripe-checkout"
  \/ provider = "paypal" /\ function = "paypal-checkout" ->
  let rq :=
    mkRequest
      (match NEXT_PUBLIC_SUPABASE_URL W with
       | Some url => url
       | None => "undefined"
       end ++ "/functions/v1/" ++ function
         ++ "?productId=" ++ productId ++ "&type=" ++ type)
      (Some "POST")
      [("Authorization", "Bearer " ++ access_token sess);
       ("Content-Type", "application/json")]
      None in
  F tr rq = Responded r ->
  body r = Json data ->
  (ok r = true ->
   POST W F q tr = (Ok (Route.mkJson 200 data), (tr ++ [rq])%list))
  /\ (nullish data = false -> (300 <= status r <= 599)%Z -> status r <> 304%Z ->
      POST W F q tr
      = (Ok (Route.mkJson (status r)
               (VObj [("error", or_else (prop data "error") (VStr "Checkout failed"))])),
         (tr ++ [rq])%list)).
Proof.
  intros Hs Hp Hv rq HF Hbody. subst rq. split.
  - intros Hok.
    destruct Hv as [[-> ->] | [-> ->]];
      enter Hs Hp; rewrite HF, Hok; cbn [negb]; unfold read_json;
      now rewrite Hbody.
  - intros Hnn Hst H304.
    assert (Hok : ok r = false).
    { unfold ok. destruct (Z.leb_spec 200 (status r)); [|reflexivity].
      destruct (Z.leb_spec (status r) 299); [lia | reflexivity]. }
    assert (Hin : ((200 <=? status r) && (status r <=? 599))%Z = true).
    { apply Bool.andb_true_iff. split; apply Z.leb_le; lia. }
    assert (Hnb : null_body_status (status r) = false).
    { unfold null_body_status.
      repeat match goal with
      | |- context [(status r =? ?n)%Z] =>
          destruct (Z.eqb_spec (status r) n); [lia|]
      end. reflexivity. }
    destruct Hv as [[-> ->] | [-> ->]];
      enter Hs Hp; rewrite HF, Hok; cbn [negb]; unfold read_json;
      rewrite Hbody, (get_ok data _ Hnn); unfold respond; now rewrite Hin, Hnb.
Qed.

(** X25.  A checkout that gets no usable answer is reported with status 500
    and [{error: 'Internal server error'}], without the cause: when
    [getSession] throws; and, for a checkout that passes the checks, when the
    request fails, when the answer is not JSON, and when an answer with a
    failure status is the JSON [null] or has a status that a response with a
    body cannot carry (304, or one outside 200..599). *)
Theorem checkout_masks_failures (q : list (string * string)) (tr : list request) :
  (forall e, getSession W = Err e ->
     POST W F q tr
     = (Ok (Route.mkJson 500 (VObj [("error", VStr "Internal server error")])), tr))
  /\ (forall sess provider productId type function,
        signed_in W sess ->
        checkout_params q provider productId type ->
        provider = "stripe" /\ function = "stripe-checkout"
        \/ provider = "paypal" /\ function = "paypal-checkout" ->
        let rq :=
          mkRequest
            (match NEXT_PUBLIC_SUPABASE_URL W with
             | Some url => url
             | None => "undefined"
             end ++ "/functions/v1/" ++ function
               ++ "?productId=" ++ productId ++ "&type=" ++ type)
            (Some "POST")
            [("Authorization", "Bearer " ++ access_token sess);
             ("Content-Type", "application/json")]
            None in
        (exists m, F tr rq = FetchFailed m)
        \/ (exists r m, F tr rq = Responded r /\ body r = BadJson m)
        \/ (exists r data, F tr rq = Responded r /\ ok r = false
                           /\ body r = Json data
                           /\ (nullish data = true \/ status r = 304%Z
                               \/ (status r < 200)%Z \/ (599 < status r)%Z)) ->
        POST W F q tr
        = (Ok (Route.mkJson 500 (VObj [("error", VStr "Internal server error")])),
           (tr ++ [rq])%list)).
Proof.
  split.
  - intros e He. unfold POST, try_catch, attempt, bind, lift. now rewrite He.
  - intros sess provider productId type function Hs Hp Hv rq Hcause. subst rq.
    destruct Hcause
      as [[m HF] | [[r [m [HF Hbody]]] | [r [data [HF [Hok [Hbody Hwhy]]]]]]].
    + destruct Hv as [[-> ->] | [-> ->]]; enter Hs Hp; now rewrite HF.
    + destruct Hv as [[-> ->] | [-> ->]];
        enter Hs Hp; rewrite HF; unfold read_json; rewrite Hbody;
        now destruct (ok r).
    + assert (Hthrows : forall answer, nullish data = false ->
                exists e, respond (status r) answer = Err e).
      { intros answer Hn. unfold respond.
        destruct Hwhy as [H | [H | [H | H]]]; [congruence| | |].
        - rewrite H. eexists; reflexivity.
        - destruct (Z.leb_spec 200 (status r)); [lia|]. eexists; reflexivity.
        - destruct (Z.leb_spec (status r) 599); [lia|].
          rewrite Bool.andb_false_r. eexists; reflexivity. }
      destruct Hv as [[-> ->] | [-> ->]];
        enter Hs Hp; rewrite HF, Hok; cbn [negb]; unfold read_json, get;
        rewrite Hbody;
        (destruct (nullish data) eqn:Hn; [reflexivity|]);
        (destruct (Hthrows (VObj [("error",
                     or_else (prop data "error") (VStr "Checkout failed"))])
                   eq_refl) as [e He]);
        now rewrite He.
Qed.

End CheckoutCoverage.

Lemma checkout_rejections_witness :
  Checkout.POST (B := Samples.engine) MoreSamples.shopper Samples.unreachable
    MoreSamples.by_cheque []
  = (Js.Ok (Route.mkJson 400 (Js.VObj [("error", Js.VStr "Invalid provider")])), []).
Proof.
  apply (proj2 (proj2 (proj2
           (checkout_rejections (B := Samples.engine) MoreSamples.shopper
              Samples.unreachable MoreSamples.by_cheque [])))
           MoreSamples.shopper_session "cheque" "p1" "ebook").
  - split; reflexivity.
  - repeat split; try reflexivity; discriminate.
  - discriminate.
  - discriminate.
Defined.

Lemma checkout_passthrough_witness :
  Checkout.POST (B := Samples.engine) MoreSamples.shopper
    (Samples.always MoreSamples.declined) MoreSamples.by_card []
  = (Js.Ok (Route.mkJson 402 (Js.VObj [("error", Js.VStr "Card declined")])),
     [Net.mkRequest
        "https://project.supabase.co/functions/v1/stripe-checkout?productId=p1&type=ebook"
        (Some "POST")
        [("Authorization", "Bearer token-1"); ("Content-Type", "application/json")]
        None]).
Proof.
  assert (Hp : Cover.checkout_params MoreSamples.by_card "stripe" "p1" "ebook").
  { repeat split; try reflexivity; discriminate. }
  apply (proj2 (checkout_passthrough (B := Samples.engine) MoreSamples.shopper
                  (Samples.always MoreSamples.declined) MoreSamples.by_card []
                  MoreSamples.shopper_session "stripe" "p1" "ebook"
                  "stripe-checkout" MoreSamples.declined
                  (Js.VObj [("error", Js.VStr "Card declined")])
                  (conj eq_refl eq_refl) Hp
                  (or_introl (conj eq_refl eq_refl)) eq_refl eq_refl)).
  - reflexivity.
  - cbn. lia.
  - discriminate.
Defined.

Lemma checkout_masks_witness :
  Checkout.POST (B := Samples.engine) MoreSamples.shopper Samples.unreachable
    MoreSamples.by_card []
  = (Js.Ok (Route.mkJson 500 (Js.VObj [("error", Js.VStr "Internal server error")])),
     [Net.mkRequest
        "https://project.supabase.co/functions/v1/stripe-checkout?productId=p1&type=ebook"
        (Some "POST")
        [("Authorization", "Bearer token-1"); ("Content-Type", "application/json")]
        None]).
Proof.
  apply (proj2 (checkout_masks_failures (B := Samples.engine) MoreSamples.shopper
                  Samples.unreachable MoreSamples.by_card [])
           MoreSamples.shopper_session "stripe" "p1" "ebook" "stripe-checkout").
  - split; reflexivity.
  - repeat split; try reflexivity; discriminate.
  - left. split; reflexivity.
  - left. eexists. reflexivity.
Defined.

(* ================================================================== *)
(** * Further statements: the product creation route *)
(* ================================================================== *)

Section CreateCoverage.
Import Js CreateProduct.
Variable parseInt10 : string -> float.
Variable W : world.


(** X27.  When the product insert reports an error, the route answers 400
    with the error's [message] and writes nothing else, also for a
    series. *)
Theorem insert_error_is_400 (form : list (string * string))
  (product error : value) :
  createServerClient W = Ok tt ->
  formData W = Ok form ->
  insert_product W (product_row parseInt10 form) = Ok (product, error) ->
  truthy error = true ->
  POST parseInt10 W
  = (Route.mkJson 400 (VObj [("error", prop error "message")]),
     [InsertProduct (product_row parseInt10 form)]).
Proof.
  intros Hc Hf Hi He. unfold POST. rewrite Hc, Hf. cbv zeta. now rewrite Hi, He.
Qed.

(** X28.  For a series the product row stays written when the second step
    fails: if the series insert throws, or the product insert returned no
    row, the route answers 500 ['Internal server error'] after the product
    insert was made. *)
Theorem product_stays_when_series_fails (form : list (string * string))
  (product error : value) :
  createServerClient W = Ok tt ->
  formData W = Ok form ->
  insert_product W (product_row parseInt10 form) = Ok (product, error) ->
  truthy error = false ->
  form_get form "is_series" = Some "true" ->
  let series :=
    VObj [("product_id", prop product "id"); ("interval", VStr "month");
          ("price_cents", VNum 900%float)] in
  (nullish product = true ->
   POST parseInt10 W
   = (Route.mkJson 500 (VObj [("error", VStr "Internal server error")]),
      [InsertProduct (product_row parseInt10 form)]))
  /\ (forall e, nullish product = false ->
      insert_series W series = Err e ->
      POST parseInt10 W
      = (Route.mkJson 500 (VObj [("error", VStr "Internal server error")]),
         [InsertProduct (product_row parseInt10 form); InsertSeries series])).
Proof.
  intros Hc Hf Hi He Hs series.
  assert (Hflag : flag form "is_series" = true) by (unfold flag; now rewrite Hs).
  unfold POST. rewrite Hc, Hf. cbv zeta.
  rewrite Hi, He, Hflag. split.
  - intros ->. reflexivity.
  - intros e -> Hseries. subst series. unfold series_row. now rewrite Hseries.
Qed.

(** X29.  The route answers 200, 400 or 500, and 200 only after a product
    insert that reported no error; the body of a 200 is [success: true] with
    the inserted row as [product]. *)
Theorem created_product_is_returned :
  In (Route.res_status (fst (POST parseInt10 W))) [200; 400; 500]%Z
  /\ (Route.res_status (fst (POST parseInt10 W)) = 200%Z ->
      exists form product error,
        formData W = Ok form
        /\ insert_product W (product_row parseInt10 form) = Ok (product, error)
        /\ truthy error = false
        /\ Route.res_body (fst (POST parseInt10 W))
           = VObj [("success", VBool true); ("product", product)]).
Proof.
  unfold POST.
  destruct (createServerClient W); [|cbn; split; [tauto | discriminate]].
  destruct (formData W) as [form|]; [|cbn; split; [tauto | discriminate]].
  cbv zeta.
  destruct (insert_product W (product_row parseInt10 form)) as [[product error]|]
    eqn:Hi; [|cbn; split; [tauto | discriminate]].
  destruct (truthy error) eqn:He; [cbn; split; [tauto | discriminate]|].
  destruct (flag form "is_series").
  - destruct (nullish product); [cbn; split; [tauto | discriminate]|].
    destruct (insert_series W (series_row product));
      [|cbn; split; [tauto | discriminate]].
    cbn. split; [tauto|]. intros _. exists form, product, error. auto.
  - cbn. split; [tauto|]. intros _. exists form, product, error. auto.
Qed.

End CreateCoverage.


Lemma insert_error_witness :
  CreateProduct.POST MoreSamples.decimal
    (MoreSamples.studio MoreSamples.duplicate_slug (Js.Ok tt))
  = (Route.mkJson 400
       (Js.VObj [("error",
                  Js.VStr "duplicate key value violates unique constraint")]),
     [CreateProduct.InsertProduct
        (CreateProduct.product_row MoreSamples.decimal MoreSamples.newsletter_form)]).
Proof.
  exact (insert_error_is_400 MoreSamples.decimal
           (MoreSamples.studio MoreSamples.duplicate_slug (Js.Ok tt))
           MoreSamples.newsletter_form (Js.VObj [("id", Js.VStr "p9")])
           MoreSamples.duplicate_slug eq_refl eq_refl eq_refl eq_refl).
Defined.

Lemma series_failure_witness :
  CreateProduct.POST MoreSamples.decimal
    (MoreSamples.studio Js.VNull (Js.Err (Js.Error "connection reset")))
  = (Route.mkJson 500 (Js.VObj [("error", Js.VStr "Internal server error")]),
     [CreateProduct.InsertProduct
        (CreateProduct.product_row MoreSamples.decimal MoreSamples.newsletter_form);
      CreateProduct.InsertSeries
        (Js.VObj [("product_id", Js.VStr "p9"); ("interval", Js.VStr "month");
                  ("price_cents", Js.VNum 900%float)])]).
Proof.
  exact (proj2 (product_stays_when_series_fails MoreSamples.decimal
                  (MoreSamples.studio Js.VNull (Js.Err (Js.Error "connection reset")))
                  MoreSamples.newsletter_form (Js.VObj [("id", Js.VStr "p9")])
                  Js.VNull eq_refl eq_refl eq_refl eq_refl eq_refl)
           (Js.Error "connection reset") eq_refl eq_refl).
Defined.

(* ================================================================== *)
(** * Further statements: the health check *)
(* ================================================================== *)

Section HealthCoverage.
Import Js Health.
Context {B : Builtins}.
Variable W : world.

Lemma report_status (dbError : value) :
  prop (report W dbError) "status"
  = VStr (if dbStatus dbError =? "healthy" then "ok" else "degraded").
Proof. reflexivity. Qed.

Lemma dbStatus_cases (dbError : value) :
  (dbStatus dbError = "healthy"
   /\ (truthy dbError = false \/ prop dbError "code" = VStr "PGRST116"))
  \/ (dbStatus dbError = "unhealthy"
      /\ truthy dbError = true /\ prop dbError "code" <> VStr "PGRST116").
Proof.
  unfold dbStatus. destruct (truthy dbError); cbn [andb]; [|left; auto].
  destruct (prop dbError "code") as [| |b|n|t|l|fs]; cbn [differs_from];
    try (right; repeat split; discriminate).
  destruct (String.eqb_spec t "PGRST116") as [->|Hne]; cbn [negb].
  - left; auto.
  - right. repeat split. congruence.
Qed.

(** X30.  The health check answers 200 or 503 and always forbids caching.
    It answers 200, with [status: 'ok'], exactly when the client was created
    and the probing query reported no error or the error code ['PGRST116']
    (no row); any other reported error gives 503 with [status: 'degraded'],
    and an exception gives 503 with [status: 'unhealthy']. *)
Theorem health_status :
  cache_control (GET W) = "no-store, must-revalidate"
  /\ (status (GET W) = 200%Z /\ prop (body (GET W)) "status" = VStr "ok"
      /\ (exists dbError,
            createServerClient W = Ok tt /\ probe W = Ok dbError
            /\ (truthy dbError = false \/ prop dbError "code" = VStr "PGRST116"))
      \/ status (GET W) = 503%Z /\ prop (body (GET W)) "status" = VStr "degraded"
         /\ (exists dbError,
               createServerClient W = Ok tt /\ probe W = Ok dbError
               /\ truthy dbError = true /\ prop dbError "code" <> VStr "PGRST116")
      \/ status (GET W) = 503%Z /\ prop (body (GET W)) "status" = VStr "unhealthy"
         /\ ((exists e, createServerClient W = Err e)
             \/ (exists e, probe W = Err e))).
Proof.
  unfold GET.
  destruct (createServerClient W) as [[]|e];
    [|split; [reflexivity|]; right; right; eauto 6].
  destruct (probe W) as [dbError|e];
    [|split; [reflexivity|]; right; right; eauto 6].
  split; [reflexivity|]. cbv zeta. cbn [status body].
  rewrite report_status.
  destruct (dbStatus_cases dbError) as [[-> Hok] | [-> [Ht Hc]]].
  - left. repeat split. eauto.
  - right; left. repeat split. eauto.
Qed.

End HealthCoverage.
